(** * The discriminator-classifier perturbation space of pertpy

    A shallow embedding of
    [pertpy/tools/_perturbation_space/_discriminator_classifier.py]:
    the [MLP] module, the [PLDataset] dataset, the [PerturbationClassifier]
    wrapper and the three methods [load], [train] and [get_embeddings] of
    [DiscriminatorClassifierSpace], followed by the properties of the
    module's specification. *)

From Stdlib Require Import QArith Qround.
From stdpp Require Import gmap strings list sorting pretty.

Local Open Scope string_scope.
Local Open Scope list_scope.
Local Open Scope nat_scope.

(** ** Exceptions and the error monad

    Python exceptions are values; a computation that may raise returns a
    [result]. *)

Inductive message :=
| LayerKeyNotFound (layer_key : string)
    (* f"Layer key {layer_key} not found in adata." *)
| ColumnMissing (target_col : string)
    (* f"Column {target_col!r} does not exist in the .obs attribute." *)
| BadLastLayerAct
    (* "last_layer_act must be one of 'linear' or 'ReLU'" *)
| NotTwoDimensional (ndim : nat)
    (* anndata: f"X needs to be 2-dimensional, not {ndim}-dimensional." *)
| BadBatchSize
    (* torch DataLoader: "batch_size should be a positive integer value" *)
| EmptyInput
    (* sklearn: "Found array with 0 sample(s) ... a minimum of 1 is required" *)
| BadNumSamples
    (* torch sampler: "num_samples should be a positive integer value" *)
| NotATensor
    (* torch.tensor over strings: "too many dimensions 'str'" *)
| LengthMismatch
    (* pandas: "Length of values does not match length of index" *)
| SplitFailed.
    (* any ValueError of sklearn's train_test_split *)

Inductive exn :=
| ValueError (msg : message)
| KeyError (key : string)
| TypeError
| AttributeError (name : string)
| UnboundLocalError (name : string).

Inductive result (A : Type) :=
| Ok (a : A)
| Raise (e : exn).
Arguments Ok {A} a.
Arguments Raise {A} e.

Global Instance result_ret : MRet result := @Ok.
Global Instance result_bind : MBind result := λ A B f m,
  match m with
  | Ok a => f a
  | Raise e => Raise e
  end.

(** ** torch.nn modules *)

Inductive layer :=
| Linear (in_features out_features : nat)
| BatchNorm1d (num_features : nat)
| LayerNorm (normalized_shape : nat)
| ReLU
| Dropout (p : Q).

Record MLP := mkMLP {
  network : list layer;          (* the modules of torch.nn.Sequential *)
  activation : string;
  sizes : list nat;
  mlp_batch_norm : bool;
  mlp_layer_norm : bool;
  last_layer_act : string
}.

(** The five candidate modules of the loop body for index [s]; [None] where
    the conditional expression yields [None]. *)
Definition MLP_block (sizes : list nat) (dropout : Q)
    (batch_norm layer_norm : bool) (s : nat) : list (option layer) :=
  let hidden := s <? length sizes - 2 in
  [ Some (Linear (nth s sizes 0) (nth (s + 1) sizes 0));
    if batch_norm && hidden
    then Some (BatchNorm1d (nth (s + 1) sizes 0)) else None;
    if layer_norm && hidden && negb batch_norm
    then Some (LayerNorm (nth (s + 1) sizes 0)) else None;
    Some ReLU;
    if hidden then Some (Dropout dropout) else None ].

(** [for s in range(len(sizes) - 1): layers += [...]] *)
Definition MLP_layers (sizes : list nat) (dropout : Q)
    (batch_norm layer_norm : bool) : list (option layer) :=
  flat_map (MLP_block sizes dropout batch_norm layer_norm)
           (seq 0 (length sizes - 1)).

(** [MLP.__init__] *)
Definition MLP_init (sizes : list nat) (dropout : Q)
    (batch_norm layer_norm : bool) (last_layer_act : string) : result MLP :=
  let layers := MLP_layers sizes dropout batch_norm layer_norm in
  (* [layer for layer in layers if layer is not None][:-1] *)
  let layers := removelast (omap id layers) in
  if decide (last_layer_act = "linear" ∨ last_layer_act = "ReLU") then
    Ok (mkMLP layers last_layer_act sizes batch_norm layer_norm last_layer_act)
  else Raise (ValueError BadLastLayerAct).

(** The modules of one hidden layer, as they end up in the network. *)
Definition hidden_block (dropout : Q) (batch_norm layer_norm : bool)
    (n_in n_out : nat) : list layer :=
  [Linear n_in n_out]
  ++ (if batch_norm then [BatchNorm1d n_out] else [])
  ++ (if layer_norm && negb batch_norm then [LayerNorm n_out] else [])
  ++ [ReLU; Dropout dropout].

(** The hidden part of a network over the layer sizes [n_in :: hidden_dim]. *)
Fixpoint hidden_blocks (dropout : Q) (batch_norm layer_norm : bool)
    (n_in : nat) (hidden_dim : list nat) : list layer :=
  match hidden_dim with
  | [] => []
  | h :: hidden_dim =>
      hidden_block dropout batch_norm layer_norm n_in h
      ++ hidden_blocks dropout batch_norm layer_norm h hidden_dim
  end.

(** Width of a sample after a module, from its width before it. *)
Definition layer_out (l : layer) (width : nat) : nat :=
  match l with
  | Linear _ out_features => out_features
  | _ => width
  end.

(** ** Annotated data *)

(** A cell of an observation table: a string (a perturbation label, or
    any other annotation) or a float32 array (a one-hot encoded label).
    The entries of these arrays are zeros and ones; they, their sums and
    the sampling weights computed from them are exact in float32 and are
    rationals here. *)
Inductive value :=
| Str (s : string)
| Arr (a : list Q).

Global Instance Q_eq_dec : EqDecision Q.
Proof. solve_decision. Defined.
Global Instance value_eq_dec : EqDecision value.
Proof. solve_decision. Defined.

(** A column of an observation table, one value per row. *)
Abbreviation column := (list value).

(** ** The numeric back end

    What the embedding takes from torch and scikit-learn without fixing it:
    the entries of the matrices, the function each module of the trained
    network computes, and the random stratified split. *)
Class Backend := {
  (** entries of data matrices and tensors *)
  num : Type;
  (** [x.to(torch.float32)] on one entry *)
  to_float32 : num → num;
  (** What a module of the trained network computes on one sample.
      [get_embeddings] puts the model in evaluation mode, where batch
      normalisation uses its running statistics and dropout is the
      identity, so every module acts on each sample of a batch
      independently. *)
  apply_layer : layer → list num → list num;
  (** [train_test_split(X, y, test_size=.., stratify=..)], returning
      [(X_train, X_test, y_train, y_test)], or [None] where scikit-learn
      raises its [ValueError] *)
  train_test_split :
    list nat → column → Q → column →
    option (list nat * list nat * column * column);
  (** the number of test samples scikit-learn derives from a fraction and
      the number of samples (the fraction of the samples, rounded up in
      floating point) *)
  n_test : Q → nat → nat
}.

Section Model.
Context `{B : Backend}.

Local Abbreviation matrix := (list (list num)).

(** *** The network on one sample *)

(** [torch.nn.Sequential.__call__] *)
Definition sequential (layers : list layer) (x : list num) : list num :=
  fold_left (λ x l, apply_layer l x) layers x.

(** [MLP.forward] *)
Definition MLP_forward (net : MLP) (x : list num) : list num :=
  if decide (activation net = "ReLU")
  then apply_layer ReLU (sequential (network net) x)
  else sequential (network net) x.

(** [MLP.embedding]: [for layer in self.network[:-1]: x = layer(x)] *)
Definition MLP_embedding (net : MLP) (x : list num) : list num :=
  fold_left (λ x l, apply_layer l x) (removelast (network net)) x.

(** *** AnnData *)

Record AnnData := mkAnnData {
  X : matrix;                       (* cells x genes *)
  obs : gmap string column;         (* observation table, by column *)
  var_names : list string;          (* index of the variable table *)
  layers : gmap string matrix
}.

Definition n_obs (adata : AnnData) : nat := length (X adata).
Definition n_vars (adata : AnnData) : nat := length (var_names adata).

(** Rows [idx] of a matrix or of a column. The indices come from
    [range(n_obs)], so none is out of range. *)
Definition take_rows {A} (idx : list nat) (rows : list A) : list A :=
  omap (λ i, rows !! i) idx.

(** [adata[idx]]: the view on the cells [idx] *)
Definition subset (adata : AnnData) (idx : list nat) : AnnData :=
  {| X := take_rows idx (X adata);
     obs := take_rows idx <$> obs adata;
     var_names := var_names adata;
     layers := take_rows idx <$> layers adata |}.

(** [adata.obs[col] = values] *)
Definition set_obs (adata : AnnData) (col : string) (values : column)
    : AnnData :=
  {| X := X adata;
     obs := <[col := values]> (obs adata);
     var_names := var_names adata;
     layers := layers adata |}.

(** [adata.obs[col]] *)
Definition get_obs (adata : AnnData) (col : string) : result column :=
  match obs adata !! col with
  | Some c => Ok c
  | None => Raise (KeyError col)
  end.

(** *** Labels and their one-hot encoding *)

(** The strings of a column of labels; hashing a float32 array raises
    [TypeError]. *)
Fixpoint labels_of (c : column) : result (list string) :=
  match c with
  | [] => Ok []
  | Str s :: c => ls ← labels_of c; Ok (s :: ls)
  | Arr _ :: _ => Raise TypeError
  end.

(** [Series.unique()]: the distinct values, in order of appearance *)
Definition unique (values : list string) : list string :=
  fold_left (λ seen v, if decide (v ∈ seen) then seen else seen ++ [v])
            values [].

(** [OneHotEncoder.categories_]: the distinct values, sorted *)
Definition categories (values : list string) : list string :=
  merge_sort String.le (unique values).

(** A row of [OneHotEncoder().fit_transform(labels).toarray()] *)
Definition one_hot (cats : list string) (v : string) : list Q :=
  map (λ c, if decide (c = v) then 1%Q else 0%Q) cats.

Definition fit_transform (values : list string) : list (list Q) :=
  map (one_hot (categories values)) values.

(** *** PLDataset *)

Record PLDataset := mkPLDataset {
  data : matrix;
  labels : column;
  pert_labels : column
}.

(** [PLDataset.__init__]; [if layer_key:] is false for [None] and for
    the empty string. *)
Definition PLDataset_init (adata : AnnData) (target_col label_col : string)
    (layer_key : option string) : result PLDataset :=
  data ← match layer_key with
         | Some k =>
             if decide (k = "") then Ok (X adata)
             else match layers adata !! k with
                  | Some m => Ok m
                  | None => Raise (KeyError k)
                  end
         | None => Ok (X adata)
         end;
  labels ← get_obs adata target_col;
  pert_labels ← get_obs adata label_col;
  Ok (mkPLDataset data labels pert_labels).

(** [PLDataset.__len__] *)
Definition PLDataset_len (d : PLDataset) : nat := length (data d).

(** *** Data loaders *)

Record WeightedRandomSampler := mkSampler {
  weights : list Q;
  num_samples : nat
}.

Record DataLoader := mkDataLoader {
  dataset : PLDataset;
  dl_batch_size : Z;
  sampler : option WeightedRandomSampler;
  shuffle : bool;
  num_workers : nat
}.

(** [DataLoader.__init__] refuses a batch size that is not positive. *)
Definition DataLoader_init (dataset : PLDataset) (batch_size : Z)
    (sampler : option WeightedRandomSampler) (shuffle : bool)
    (num_workers : nat) : result DataLoader :=
  if decide (batch_size ≤ 0)%Z then Raise (ValueError BadBatchSize)
  else Ok (mkDataLoader dataset batch_size sampler shuffle num_workers).

(** A collated batch: samples, encoded labels, string labels. *)
Record batch := mkBatch {
  batch_x : matrix;
  batch_num_label : column;
  batch_str_label : column
}.

(** The index batches of a sequential loader over [n] samples, without
    [drop_last]: full batches, then the remainder if there is one. *)
Definition batch_indices (n bs : nat) : list (list nat) :=
  map (λ k, seq (k * bs) (min bs (n - k * bs)))
      (seq 0 ((n + bs - 1) / bs)).

(** [PLDataset.__getitem__] on the indices of a batch, collated; a row of
    a sparse matrix is densified to the same sample. *)
Definition collate (d : PLDataset) (idx : list nat) : batch :=
  {| batch_x := take_rows idx (data d);
     batch_num_label := take_rows idx (labels d);
     batch_str_label := take_rows idx (pert_labels d) |}.

(** Iterating a loader that neither shuffles nor samples. *)
Definition DataLoader_iter (dl : DataLoader) : list batch :=
  map (collate (dataset dl))
      (batch_indices (PLDataset_len (dataset dl))
                     (Z.to_nat (dl_batch_size dl))).

(** *** PerturbationClassifier *)

Record PerturbationClassifier := mkPerturbationClassifier {
  pc_net : MLP;
  pc_batch_size : Z
}.

(** [PerturbationClassifier.__init__]: the given model if there is one,
    otherwise [_create_model] with the default hyperparameters. *)
Definition PerturbationClassifier_init (model : option MLP)
    (batch_size : Z) : result PerturbationClassifier :=
  net ← match model with
        | Some m => Ok m
        | None => MLP_init [512] 0 true false "linear"
        end;
  Ok (mkPerturbationClassifier net batch_size).

(** [PerturbationClassifier.embedding], on the samples of a batch *)
Definition PerturbationClassifier_embedding
    (self : PerturbationClassifier) (x : matrix) : matrix :=
  map (MLP_embedding (pc_net self)) x.

(** [PerturbationClassifier.get_embeddings] *)
Definition PerturbationClassifier_get_embeddings
    (self : PerturbationClassifier) (b : batch) : matrix * column :=
  let x := map (map to_float32) (batch_x b) in
  let embedding := PerturbationClassifier_embedding self x in
  (embedding, batch_str_label b).

(** *** Tensors: a shape and the entries in row-major order *)

Record tensor := mkTensor {
  shape : list nat;
  entries : list num
}.

(** Width of the samples of a batch. *)
Definition n_cols (m : matrix) : nat :=
  match m with
  | row :: _ => length row
  | [] => 0
  end.

(** The two-dimensional tensor of the rows of a batch. *)
Definition stack (m : matrix) : tensor :=
  {| shape := [length m; n_cols m]; entries := concat m |}.

(** [torch.squeeze]: every axis of size 1 is removed. *)
Definition squeeze (t : tensor) : tensor :=
  {| shape := filter (λ d, d ≠ 1) (shape t); entries := entries t |}.

(** The [r] rows of width [c] of a row-major list of entries. *)
Definition reshape (r c : nat) (xs : list num) : matrix :=
  map (λ i, take c (drop (i * c) xs)) (seq 0 r).

(** [AnnData(X=array)]: anndata accepts a two-dimensional [X] only and
    raises [ValueError] otherwise; the variables get the names "0", "1",
    ... *)
Definition AnnData_init (t : tensor) : result AnnData :=
  match shape t with
  | [r; c] =>
      Ok {| X := reshape r c (entries t);
            obs := ∅;
            var_names := pretty <$> seq 0 c;
            layers := ∅ |}
  | s => Raise (ValueError (NotTwoDimensional (length s)))
  end.

(** [adata.obs[col] = values], for a list of values: its length has to
    be the number of rows. *)
Definition assign_obs (adata : AnnData) (col : string) (values : column)
    : result AnnData :=
  if decide (length values = n_obs adata) then Ok (set_obs adata col values)
  else Raise (ValueError LengthMismatch).

(** The columns [keep] of the data matrix, found by name. *)
Definition select_vars (keep : list string) (adata : AnnData) : matrix :=
  map (λ row,
         omap (λ v, i ← fst <$> list_find (λ w, w = v) (var_names adata);
                    row !! i) keep)
      (X adata).

(** [anndata.concat([a, b])] of two objects without layers: the rows of
    both, over the variables they share (inner join), with the
    observation columns they share. *)
Definition anndata_concat (a b : AnnData) : AnnData :=
  let keep := filter (λ v, v ∈ var_names b) (var_names a) in
  {| X := select_vars keep a ++ select_vars keep b;
     obs := intersection_with (λ c1 c2, Some (c1 ++ c2)) (obs a) (obs b);
     var_names := keep;
     layers := ∅ |}.

(** *** DiscriminatorClassifierSpace *)

Record DiscriminatorClassifierSpace := mkDCS {
  train_dataloader : DataLoader;
  test_dataloader : DataLoader;
  valid_dataloader : DataLoader;
  net : MLP;
  entire_dataset : DataLoader;
  adata_obs : gmap string column;
  model : option PerturbationClassifier
}.

(** The keyword arguments of [load]. *)
Record load_args := mkArgs {
  target_col : string;
  layer_key : option string;
  hidden_dim : option (list nat);
  dropout : Q;
  batch_norm : bool;
  batch_size : Z;
  test_split_size : Q;
  validation_split_size : Q
}.

Definition load_defaults : load_args :=
  {| target_col := "perturbations";
     layer_key := None;
     hidden_dim := None;
     dropout := 0;
     batch_norm := true;
     batch_size := 256;
     test_split_size := 1 # 5;
     validation_split_size := 1 # 4 |}.

(** What [train_test_split] returns, or its [ValueError]. *)
Definition split_or_raise {A} (r : option A) : result A :=
  match r with
  | Some x => Ok x
  | None => Raise (ValueError SplitFailed)
  end.

(** Lines 84-90 of [load]: the indices of the train, validation and test
    cells. *)
Definition load_split (adata : AnnData) (a : load_args)
    : result (list nat * list nat * list nat) :=
  let X_ := seq 0 (n_obs adata) in
  y ← get_obs adata (target_col a);
  '(X_train, X_test, y_train, y_test) ←
    split_or_raise (train_test_split X_ y (test_split_size a) y);
  '(X_train, X_val, y_train, y_val) ←
    split_or_raise
      (train_test_split X_train y_train (validation_split_size a) y_train);
  Ok (X_train, X_val, X_test).

(** [torch.tensor(labels)] for a column of float32 arrays *)
Fixpoint tensor_of_column (c : column) : result (list (list Q)) :=
  match c with
  | [] => Ok []
  | Arr a :: c => rows ← tensor_of_column c; Ok (a :: rows)
  | Str _ :: _ => Raise (ValueError NotATensor)
  end.

(** [torch.sum(_, dim=1)] on one row *)
Definition row_sum (row : list Q) : Q := fold_right Qplus 0%Q row.

(** [1 / (1 + torch.sum(torch.tensor(labels), dim=1))] *)
Definition train_weights_of (labels : column) : result (list Q) :=
  rows ← tensor_of_column labels;
  Ok (map (λ row, 1 / (1 + row_sum row))%Q rows).

Definition WeightedRandomSampler_init (weights : list Q)
    (num_samples : nat) : result WeightedRandomSampler :=
  if decide (num_samples = 0) then Raise (ValueError BadNumSamples)
  else Ok (mkSampler weights num_samples).

(** [load] from line 83 on, on the data object that already carries the
    encoded labels. *)
Definition load_rest (adata : AnnData) (a : load_args)
    (hidden_dim : list nat) (n_classes : nat)
    : result DiscriminatorClassifierSpace :=
  '(X_train, X_val, X_test) ← load_split adata a;
  train_dataset ← PLDataset_init (subset adata X_train)
                    "encoded_perturbations" (target_col a) (layer_key a);
  val_dataset ← PLDataset_init (subset adata X_val)
                  "encoded_perturbations" (target_col a) (layer_key a);
  test_dataset ← PLDataset_init (subset adata X_test)
                   "encoded_perturbations" (target_col a) (layer_key a);
  train_weights ← train_weights_of (labels train_dataset);
  train_sampler ← WeightedRandomSampler_init train_weights
                    (length train_weights);
  train_dataloader ← DataLoader_init train_dataset (batch_size a)
                       (Some train_sampler) false 4;
  test_dataloader ← DataLoader_init test_dataset (batch_size a)
                      None false 4;
  valid_dataloader ← DataLoader_init val_dataset (batch_size a)
                       None false 4;
  let sizes := [n_vars adata] ++ hidden_dim ++ [n_classes] in
  net ← MLP_init sizes (dropout a) (batch_norm a) false "linear";
  total_dataset ← PLDataset_init adata
                    "encoded_perturbations" (target_col a) (layer_key a);
  entire_dataset ← DataLoader_init total_dataset (batch_size a * 2)
                     None false 0;
  Ok {| train_dataloader := train_dataloader;
        test_dataloader := test_dataloader;
        valid_dataloader := valid_dataloader;
        net := net;
        entire_dataset := entire_dataset;
        adata_obs := obs adata;
        model := None |}.

(** [load] from line 70 on, once the layer key has passed its check.
    [unique()] needs labels it can hash, and the encoder refuses an empty
    column; both raise before the data object is written to. *)
Definition load_checked (adata : AnnData) (a : load_args)
    : AnnData * result DiscriminatorClassifierSpace :=
  if decide (target_col a ∉ dom (obs adata))
  then (adata, Raise (ValueError (ColumnMissing (target_col a))))
  else
    let hidden_dim := default [512] (hidden_dim a) in
    match c ← get_obs adata (target_col a); labels_of c with
    | Raise e => (adata, Raise e)
    | Ok [] => (adata, Raise (ValueError EmptyInput))
    | Ok labels =>
        let n_classes := length (unique labels) in
        let encoded_labels := fit_transform labels in
        let adata :=
          set_obs adata "encoded_perturbations" (Arr <$> encoded_labels) in
        (adata, load_rest adata a hidden_dim n_classes)
    end.

(** [DiscriminatorClassifierSpace.load] on a fresh object. The caller's
    data object is mutable: the result pairs it, as the call leaves it,
    with the returned object or the exception raised. *)
Definition load (adata : AnnData) (a : load_args)
    : AnnData * result DiscriminatorClassifierSpace :=
  match layer_key a with
  | Some k =>
      if decide (k ∉ dom (obs adata))
      then (adata, Raise (ValueError (LayerKeyNotFound k)))
      else load_checked adata a
  | None => load_checked adata a
  end.

(** [DiscriminatorClassifierSpace.train]: the classifier wraps the network
    of [load]. [Trainer.fit] and [Trainer.test] are Lightning's: fitting
    changes the parameters of the network, which is what [apply_layer]
    stands for, and leaves its modules, the loaders and the observation
    table as they are. *)
Definition train (self : DiscriminatorClassifierSpace)
    (max_epochs val_epochs_check patience : Z)
    : result DiscriminatorClassifierSpace :=
  model ← PerturbationClassifier_init (Some (net self))
            (dl_batch_size (train_dataloader self));
  Ok {| train_dataloader := train_dataloader self;
        test_dataloader := test_dataloader self;
        valid_dataloader := valid_dataloader self;
        net := net self;
        entire_dataset := entire_dataset self;
        adata_obs := adata_obs self;
        model := Some model |}.

(** The body of the loop of [get_embeddings]; [pert_adata] is unbound
    before the first iteration. *)
Definition get_embeddings_step (model : PerturbationClassifier)
    (pert_adata : option AnnData) (dataset_count : nat) (b : batch)
    : result (option AnnData) :=
  let '(emb, y) := PerturbationClassifier_get_embeddings model b in
  let emb := squeeze (stack emb) in
  batch_adata ← AnnData_init emb;
  batch_adata ← assign_obs batch_adata "perturbations" y;
  if decide (dataset_count = 0) then Ok (Some batch_adata)
  else match pert_adata with
       | Some pert_adata => Ok (Some (anndata_concat pert_adata batch_adata))
       | None => Raise (UnboundLocalError "pert_adata")
       end.

(** [for dataset_count, batch in enumerate(batches)] from count [k] on *)
Fixpoint get_embeddings_loop (model : PerturbationClassifier)
    (pert_adata : option AnnData) (k : nat) (batches : list batch)
    : result (option AnnData) :=
  match batches with
  | [] => Ok pert_adata
  | b :: batches =>
      pert_adata ← get_embeddings_step model pert_adata k b;
      get_embeddings_loop model pert_adata (S k) batches
  end.

(** [DataFrame.drop(col, axis=1)] *)
Definition drop_column (df : gmap string column) (col : string)
    : result (gmap string column) :=
  if decide (col ∈ dom df) then Ok (delete col df)
  else Raise (KeyError col).

(** [DiscriminatorClassifierSpace.get_embeddings]. The object is mutable
    (the method rebinds [self.adata_obs]): the result pairs it, as the
    call leaves it, with the returned data or the exception raised. *)
Definition get_embeddings (self : DiscriminatorClassifierSpace)
    : DiscriminatorClassifierSpace * result AnnData :=
  match model self with
  | None => (self, Raise (AttributeError "model"))
  | Some m =>
    match get_embeddings_loop m None 0
            (DataLoader_iter (entire_dataset self)) with
    | Raise e => (self, Raise e)
    | Ok None => (self, Raise (UnboundLocalError "pert_adata"))
    | Ok (Some pert_adata) =>
        let adata_obs' :=
          if decide ("perturbations" ∈ dom (adata_obs self))
          then delete "perturbations" (adata_obs self)
          else adata_obs self in
        let self' :=
          {| train_dataloader := train_dataloader self;
             test_dataloader := test_dataloader self;
             valid_dataloader := valid_dataloader self;
             net := net self;
             entire_dataset := entire_dataset self;
             adata_obs := adata_obs';
             model := model self |} in
        (* pd.concat([pert_adata.obs, self.adata_obs], axis=1); both tables
           are indexed by position (reset_index), and they share no
           column *)
        let pert_obs := obs pert_adata ∪ adata_obs' in
        (self',
         pert_obs ← drop_column pert_obs "encoded_perturbations";
         Ok {| X := X pert_adata;
               obs := pert_obs;
               var_names := var_names pert_adata;
               layers := layers pert_adata |})
    end
  end.
End Model.

Arguments AnnData {B}.
Arguments PLDataset {B}.
Arguments DataLoader {B}.
Arguments batch {B}.
Arguments DiscriminatorClassifierSpace {B}.
Arguments tensor {B}.

(** ** The methods beside [load], [train] and [get_embeddings] *)

(** The hyperparameters [save_hyperparameters] keeps for
    [PerturbationClassifier._create_model] and [configure_optimizers]. *)
Record hparams := mkHparams {
  hp_layers : list nat;
  hp_dropout : Q;
  hp_batch_norm : bool;
  hp_layer_norm : bool;
  hp_last_layer_act : string;
  hp_lr : Q;
  hp_seed : Z
}.

(** The defaults of [PerturbationClassifier.__init__]. *)
Definition default_hparams : hparams :=
  {| hp_layers := [512];
     hp_dropout := 0;
     hp_batch_norm := true;
     hp_layer_norm := false;
     hp_last_layer_act := "linear";
     hp_lr := 1 # 10000;
     hp_seed := 42 |}.

(** [PerturbationClassifier._create_model] *)
Definition PerturbationClassifier_create_model (hp : hparams) : result MLP :=
  MLP_init (hp_layers hp) (hp_dropout hp) (hp_batch_norm hp)
           (hp_layer_norm hp) (hp_last_layer_act hp).

(** [PerturbationClassifier.__init__] with its keyword arguments: the
    hyperparameters are read only where no model is given. *)
Definition PerturbationClassifier_new (model : option MLP) (batch_size : Z)
    (hp : hparams) : result PerturbationClassifier :=
  net ← match model with
        | Some m => Ok m
        | None => PerturbationClassifier_create_model hp
        end;
  Ok (mkPerturbationClassifier net batch_size).

(** [torch.argmax] along a row: the index of the first maximal entry
    after [best], which is at [best_i]. *)
Fixpoint argmax_from (best : Q) (best_i i : nat) (row : list Q) : nat :=
  match row with
  | [] => best_i
  | q :: row =>
      if Qlt_le_dec best q then argmax_from q i (S i) row
      else argmax_from best best_i (S i) row
  end.

(** [torch.argmax(y, dim=1)] on one row; there is no index into a row
    without entries, where torch raises. *)
Definition argmax (row : list Q) : option nat :=
  match row with
  | [] => None
  | q :: row => Some (argmax_from q 0 1 row)
  end.

(** Line 364 (378, 392) of the three step methods: the class indices of
    the encoded labels of a batch, [None] where torch raises. *)
Definition step_targets (y : column) : option (list nat) :=
  match tensor_of_column y with
  | Ok rows => mapM argmax rows
  | Raise _ => None
  end.

Section Methods.
Context `{B : Backend}.

(** [seq[idx]] and [series.iloc[idx]] for a Python integer: a negative
    index counts from the end; [None] where Python raises [IndexError]. *)
Definition py_index {A} (l : list A) (idx : Z) : option A :=
  let n := Z.of_nat (length l) in
  if decide (0 ≤ idx < n)%Z then l !! Z.to_nat idx
  else if decide (- n ≤ idx < 0)%Z then l !! Z.to_nat (idx + n)
  else None.

(** [PLDataset.__getitem__]; a row of a sparse matrix is densified to the
    same sample. *)
Definition PLDataset_getitem (d : PLDataset) (idx : Z)
    : option (list num * value * value) :=
  sample ← py_index (data d) idx;
  num_label ← py_index (labels d) idx;
  str_label ← py_index (pert_labels d) idx;
  Some (sample, num_label, str_label).


(** [PerturbationClassifier.forward], on one sample *)
Definition PerturbationClassifier_forward (self : PerturbationClassifier)
    (x : list num) : list num :=
  MLP_forward (pc_net self) x.

(** Lines 374-379 of [validation_step] (388-393 of [test_step]): the
    squeezed logits of a batch. Lightning runs both steps in evaluation
    mode, where the network acts on each sample of the batch on its own. *)
Definition step_logits (self : PerturbationClassifier) (b : batch) : tensor :=
  let x := map (map to_float32) (batch_x b) in
  let y_hat := map (PerturbationClassifier_forward self) x in
  squeeze (stack y_hat).

Section Steps.
Context {loss : Type}.
(** [torch.nn.functional.cross_entropy], [None] where it raises *)
Context (cross_entropy : tensor → list nat → option loss).

(** The body the evaluation steps share: the loss, and what [self.log]
    records (name, value, batch size). *)
Definition evaluation_step (name : string) (self : PerturbationClassifier)
    (b : batch) : option (loss * (string * loss * Z)) :=
  y ← step_targets (batch_num_label b);
  l ← cross_entropy (step_logits self b) y;
  Some (l, (name, l, pc_batch_size self)).

(** [PerturbationClassifier.validation_step] *)
Definition validation_step := evaluation_step "val_loss".

(** [PerturbationClassifier.test_step] *)
Definition test_step := evaluation_step "test_loss".
End Steps.
End Methods.

(** ** Predicates of the properties *)

(** [r] raises the [ValueError] of the layer-key check. *)
Definition layer_key_error {A} (r : result A) : Prop :=
  ∃ k, r = Raise (ValueError (LayerKeyNotFound k)).

Section Auxiliary.
Context `{B : Backend}.

(** What a successful [load] has done, step by step. *)
Record loaded (adata : AnnData) (a : load_args) (adata' : AnnData)
    (self : DiscriminatorClassifierSpace) (lbls : list string)
    (X_train X_val X_test : list nat) : Prop := {
  loaded_layer_key :
    ∀ k, layer_key a = Some k → k ∈ dom (obs adata);
  loaded_labels : obs adata !! target_col a = Some (Str <$> lbls);
  loaded_nonempty : lbls ≠ [];
  loaded_adata :
    adata' = set_obs adata "encoded_perturbations"
               (Arr <$> fit_transform lbls);
  loaded_split : load_split adata' a = Ok (X_train, X_val, X_test);
  loaded_train :
    PLDataset_init (subset adata' X_train) "encoded_perturbations"
      (target_col a) (layer_key a) = Ok (dataset (train_dataloader self));
  loaded_val :
    PLDataset_init (subset adata' X_val) "encoded_perturbations"
      (target_col a) (layer_key a) = Ok (dataset (valid_dataloader self));
  loaded_test :
    PLDataset_init (subset adata' X_test) "encoded_perturbations"
      (target_col a) (layer_key a) = Ok (dataset (test_dataloader self));
  loaded_sampler :
    ∃ w, train_weights_of (labels (dataset (train_dataloader self))) = Ok w
         ∧ sampler (train_dataloader self) = Some (mkSampler w (length w));
  loaded_batch_size : (0 < batch_size a)%Z;
  loaded_net :
    MLP_init ([n_vars adata] ++ default [512] (hidden_dim a)
              ++ [length (unique lbls)])
      (dropout a) (batch_norm a) false "linear" = Ok (net self);
  loaded_total :
    PLDataset_init adata' "encoded_perturbations"
      (target_col a) (layer_key a) = Ok (dataset (entire_dataset self));
  loaded_entire :
    dl_batch_size (entire_dataset self) = (batch_size a * 2)%Z;
  loaded_obs : adata_obs self = obs adata';
  loaded_model : model self = None
}.

(** Width of the embedding of a sample of width [w]. *)
Definition embedding_width (net : MLP) (w : nat) : nat :=
  fold_left (λ w l, layer_out l w) (removelast (network net)) w.

(** The data object of a batch of width [d] that passes [AnnData], and of
    any number of them concatenated. *)
Definition batch_result (d : nat) (rows : list (list num)) (ys : column)
    : AnnData :=
  {| X := rows;
     obs := {[ "perturbations" := ys ]};
     var_names := pretty <$> seq 0 d;
     layers := ∅ |}.

(** The embeddings of the samples of a batch. *)
Definition batch_embedding (m : PerturbationClassifier) (b : batch)
    : list (list num) :=
  (PerturbationClassifier_get_embeddings m b).1.

(** A batch that passes [AnnData]: more than one sample, of width [d],
    with a label for each. *)
Definition regular_batch (m : PerturbationClassifier) (d : nat) (b : batch)
    : Prop :=
  Forall (λ row, length row = d) (batch_embedding m b)
  ∧ 1 < length (batch_embedding m b)
  ∧ length (batch_str_label b) = length (batch_embedding m b).

(** The embedding of one cell. *)
Definition cell_embedding (m : PerturbationClassifier) (row : list num)
    : list num :=
  MLP_embedding (pc_net m) (to_float32 <$> row).

(** The state [get_embeddings] runs in: a fitted model over the network,
    and a loader over [n] cells of width [w] with a label each, in batches
    of [bs] cells. *)
Record embeddable (self : DiscriminatorClassifierSpace)
    (m : PerturbationClassifier) (w bs : nat) : Prop := {
  emb_model : model self = Some m;
  emb_batch_size : Z.to_nat (dl_batch_size (entire_dataset self)) = bs;
  emb_batches : 1 < bs;
  emb_cells : 0 < length (data (dataset (entire_dataset self)));
  emb_width :
    Forall (λ row, length row = w) (data (dataset (entire_dataset self)));
  emb_labels :
    length (pert_labels (dataset (entire_dataset self)))
    = length (data (dataset (entire_dataset self)));
  emb_encoded : "encoded_perturbations" ∈ dom (adata_obs self)
}.
End Auxiliary.

(** ** More predicates *)

Section MoreAuxiliary.
Context `{B : Backend}.

(** The matrix a dataset reads: the layer of a key that is not empty,
    [X] otherwise. *)
Definition data_source (adata : AnnData) (lk : option string)
    (m : list (list num)) : Prop :=
  match lk with
  | Some k => if decide (k = "") then m = X adata
              else layers adata !! k = Some m
  | None => m = X adata
  end.

(** The four datasets of a loaded object. *)
Definition datasets (self : DiscriminatorClassifierSpace) : list PLDataset :=
  [ dataset (train_dataloader self); dataset (valid_dataloader self);
    dataset (test_dataloader self); dataset (entire_dataset self) ].

(** The table [get_embeddings] leaves in [self.adata_obs]. *)
Definition without_perturbations (df : gmap string column)
    : gmap string column :=
  if decide ("perturbations" ∈ dom df) then delete "perturbations" df else df.
End MoreAuxiliary.

(** ** What the properties assume of the back end *)

(** The contract of [train_test_split]: the two parts hold the samples of the
    input, each once, and the test part has the size scikit-learn derives
    from the fraction. *)
Class SplitContract (B : Backend) : Prop := {
  split_Permutation X_ y test_size stratify X_train X_test y_train y_test :
    train_test_split X_ y test_size stratify
      = Some (X_train, X_test, y_train, y_test) →
    X_train ++ X_test ≡ₚ X_;
  split_test_size X_ y test_size stratify X_train X_test y_train y_test :
    train_test_split X_ y test_size stratify
      = Some (X_train, X_test, y_train, y_test) →
    length X_test = n_test test_size (length X_)
}.

(** The width of what a module returns: a linear module has
    [out_features] outputs, the other modules keep the width. *)
Definition LayerShapes (B : Backend) : Prop :=
  ∀ (l : layer) (x : list num), length (apply_layer l x) = layer_out l (length x).

(** The invariants of an AnnData object: the data matrix and the layers
    are [n_obs] by [n_vars], the observation columns have [n_obs] rows. *)
Record AnnData_wf `{B : Backend} (adata : AnnData) : Prop := {
  wf_X : Forall (λ row, length row = n_vars adata) (X adata);
  wf_obs : ∀ col c, obs adata !! col = Some c → length c = n_obs adata;
  wf_layers : ∀ k m, layers adata !! k = Some m →
    length m = n_obs adata ∧ Forall (λ row, length row = n_vars adata) m
}.

(** ** A small executable back end

    Integer entries; a linear module sums its input into every output unit,
    ReLU clips at zero, the other modules are the identity. The split is
    deterministic: the last [n_test] samples form the test part. *)
Module Demo.
Definition demo_apply (l : layer) (x : list Z) : list Z :=
  match l with
  | Linear _ out_features => replicate out_features (foldr Z.add 0%Z x)
  | ReLU => Z.max 0 <$> x
  | _ => x
  end.

Definition demo_n_test (test_size : Q) (n : nat) : nat :=
  Z.to_nat (Qceiling (test_size * inject_Z (Z.of_nat n))).

Definition demo_split (X_ : list nat) (y : column) (test_size : Q)
    (stratify : column)
    : option (list nat * list nat * column * column) :=
  let n := length X_ in
  let k := demo_n_test test_size n in
  if decide (k = 0 ∨ n ≤ k) then None
  else Some (take (n - k) X_, drop (n - k) X_,
             take (n - k) y, drop (n - k) y).

Definition backend : Backend :=
  {| num := Z;
     to_float32 := id;
     apply_layer := demo_apply;
     train_test_split := demo_split;
     n_test := demo_n_test |}.

(** Twenty-five cells over two genes: eighteen control cells and seven
    cells of one knock-out (the cells 1, 2, 5, 9, 13, 17 and 21). *)
Definition cells : @AnnData backend :=
  @mkAnnData backend
    ((λ i, [Z.of_nat i; Z.of_nat i + 1]%Z) <$> seq 0 25)
    {[ "perturbations" :=
         (λ i, Str (if (i mod 4 =? 1) || (i =? 2) then "ko" else "ctrl"))
           <$> seq 0 25;
       "batch" :=
         (λ i, Str (if i <? 12 then "b1" else "b2")) <$> seq 0 25 ]}
    ["g1"; "g2"]
    {[ "counts" := (λ i, [Z.of_nat (i mod 3); 1]%Z) <$> seq 0 25 ]}.

(** The arguments [load(cells, hidden_dim=.., batch_size=..)] *)
Definition args (hidden_dim : option (list nat)) (batch_size : Z)
    : load_args :=
  {| target_col := "perturbations";
     layer_key := None;
     hidden_dim := hidden_dim;
     dropout := 0;
     batch_norm := true;
     batch_size := batch_size;
     test_split_size := 1 # 5;
     validation_split_size := 1 # 4 |}.

(** [load], [train] and [get_embeddings] in a row. *)
Definition run (adata : @AnnData backend) (a : load_args)
    : result (@AnnData backend) :=
  self ← (@load backend adata a).2;
  self ← @train backend self 40 5 2;
  (@get_embeddings backend self).2.
End Demo.

(** The arguments [load(cells, layer_key=.., hidden_dim=[3], batch_size=5)] *)
Definition demo_layer_args (layer_key : string) : load_args :=
  {| target_col := "perturbations";
     layer_key := Some layer_key;
     hidden_dim := Some [3];
     dropout := 0;
     batch_norm := true;
     batch_size := 5;
     test_split_size := 1 # 5;
     validation_split_size := 1 # 4 |}.

(** The twenty-five cells with one more observation column, named like
    their layer. *)
Definition demo_layer_cells : @AnnData Demo.backend :=
  @set_obs Demo.backend Demo.cells "counts" ((λ _, Str "raw") <$> seq 0 25).

(** [load] succeeds on the cells of the executable back end: the value of
    the call is computed, and the kernel checks the equation by running
    the call on its virtual machine. *)
Ltac demo_load a adata' self El :=
  let v := eval vm_compute in (load Demo.cells a) in
  lazymatch v with
  | (?x, Ok ?y) =>
      assert (∃ adata' self, load Demo.cells a = (adata', Ok self))
        as (adata' & self & El)
        by (exists x, y; vm_cast_no_check (eq_refl (x, Ok y)))
  end.

(** [train] succeeds on what [load] returns. *)
Ltac demo_train self self' Et :=
  assert (∃ self', train self 40 5 2 = Ok self') as [self' Et]
    by (eexists; reflexivity).

(** A call that returns on the executable back end: its value is
    computed, and the kernel checks the equation on its virtual machine. *)
Ltac demo_result t x H :=
  let v := eval vm_compute in t in
  lazymatch v with
  | Ok ?y =>
      assert (∃ x, t = Ok x) as [x H]
        by (exists y; vm_cast_no_check (eq_refl (Ok y)))
  end.

(** A closed equation between values, checked by evaluation. *)
Ltac demo_equation :=
  lazymatch goal with
  | |- ?l = ?r =>
      let v := eval vm_compute in l in
      unify v r; vm_cast_no_check (eq_refl v)
  end.

(** [load] succeeds on given cells of the executable back end. *)
Ltac demo_load_on cells a adata' self El :=
  let v := eval vm_compute in (load cells a) in
  lazymatch v with
  | (?x, Ok ?y) =>
      assert (∃ adata' self, load cells a = (adata', Ok self))
        as (adata' & self & El)
        by (exists x, y; vm_cast_no_check (eq_refl (x, Ok y)))
  end.

(** * Properties *)

(** ** The modules of the network *)

Lemma nth_middle_next (pre : list nat) (a b : nat) (rest : list nat) :
  nth (length pre) (pre ++ a :: b :: rest) 0 = a
  ∧ nth (length pre + 1) (pre ++ a :: b :: rest) 0 = b.
Proof.
  split.
  - rewrite app_nth2 by lia. by rewrite Nat.sub_diag.
  - rewrite app_nth2 by lia.
    by replace (length pre + 1 - length pre) with 1 by lia.
Qed.

Lemma MLP_block_output (pre : list nat) (a b : nat) (p : Q) (bn ln : bool) :
  omap id (MLP_block (pre ++ [a; b]) p bn ln (length pre))
  = [Linear a b; ReLU].
Proof.
  unfold MLP_block. cbv zeta.
  destruct (nth_middle_next pre a b []) as [-> ->].
  rewrite length_app. cbn [length].
  destruct (Nat.ltb_spec (length pre) (length pre + 2 - 2)); [lia|].
  by rewrite !andb_false_r.
Qed.

Lemma MLP_block_hidden (pre : list nat) (a b c : nat) (rest : list nat)
    (p : Q) (bn ln : bool) :
  omap id (MLP_block (pre ++ a :: b :: c :: rest) p bn ln (length pre))
  = hidden_block p bn ln a b.
Proof.
  unfold MLP_block, hidden_block. cbv zeta.
  destruct (nth_middle_next pre a b (c :: rest)) as [-> ->].
  rewrite length_app. cbn [length].
  destruct (Nat.ltb_spec (length pre)
              (length pre + S (S (S (length rest))) - 2)); [|lia].
  by destruct bn, ln.
Qed.

Lemma last_cons_default (h a : nat) (rest : list nat) :
  List.last (h :: rest) a = List.last rest h.
Proof.
  revert h a. induction rest as [|r rest IH]; intros h a; [done|].
  change (List.last (h :: r :: rest) a) with (List.last (r :: rest) a).
  by rewrite !IH.
Qed.

Lemma MLP_layers_from (pre : list nat) (a : nat) (rest : list nat) (n_out : nat)
    (p : Q) (bn ln : bool) :
  omap id (flat_map (MLP_block (pre ++ a :: rest ++ [n_out]) p bn ln)
                    (seq (length pre) (S (length rest))))
  = hidden_blocks p bn ln a rest ++ [Linear (List.last rest a) n_out; ReLU].
Proof.
  revert pre a. induction rest as [|h rest IH]; intros pre a.
  - cbn [seq flat_map length app]. rewrite app_nil_r.
    apply MLP_block_output.
  - cbn [length app].
    change (seq (length pre) (S (S (length rest))))
      with (length pre :: seq (S (length pre)) (S (length rest))).
    cbn [flat_map]. rewrite omap_app.
    specialize (IH (pre ++ [a]) h).
    rewrite length_app, Nat.add_1_r, <- app_assoc in IH. cbn [length app] in IH.
    rewrite IH. clear IH.
    cbn [hidden_blocks]. rewrite <- app_assoc. f_equal.
    + destruct rest; apply MLP_block_hidden.
    + by rewrite last_cons_default.
Qed.

Lemma MLP_init_network (n_in : nat) (hidden : list nat) (n_out : nat)
    (p : Q) (bn ln : bool) (act : string) (net : MLP) :
  MLP_init ([n_in] ++ hidden ++ [n_out]) p bn ln act = Ok net →
  network net
  = hidden_blocks p bn ln n_in hidden ++ [Linear (List.last hidden n_in) n_out].
Proof.
  unfold MLP_init. case_decide; [|done]. intros [= <-]. cbn [network].
  unfold MLP_layers.
  change ([n_in] ++ hidden ++ [n_out]) with (n_in :: hidden ++ [n_out]).
  assert (length (n_in :: hidden ++ [n_out]) - 1 = S (length hidden)) as ->.
  { cbn [length]. rewrite length_app. cbn [length]. lia. }
  pose proof (MLP_layers_from [] n_in hidden n_out p bn ln) as Hl.
  cbn [app length] in Hl. rewrite Hl.
  by rewrite removelast_app.
Qed.

(** ** Labels and their encoding *)

Lemma labels_of_Ok (c : column) (ls : list string) :
  labels_of c = Ok ls ↔ c = Str <$> ls.
Proof.
  revert ls. induction c as [|[s|a] c IH]; intros ls; cbn.
  - split; [by intros [= <-]|]. by destruct ls.
  - destruct (labels_of c) as [ls'|e] eqn:E; cbn.
    + split.
      * intros [= <-]. cbn. f_equal. by apply IH.
      * destruct ls as [|l ls]; [done|]. intros [= -> Hc].
        apply IH in Hc. by injection Hc as ->.
    + split; [done|]. destruct ls as [|l ls]; [done|]. intros [= -> Hc].
      by apply IH in Hc.
  - split; [done|]. by destruct ls.
Qed.

Lemma unique_from_spec (seen values : list string) :
  NoDup seen →
  let u := fold_left (λ seen v, if decide (v ∈ seen) then seen else seen ++ [v])
                     values seen in
  NoDup u ∧ ∀ x, x ∈ u ↔ x ∈ seen ∨ x ∈ values.
Proof.
  revert seen. induction values as [|v values IH]; intros seen Hnd; cbn.
  - split; [done|]. set_solver.
  - case_decide.
    + destruct (IH seen Hnd) as [? Hin]. split; [done|].
      intros x. rewrite Hin. set_solver.
    + destruct (IH (seen ++ [v])) as [? Hin].
      { apply NoDup_app. split_and!; [done|set_solver|apply NoDup_singleton]. }
      split; [done|]. intros x. rewrite Hin. set_solver.
Qed.

Lemma NoDup_unique (values : list string) : NoDup (unique values).
Proof. apply (unique_from_spec [] values). constructor. Qed.

Lemma elem_of_unique (values : list string) (x : string) :
  x ∈ unique values ↔ x ∈ values.
Proof.
  destruct (unique_from_spec [] values) as [_ H]; [constructor|].
  unfold unique. rewrite H. set_solver.
Qed.

(** [n_classes] counts the distinct labels. *)
Lemma length_unique (values : list string) :
  length (unique values) = size (list_to_set values : gset string).
Proof.
  rewrite <- (size_list_to_set (C:=gset string) (unique values))
    by apply NoDup_unique.
  f_equal. apply set_eq. intros x.
  rewrite !elem_of_list_to_set. apply elem_of_unique.
Qed.

Lemma categories_Permutation (values : list string) :
  categories values ≡ₚ unique values.
Proof. apply merge_sort_Permutation. Qed.

Lemma NoDup_categories (values : list string) :
  NoDup (categories values).
Proof. rewrite categories_Permutation. apply NoDup_unique. Qed.

Lemma elem_of_categories (values : list string) (x : string) :
  x ∈ categories values ↔ x ∈ values.
Proof. rewrite categories_Permutation. apply elem_of_unique. Qed.

Lemma length_categories (values : list string) :
  length (categories values) = size (list_to_set values : gset string).
Proof. rewrite categories_Permutation. apply length_unique. Qed.

Lemma Sorted_categories (values : list string) :
  Sorted String.le (categories values).
Proof. apply (Sorted_merge_sort String.le). Qed.

(** A one-hot row is zero except for a one at the index of its label. *)
Lemma one_hot_absent (cats : list string) (v : string) :
  v ∉ cats → one_hot cats v = replicate (length cats) 0%Q.
Proof.
  induction cats as [|c cats IH]; [done|]. intros Hv. cbn.
  case_decide; [set_solver|]. f_equal. apply IH. set_solver.
Qed.

Lemma one_hot_spec (cats : list string) (v : string) :
  NoDup cats → v ∈ cats →
  ∃ j, cats !! j = Some v
       ∧ one_hot cats v = <[j := 1%Q]> (replicate (length cats) 0%Q).
Proof.
  induction cats as [|c cats IH]; [by intros _ ?%elem_of_nil|].
  intros [Hc Hnd]%NoDup_cons Hv.
  change (one_hot (c :: cats) v)
    with ((if decide (c = v) then 1%Q else 0%Q) :: one_hot cats v).
  case_decide as Hcv.
  - subst c. exists 0. split; [done|]. by rewrite one_hot_absent.
  - destruct IH as (j & Hj & ->); [done|set_solver|].
    exists (S j). by split.
Qed.

Lemma row_sum_zeros (n : nat) :
  (row_sum (replicate n 0%Q) == 0)%Q.
Proof. induction n as [|n IH]; cbn; [reflexivity|]. rewrite IH. reflexivity. Qed.

Lemma row_sum_one_hot (cats : list string) (v : string) :
  NoDup cats → v ∈ cats → (row_sum (one_hot cats v) == 1)%Q.
Proof.
  induction cats as [|c cats IH]; [by intros _ ?%elem_of_nil|].
  intros [Hc Hnd]%NoDup_cons Hv.
  change (one_hot (c :: cats) v)
    with ((if decide (c = v) then 1%Q else 0%Q) :: one_hot cats v).
  change (row_sum (?x :: ?l)) with (x + row_sum l)%Q.
  case_decide as Hcv.
  - subst c. rewrite one_hot_absent by done. rewrite row_sum_zeros. reflexivity.
  - rewrite IH; [reflexivity|done|set_solver].
Qed.

(** ** Inversion of the error monad *)

Lemma bind_Ok {A C} (m : result A) (f : A → result C) (c : C) :
  m ≫= f = Ok c ↔ ∃ a, m = Ok a ∧ f a = Ok c.
Proof.
  destruct m as [a|e]; cbn; [|by split; [|intros (? & ? & ?)]].
  split; [by exists a|]. by intros (? & [= <-] & ?).
Qed.

Lemma bind_Raise {A C} (m : result A) (f : A → result C) (e : exn) :
  m ≫= f = Raise e ↔ m = Raise e ∨ ∃ a, m = Ok a ∧ f a = Raise e.
Proof.
  destruct m as [a|e']; cbn; naive_solver.
Qed.

Section Load.
Context `{B : Backend}.

Lemma get_obs_Ok (adata : AnnData) (col : string) (c : column) :
  get_obs adata col = Ok c ↔ obs adata !! col = Some c.
Proof.
  unfold get_obs. destruct (obs adata !! col); split; congruence.
Qed.

Lemma DataLoader_init_Ok (d : PLDataset) (bs : Z)
    (s : option WeightedRandomSampler) (sh : bool) (w : nat)
    (dl : DataLoader) :
  DataLoader_init d bs s sh w = Ok dl →
  (0 < bs)%Z ∧ dl = mkDataLoader d bs s sh w.
Proof. unfold DataLoader_init. case_decide; [done|]. intros [= <-]. split; [lia|done]. Qed.

Lemma load_rest_Ok (adata : AnnData) (a : load_args) (hd : list nat)
    (nc : nat) (self : DiscriminatorClassifierSpace) :
  load_rest adata a hd nc = Ok self →
  ∃ X_train X_val X_test,
    load_split adata a = Ok (X_train, X_val, X_test)
    ∧ PLDataset_init (subset adata X_train) "encoded_perturbations"
        (target_col a) (layer_key a) = Ok (dataset (train_dataloader self))
    ∧ PLDataset_init (subset adata X_val) "encoded_perturbations"
        (target_col a) (layer_key a) = Ok (dataset (valid_dataloader self))
    ∧ PLDataset_init (subset adata X_test) "encoded_perturbations"
        (target_col a) (layer_key a) = Ok (dataset (test_dataloader self))
    ∧ (∃ w, train_weights_of (labels (dataset (train_dataloader self))) = Ok w
            ∧ sampler (train_dataloader self) = Some (mkSampler w (length w)))
    ∧ (0 < batch_size a)%Z
    ∧ MLP_init ([n_vars adata] ++ hd ++ [nc])
        (dropout a) (batch_norm a) false "linear" = Ok (net self)
    ∧ PLDataset_init adata "encoded_perturbations"
        (target_col a) (layer_key a) = Ok (dataset (entire_dataset self))
    ∧ dl_batch_size (entire_dataset self) = (batch_size a * 2)%Z
    ∧ adata_obs self = obs adata
    ∧ model self = None.
Proof.
  unfold load_rest. intros H.
  apply bind_Ok in H as ([[X_train X_val] X_test] & Hsplit & H).
  apply bind_Ok in H as (train_ds & Htrain & H).
  apply bind_Ok in H as (val_ds & Hval & H).
  apply bind_Ok in H as (test_ds & Htest & H).
  apply bind_Ok in H as (w & Hw & H).
  apply bind_Ok in H as (smp & Hsmp & H).
  apply bind_Ok in H as (dl1 & Hdl1 & H).
  apply bind_Ok in H as (dl2 & Hdl2 & H).
  apply bind_Ok in H as (dl3 & Hdl3 & H).
  cbv zeta in H.
  apply bind_Ok in H as (mlp & Hnet & H).
  apply bind_Ok in H as (total & Htotal & H).
  apply bind_Ok in H as (dl4 & Hdl4 & H).
  injection H as <-. cbn.
  apply DataLoader_init_Ok in Hdl1 as [Hbs ->].
  apply DataLoader_init_Ok in Hdl2 as [_ ->].
  apply DataLoader_init_Ok in Hdl3 as [_ ->].
  apply DataLoader_init_Ok in Hdl4 as [_ ->]. cbn.
  unfold WeightedRandomSampler_init in Hsmp. case_decide; [done|].
  injection Hsmp as <-.
  exists X_train, X_val, X_test. split_and!; try done.
  by exists w.
Qed.

Lemma load_Ok (adata : AnnData) (a : load_args) (adata' : AnnData)
    (self : DiscriminatorClassifierSpace) :
  load adata a = (adata', Ok self) →
  ∃ lbls X_train X_val X_test,
    loaded adata a adata' self lbls X_train X_val X_test.
Proof.
  unfold load. intros H.
  assert ((∀ k, layer_key a = Some k → k ∈ dom (obs adata))
          ∧ load_checked adata a = (adata', Ok self)) as [Hkey Hc].
  { destruct (layer_key a) as [k|]; [|by split].
    case_decide as Hk; [done|]. split; [|done].
    intros ? [= <-]. by destruct (decide (k ∈ dom (obs adata))). }
  clear H. unfold load_checked in Hc. case_decide as Htc; [done|].
  destruct (get_obs adata (target_col a) ≫= labels_of) as [lbls|e] eqn:El;
    [|done].
  apply bind_Ok in El as (c & Hc' & Hl).
  apply get_obs_Ok in Hc'. apply labels_of_Ok in Hl. subst c.
  destruct lbls as [|l lbls]; [done|].
  cbv zeta in Hc. injection Hc as <- Hrest.
  apply load_rest_Ok in Hrest
    as (X_train & X_val & X_test & ? & ? & ? & ? & ? & ? & ? & ? & ? & ? & ?).
  exists (l :: lbls), X_train, X_val, X_test. by split.
Qed.
End Load.

(** ** Rows of a matrix or column *)

Lemma take_rows_fmap {A C} (f : A → C) (idx : list nat) (rows : list A) :
  take_rows idx (f <$> rows) = f <$> take_rows idx rows.
Proof.
  unfold take_rows. induction idx as [|i idx IH]; [done|]. cbn.
  rewrite list_lookup_fmap. destruct (rows !! i); cbn; by rewrite IH.
Qed.

Lemma elem_of_take_rows {A} (idx : list nat) (rows : list A) (x : A) :
  x ∈ take_rows idx rows → x ∈ rows.
Proof.
  unfold take_rows. intros (i & _ & Hi)%list_elem_of_omap.
  by eapply list_elem_of_lookup_2.
Qed.

Lemma take_rows_app {A} (idx1 idx2 : list nat) (rows : list A) :
  take_rows (idx1 ++ idx2) rows = take_rows idx1 rows ++ take_rows idx2 rows.
Proof. apply omap_app. Qed.

Lemma take_rows_range {A} (s k : nat) (rows : list A) :
  s + k ≤ length rows → take_rows (seq s k) rows = take k (drop s rows).
Proof.
  revert s. induction k as [|k IH]; intros s Hs; [done|].
  destruct (lookup_lt_is_Some_2 rows s) as [x Hx]; [lia|].
  unfold take_rows in *. cbn. rewrite Hx. cbn.
  rewrite (drop_S _ _ _ Hx). cbn. f_equal. apply IH. lia.
Qed.

Lemma length_take_rows_range {A} (s k : nat) (rows : list A) :
  s + k ≤ length rows → length (take_rows (seq s k) rows) = k.
Proof.
  intros. rewrite take_rows_range by done.
  rewrite length_take, length_drop. lia.
Qed.

Lemma take_rows_all {A} (rows : list A) :
  take_rows (seq 0 (length rows)) rows = rows.
Proof. rewrite take_rows_range by lia. rewrite drop_0. by apply take_ge. Qed.

(** ** The batches of a sequential loader *)

Lemma concat_batches_upto (n bs q : nat) :
  concat (map (λ k, seq (k * bs) (min bs (n - k * bs))) (seq 0 q))
  = seq 0 (min n (q * bs)).
Proof.
  induction q as [|q IH]; [by rewrite Nat.min_0_r|].
  rewrite seq_S, map_app, concat_app, IH. cbn [map concat Nat.add].
  rewrite app_nil_r.
  destruct (decide (q * bs ≤ n)).
  - rewrite (Nat.min_r n (q * bs)) by done.
    rewrite <- seq_app. f_equal. lia.
  - replace (n - q * bs) with 0 by lia. rewrite Nat.min_0_r. cbn.
    rewrite app_nil_r. f_equal. lia.
Qed.

Lemma batch_count_bounds (n bs : nat) :
  0 < bs →
  let q := (n + bs - 1) / bs in n ≤ q * bs ∧ q * bs < n + bs.
Proof.
  intros Hbs q. subst q.
  pose proof (Nat.div_mod (n + bs - 1) bs ltac:(lia)) as Hdm.
  pose proof (Nat.mod_upper_bound (n + bs - 1) bs ltac:(lia)) as Hm.
  split; nia.
Qed.

Lemma concat_batch_indices (n bs : nat) :
  0 < bs → concat (batch_indices n bs) = seq 0 n.
Proof.
  intros Hbs. unfold batch_indices. rewrite concat_batches_upto.
  destruct (batch_count_bounds n bs Hbs). f_equal. lia.
Qed.

(** Every batch is a non-empty range of at most [bs] indices below [n]. *)
Lemma elem_of_batch_indices (n bs : nat) (idx : list nat) :
  0 < bs → idx ∈ batch_indices n bs →
  ∃ s k, idx = seq s k ∧ 0 < k ∧ k ≤ bs ∧ s + k ≤ n.
Proof.
  intros Hbs. unfold batch_indices.
  intros (k & -> & Hk)%list_elem_of_fmap.
  apply elem_of_seq in Hk as [_ Hk]. cbn in Hk.
  destruct (batch_count_bounds n bs Hbs) as [_ Hq].
  exists (k * bs), (min bs (n - k * bs)). split; [done|]. nia.
Qed.

(** A remainder of one sample makes a last batch of one sample. *)
Lemma batch_indices_remainder_one (n bs : nat) :
  1 < bs → n mod bs = 1 →
  ∃ batches, batch_indices n bs = batches ++ [[n - 1]].
Proof.
  intros Hbs Hmod. unfold batch_indices.
  pose proof (Nat.div_mod n bs ltac:(lia)) as Hdm. rewrite Hmod in Hdm.
  assert ((n + bs - 1) / bs = S (n / bs)) as ->.
  { replace (n + bs - 1) with (n / bs * bs + 1 * bs) by lia.
    rewrite Nat.div_add by lia. rewrite Nat.div_mul by lia. lia. }
  rewrite seq_S, map_app. cbn [map Nat.add].
  eexists. f_equal.
  replace (n - n / bs * bs) with 1 by lia.
  rewrite Nat.min_r by lia. cbn. do 2 f_equal. lia.
Qed.


(** ** The exceptions of [load] *)

Lemma layer_key_error_bind {A C} (m : result A) (f : A → result C) :
  ¬ layer_key_error m → (∀ x, ¬ layer_key_error (f x)) →
  ¬ layer_key_error (m ≫= f).
Proof.
  intros Hm Hf [k [Hk|(x & _ & Hk)]%bind_Raise].
  - apply Hm. by exists k.
  - apply (Hf x). by exists k.
Qed.

Section LoadErrors.
Context `{B : Backend}.

Lemma get_obs_error (adata : AnnData) (col : string) :
  ¬ layer_key_error (get_obs adata col).
Proof. unfold get_obs. by destruct (obs adata !! col); intros [? ?]. Qed.

Lemma labels_of_error (c : column) : ¬ layer_key_error (labels_of c).
Proof.
  induction c as [|[s|a] c IH]; cbn; [by intros [? ?]| |by intros [? ?]].
  apply layer_key_error_bind; [done|]. by intros ? [? ?].
Qed.

Lemma tensor_of_column_error (c : column) :
  ¬ layer_key_error (tensor_of_column c).
Proof.
  induction c as [|[s|a] c IH]; cbn; [by intros [? ?]|by intros [? ?]|].
  apply layer_key_error_bind; [done|]. by intros ? [? ?].
Qed.

Lemma split_or_raise_error {A} (r : option A) :
  ¬ layer_key_error (split_or_raise r).
Proof. by destruct r; intros [? ?]. Qed.

Lemma PLDataset_init_error (adata : AnnData) (tc lc : string)
    (lk : option string) :
  ¬ layer_key_error (PLDataset_init adata tc lc lk).
Proof.
  unfold PLDataset_init. apply layer_key_error_bind.
  - destruct lk as [k|]; [|by intros [? ?]].
    case_decide; [by intros [? ?]|].
    by destruct (layers adata !! k); intros [? ?].
  - intros ?. apply layer_key_error_bind; [apply get_obs_error|].
    intros ?. apply layer_key_error_bind; [apply get_obs_error|].
    by intros ? [? ?].
Qed.

Lemma DataLoader_init_error (d : PLDataset) (bs : Z)
    (s : option WeightedRandomSampler) (sh : bool) (w : nat) :
  ¬ layer_key_error (DataLoader_init d bs s sh w).
Proof. unfold DataLoader_init. by case_decide; intros [? ?]. Qed.

Lemma MLP_init_error (sz : list nat) (p : Q) (bn ln : bool) (act : string) :
  ¬ layer_key_error (MLP_init sz p bn ln act).
Proof. unfold MLP_init. by case_decide; intros [? ?]. Qed.

Lemma load_split_error (adata : AnnData) (a : load_args) :
  ¬ layer_key_error (load_split adata a).
Proof.
  unfold load_split.
  apply layer_key_error_bind; [apply get_obs_error|]. intros ?.
  apply layer_key_error_bind; [apply split_or_raise_error|].
  intros [[[? ?] ?] ?].
  apply layer_key_error_bind; [apply split_or_raise_error|].
  intros [[[? ?] ?] ?]. by intros [? ?].
Qed.

Lemma load_rest_error (adata : AnnData) (a : load_args) (hd : list nat)
    (nc : nat) :
  ¬ layer_key_error (load_rest adata a hd nc).
Proof.
  unfold load_rest.
  apply layer_key_error_bind; [apply load_split_error|]. intros [[? ?] ?].
  do 3 (apply layer_key_error_bind; [apply PLDataset_init_error|]; intros ?).
  apply layer_key_error_bind.
  { unfold train_weights_of.
    apply layer_key_error_bind; [apply tensor_of_column_error|].
    by intros ? [? ?]. }
  intros ?. apply layer_key_error_bind.
  { unfold WeightedRandomSampler_init. by case_decide; intros [? ?]. }
  intros ?.
  do 3 (apply layer_key_error_bind; [apply DataLoader_init_error|]; intros ?).
  cbv zeta.
  apply layer_key_error_bind; [apply MLP_init_error|]. intros ?.
  apply layer_key_error_bind; [apply PLDataset_init_error|]. intros ?.
  apply layer_key_error_bind; [apply DataLoader_init_error|]. intros ?.
  by intros [? ?].
Qed.

(** Past the layer-key check, [load] does not raise its error. *)
Lemma load_checked_error (adata : AnnData) (a : load_args) :
  ¬ layer_key_error (load_checked adata a).2.
Proof.
  unfold load_checked. case_decide; [by intros [? ?]|].
  destruct (get_obs adata (target_col a) ≫= labels_of) as [[|l lbls]|e] eqn:E.
  - by intros [? ?].
  - apply load_rest_error.
  - intros [k [= ->]].
    apply (layer_key_error_bind (get_obs adata (target_col a)) labels_of);
      [apply get_obs_error|intros ?; apply labels_of_error|by exists k].
Qed.

(** C9. For a layer key that is not [None], [load] raises the
    [ValueError] of the layer-key check exactly when the key is not an
    observation column: the check reads the observation columns, not
    the layers, so a key that names a layer and no observation column is
    rejected. [load] raises [ValueError] whenever the target column is
    not an observation column. In both cases the data object is left as
    it was. *)
Theorem load_argument_checks (adata : AnnData) (a : load_args) :
  (∀ k, layer_key a = Some k →
     ((load adata a).2 = Raise (ValueError (LayerKeyNotFound k))
      ↔ k ∉ dom (obs adata))
     ∧ (k ∉ dom (obs adata) → (load adata a).1 = adata)
     ∧ (is_Some (layers adata !! k) → k ∉ dom (obs adata) →
        load adata a = (adata, Raise (ValueError (LayerKeyNotFound k)))))
  ∧ (target_col a ∉ dom (obs adata) →
     ∃ msg, load adata a = (adata, Raise (ValueError msg))).
Proof.
  split.
  - intros k Hk. unfold load. rewrite Hk. split_and!.
    + case_decide as Hdom; [done|]. split; [|done].
      intros Hr. destruct (load_checked_error adata a). by exists k.
    + intros Hdom. by case_decide.
    + intros _ Hdom. by case_decide.
  - intros Htc. unfold load.
    destruct (layer_key a) as [k|].
    + case_decide; [by eexists|].
      unfold load_checked. case_decide; [by eexists|done].
    + unfold load_checked. case_decide; [by eexists|done].
Qed.
End LoadErrors.

(** ** What [load] builds *)

Section LoadProperties.
Context `{B : Backend}.

(** C5. The network [load] builds ends in a linear layer with one output per
    distinct label of the target column, and starts with a linear layer
    with one input per gene. *)
Theorem load_network_dimensions (adata adata' : AnnData) (a : load_args)
    (self : DiscriminatorClassifierSpace) :
  load adata a = (adata', Ok self) →
  ∃ (lbls : list string) (first_out last_in : nat),
    obs adata !! target_col a = Some (Str <$> lbls)
    ∧ head (network (net self)) = Some (Linear (n_vars adata) first_out)
    ∧ last (network (net self))
      = Some (Linear last_in (size (list_to_set lbls : gset string))).
Proof.
  intros (lbls & X_train & X_val & X_test & L)%load_Ok.
  pose proof (MLP_init_network _ _ _ _ _ _ _ _ (loaded_net _ _ _ _ _ _ _ _ L))
    as Hnet.
  rewrite length_unique in Hnet.
  destruct (default [512] (hidden_dim a)) as [|h hd] eqn:Ehd.
  - exists lbls, (size (list_to_set lbls : gset string)), (n_vars adata).
    rewrite Hnet. split_and!; [apply L|done|done].
  - exists lbls, h, (List.last (h :: hd) (n_vars adata)).
    rewrite Hnet. split_and!; [apply L|done|apply last_snoc].
Qed.

(** C8. A successful [load] leaves in the caller's data object the column
    'encoded_perturbations' with the one-hot encoding of the labels of the
    target column: over the sorted distinct labels, the row of a cell is
    zero except for a one at the index of its label. The data matrix, the
    variables, the layers and every other observation column are as
    before. *)
Theorem load_adds_encoded_column (adata adata' : AnnData) (a : load_args)
    (self : DiscriminatorClassifierSpace) :
  load adata a = (adata', Ok self) →
  ∃ (lbls cats : list string) (encoded : list (list Q)),
    obs adata !! target_col a = Some (Str <$> lbls)
    ∧ Sorted String.le cats ∧ NoDup cats ∧ (∀ l, l ∈ cats ↔ l ∈ lbls)
    ∧ obs adata' !! "encoded_perturbations" = Some (Arr <$> encoded)
    ∧ length encoded = length lbls
    ∧ (∀ i l, lbls !! i = Some l →
         ∃ j, cats !! j = Some l
              ∧ encoded !! i
                = Some (<[j := 1%Q]> (replicate (length cats) 0%Q)))
    ∧ X adata' = X adata
    ∧ var_names adata' = var_names adata
    ∧ layers adata' = layers adata
    ∧ (∀ col, col ≠ "encoded_perturbations" →
         obs adata' !! col = obs adata !! col).
Proof.
  intros (lbls & X_train & X_val & X_test & L)%load_Ok.
  exists lbls, (categories lbls), (fit_transform lbls).
  rewrite (loaded_adata _ _ _ _ _ _ _ _ L). cbn.
  split_and!; try done.
  - apply L.
  - apply Sorted_categories.
  - apply NoDup_categories.
  - apply elem_of_categories.
  - apply lookup_insert_eq.
  - unfold fit_transform. by rewrite length_map.
  - intros i l Hi.
    destruct (one_hot_spec (categories lbls) l) as (j & Hj & Hoh).
    { apply NoDup_categories. }
    { apply elem_of_categories. by eapply list_elem_of_lookup_2. }
    exists j. split; [done|]. unfold fit_transform.
    change (map ?f ?l) with (f <$> l).
    by rewrite list_lookup_fmap, Hi, <- Hoh.
  - intros col Hcol. by apply lookup_insert_ne.
Qed.

Lemma tensor_of_column_Arr (rows : list (list Q)) :
  tensor_of_column (Arr <$> rows) = Ok rows.
Proof. induction rows as [|r rows IH]; [done|]. cbn. by rewrite IH. Qed.

Lemma PLDataset_init_labels (adata : AnnData) (tc lc : string)
    (lk : option string) (d : PLDataset) :
  PLDataset_init adata tc lc lk = Ok d →
  obs adata !! tc = Some (labels d) ∧ obs adata !! lc = Some (pert_labels d).
Proof.
  unfold PLDataset_init. intros H.
  apply bind_Ok in H as (m & _ & H).
  apply bind_Ok in H as (c1 & H1%get_obs_Ok & H).
  apply bind_Ok in H as (c2 & H2%get_obs_Ok & H).
  by injection H as <-.
Qed.

(** The sampling weight of every training cell is one half, whatever the
    size of its class: the row of a cell in the encoded labels has one
    entry equal to one, so it sums to one. *)
Lemma train_weights_uniform (adata adata' : AnnData) (a : load_args)
    (self : DiscriminatorClassifierSpace) :
  load adata a = (adata', Ok self) →
  ∃ s, sampler (train_dataloader self) = Some s
       ∧ Forall (λ w, w == 1 # 2)%Q (weights s).
Proof.
  intros (lbls & X_train & X_val & X_test & L)%load_Ok.
  destruct (loaded_sampler _ _ _ _ _ _ _ _ L) as (w & Hw & Hs).
  exists (mkSampler w (length w)). split; [done|]. cbn.
  destruct (PLDataset_init_labels _ _ _ _ _ (loaded_train _ _ _ _ _ _ _ _ L))
    as [Hlab _].
  rewrite (loaded_adata _ _ _ _ _ _ _ _ L) in Hlab. cbn in Hlab.
  rewrite lookup_fmap, lookup_insert_eq in Hlab. cbn in Hlab.
  injection Hlab as Hlab. rewrite take_rows_fmap in Hlab.
  unfold train_weights_of in Hw. rewrite <- Hlab, tensor_of_column_Arr in Hw.
  cbn in Hw. injection Hw as <-.
  apply Forall_forall. intros q (row & -> & Hrow)%list_elem_of_fmap.
  apply elem_of_take_rows in Hrow. unfold fit_transform in Hrow.
  apply list_elem_of_fmap in Hrow as (l & -> & Hl).
  rewrite row_sum_one_hot; [reflexivity|apply NoDup_categories|].
  by apply elem_of_categories.
Qed.

End LoadProperties.

(** ** Widths, tensors and the concatenation of batches *)

Lemma hidden_blocks_width (p : Q) (bn ln : bool) (a : nat) (hs : list nat)
    (w : nat) :
  fold_left (λ w l, layer_out l w) (hidden_blocks p bn ln a hs) w
  = List.last hs w.
Proof.
  revert a w. induction hs as [|h hs IH]; intros a w; [done|].
  cbn [hidden_blocks]. rewrite fold_left_app, IH.
  rewrite last_cons_default. f_equal.
  unfold hidden_block. by destruct bn, ln.
Qed.

Lemma omap_ext_elem {A C} (f g : A → option C) (l : list A) :
  (∀ x, x ∈ l → f x = g x) → omap f l = omap g l.
Proof.
  induction l as [|x l IH]; intros H; [done|]. cbn.
  rewrite (H x) by set_solver. rewrite IH; [done|]. set_solver.
Qed.

Lemma filter_all {A} (P : A → Prop) `{∀ x, Decision (P x)} (l : list A) :
  Forall P l → filter P l = l.
Proof.
  induction 1 as [|x l Hx _ IH]; [done|].
  rewrite filter_cons_True by done. by rewrite IH.
Qed.

Lemma list_find_pretty (d j : nat) :
  j < d →
  list_find (λ w, w = pretty j) (pretty <$> seq 0 d) = Some (j, pretty j).
Proof.
  intros Hj. apply list_find_Some. split_and!; [|done|].
  - by rewrite list_lookup_fmap, lookup_seq_lt.
  - intros i y Hi Hij ->.
    rewrite list_lookup_fmap in Hi.
    destruct (seq 0 d !! i) as [i'|] eqn:Ei; [|done].
    apply lookup_seq in Ei as [-> _]. cbn in Hi.
    injection Hi as Hi. apply (inj pretty) in Hi. lia.
Qed.

Lemma omap_fmap_list {A C D} (g : A → C) (f : C → option D) (l : list A) :
  omap f (g <$> l) = omap (f ∘ g) l.
Proof. induction l as [|x l IH]; [done|]. cbn. by rewrite IH. Qed.

Section Tensors.
Context `{B : Backend}.

Lemma length_MLP_embedding (net : MLP) (x : list num) :
  LayerShapes B →
  length (MLP_embedding net x) = embedding_width net (length x).
Proof.
  intros Hs. unfold MLP_embedding, embedding_width.
  generalize (removelast (network net)) as ls. intros ls. revert x.
  induction ls as [|l ls IH]; intros x; [done|]. cbn.
  by rewrite IH, Hs.
Qed.

Lemma reshape_concat (c : nat) (m : list (list num)) :
  Forall (λ row, length row = c) m → reshape (length m) c (concat m) = m.
Proof.
  unfold reshape. induction 1 as [|row m Hrow _ IH]; [done|].
  cbn [length concat]. rewrite <- cons_seq. cbn [map].
  rewrite Nat.mul_0_l, drop_0, (take_app_length' _ _ _ (eq_sym Hrow)).
  f_equal. rewrite <- IH at 2. rewrite <- fmap_S_seq.
  change (map ?f (?g <$> ?l)) with (f <$> (g <$> l)).
  rewrite <- list_fmap_compose. apply list_fmap_ext. intros _ i _. cbn.
  f_equal. replace (c + i * c) with (length row + i * c) by lia.
  by rewrite drop_app_add.
Qed.

Lemma select_vars_all (d : nat) (rows : list (list num)) (ys : column) :
  Forall (λ row, length row = d) rows →
  select_vars (pretty <$> seq 0 d) (batch_result d rows ys) = rows.
Proof.
  unfold select_vars. cbn [X var_names batch_result].
  induction 1 as [|row rows Hrow _ IH]; [done|].
  cbn [map]. rewrite IH. f_equal.
  rewrite omap_fmap_list.
  transitivity (take_rows (seq 0 d) row);
    [|rewrite <- Hrow; apply take_rows_all].
  apply omap_ext_elem. intros j [_ Hj]%elem_of_seq. cbn.
  by rewrite list_find_pretty by lia.
Qed.

Lemma anndata_concat_batch_result (d : nat) (rows1 rows2 : list (list num))
    (ys1 ys2 : column) :
  Forall (λ row, length row = d) rows1 →
  Forall (λ row, length row = d) rows2 →
  anndata_concat (batch_result d rows1 ys1) (batch_result d rows2 ys2)
  = batch_result d (rows1 ++ rows2) (ys1 ++ ys2).
Proof.
  intros H1 H2. unfold anndata_concat.
  cbn [var_names obs batch_result].
  rewrite filter_all by (by apply Forall_forall).
  rewrite !select_vars_all by done.
  reflexivity.
Qed.

(** *** One batch *)


Lemma n_cols_width (d : nat) (emb : list (list num)) :
  emb ≠ [] → Forall (λ row, length row = d) emb → n_cols emb = d.
Proof. destruct emb as [|row emb]; [done|]. by intros _ [? _]%Forall_cons. Qed.

Lemma get_embeddings_step_regular (m : PerturbationClassifier)
    (pert_adata : option AnnData) (count d : nat) (b : batch) :
  Forall (λ row, length row = d) (batch_embedding m b) →
  1 < length (batch_embedding m b) → d ≠ 1 →
  length (batch_str_label b) = length (batch_embedding m b) →
  get_embeddings_step m pert_adata count b
  = let batch_adata :=
      batch_result d (batch_embedding m b) (batch_str_label b) in
    if decide (count = 0) then Ok (Some batch_adata)
    else match pert_adata with
         | Some pert_adata => Ok (Some (anndata_concat pert_adata batch_adata))
         | None => Raise (UnboundLocalError "pert_adata")
         end.
Proof.
  unfold batch_embedding, get_embeddings_step.
  destruct (PerturbationClassifier_get_embeddings m b) as [emb y] eqn:E.
  assert (y = batch_str_label b) as -> by (by injection E).
  cbn [fst]. intros Hw Hk Hd Hy.
  assert (emb ≠ []) as Hne by (intros ->; cbn in Hk; lia).
  unfold AnnData_init, squeeze, stack. cbn [shape entries].
  rewrite (n_cols_width d) by done.
  rewrite filter_cons_True by lia. rewrite filter_cons_True by done.
  rewrite filter_nil. rewrite reshape_concat by done.
  cbn [mbind result_bind]. unfold assign_obs, n_obs. cbn [X].
  rewrite decide_True by done. cbn [mbind result_bind].
  unfold set_obs. cbn. by rewrite insert_empty.
Qed.

Lemma get_embeddings_step_irregular (m : PerturbationClassifier)
    (pert_adata : option AnnData) (count d : nat) (b : batch) :
  Forall (λ row, length row = d) (batch_embedding m b) →
  batch_embedding m b ≠ [] →
  length (batch_embedding m b) = 1 ∨ d = 1 →
  ∃ ndim, get_embeddings_step m pert_adata count b
          = Raise (ValueError (NotTwoDimensional ndim)).
Proof.
  unfold batch_embedding, get_embeddings_step.
  destruct (PerturbationClassifier_get_embeddings m b) as [emb y] eqn:E.
  cbn [fst]. intros Hw Hne Hirr.
  unfold AnnData_init, squeeze, stack. cbn [shape entries].
  rewrite (n_cols_width d) by done.
  destruct (decide (length emb = 1)) as [Hk|Hk];
    destruct (decide (d = 1)) as [Hd|Hd].
  - rewrite filter_cons_False by (by intros ?).
    rewrite filter_cons_False by (by intros ?). by eexists.
  - rewrite filter_cons_False by (by intros ?).
    rewrite filter_cons_True by done. by eexists.
  - rewrite filter_cons_True by done.
    rewrite filter_cons_False by (by intros ?). by eexists.
  - by destruct Hirr.
Qed.

(** *** The loop over the batches *)

Lemma get_embeddings_loop_regular_from (m : PerturbationClassifier) (d : nat)
    (rows : list (list num)) (ys : column) (k : nat) (batches : list batch) :
  d ≠ 1 →
  Forall (λ row, length row = d) rows →
  Forall (regular_batch m d) batches →
  get_embeddings_loop m (Some (batch_result d rows ys)) (S k) batches
  = Ok (Some (batch_result d
                (rows ++ concat (batch_embedding m <$> batches))
                (ys ++ concat (batch_str_label <$> batches)))).
Proof.
  intros Hd Hrows Hreg. revert rows ys k Hrows.
  induction Hreg as [|b batches (Hw & Hk & Hy) _ IH]; intros rows ys k Hrows.
  - cbn. by rewrite !app_nil_r.
  - cbn [get_embeddings_loop].
    rewrite (get_embeddings_step_regular m _ _ d) by done. cbv zeta.
    rewrite decide_False by done.
    rewrite anndata_concat_batch_result by done.
    cbn [mbind result_bind]. rewrite IH by (by apply Forall_app).
    cbn [fmap list_fmap concat]. by rewrite !app_assoc.
Qed.

Lemma get_embeddings_loop_regular (m : PerturbationClassifier) (d : nat)
    (batches : list batch) :
  d ≠ 1 → batches ≠ [] →
  Forall (regular_batch m d) batches →
  get_embeddings_loop m None 0 batches
  = Ok (Some (batch_result d
                (concat (batch_embedding m <$> batches))
                (concat (batch_str_label <$> batches)))).
Proof.
  intros Hd Hne Hreg. destruct Hreg as [|b batches (Hw & Hk & Hy) Hreg]; [done|].
  cbn [get_embeddings_loop].
  rewrite (get_embeddings_step_regular m _ _ d) by done. cbv zeta.
  rewrite decide_True by done. cbn [mbind result_bind].
  by rewrite get_embeddings_loop_regular_from.
Qed.

Lemma get_embeddings_loop_irregular (m : PerturbationClassifier) (d : nat)
    (pert_adata : option AnnData) (k : nat) (batches : list batch) (b : batch) :
  b ∈ batches →
  Forall (λ row, length row = d) (batch_embedding m b) →
  batch_embedding m b ≠ [] →
  length (batch_embedding m b) = 1 ∨ d = 1 →
  ∃ e, get_embeddings_loop m pert_adata k batches = Raise e.
Proof.
  intros Hb Hw Hne Hirr. revert pert_adata k.
  induction batches as [|b' batches IH]; intros pert_adata k;
    [by apply elem_of_nil in Hb|].
  cbn [get_embeddings_loop].
  destruct (get_embeddings_step m pert_adata k b') as [acc|e] eqn:E;
    [|by exists e].
  cbn [mbind result_bind].
  apply elem_of_cons in Hb as [<-|Hb]; [|by apply IH].
  destruct (get_embeddings_step_irregular m pert_adata k d b) as [? E'];
    try done.
  congruence.
Qed.

(** *** The batches of a data set *)

Lemma batch_embedding_collate (m : PerturbationClassifier) (ds : PLDataset)
    (idx : list nat) :
  batch_embedding m (collate ds idx)
  = cell_embedding m <$> take_rows idx (data ds).
Proof.
  unfold batch_embedding, PerturbationClassifier_get_embeddings,
    PerturbationClassifier_embedding, cell_embedding. cbn.
  by rewrite map_map.
Qed.

Lemma concat_take_rows {A} (idxs : list (list nat)) (rows : list A) :
  concat ((λ idx, take_rows idx rows) <$> idxs) = take_rows (concat idxs) rows.
Proof.
  induction idxs as [|idx idxs IH]; [done|].
  rewrite fmap_cons. cbn [concat]. rewrite IH. symmetry. apply take_rows_app.
Qed.

Lemma concat_batch_embedding (m : PerturbationClassifier) (ds : PLDataset)
    (bs : nat) :
  0 < bs →
  concat (batch_embedding m <$>
            (collate ds <$> batch_indices (length (data ds)) bs))
  = cell_embedding m <$> data ds.
Proof.
  intros Hbs. rewrite <- list_fmap_compose.
  erewrite list_fmap_ext; [|intros ? idx _; apply batch_embedding_collate].
  rewrite <- (take_rows_all (data ds)) at 2.
  rewrite <- (concat_batch_indices _ bs Hbs), <- concat_take_rows.
  generalize (batch_indices (length (data ds)) bs) as idxs.
  induction idxs as [|idx idxs IH]; [done|].
  cbn. by rewrite fmap_app, IH.
Qed.

Lemma concat_batch_str_label (ds : PLDataset) (bs : nat) :
  0 < bs → length (pert_labels ds) = length (data ds) →
  concat (batch_str_label <$>
            (collate ds <$> batch_indices (length (data ds)) bs))
  = pert_labels ds.
Proof.
  intros Hbs Hlen. rewrite <- list_fmap_compose.
  change (batch_str_label ∘ collate ds)
    with (λ idx, take_rows idx (pert_labels ds)).
  rewrite concat_take_rows, concat_batch_indices by done.
  rewrite <- Hlen. apply take_rows_all.
Qed.
End Tensors.

Lemma batch_indices_single (n bs : nat) (idx : list nat) :
  1 < bs → idx ∈ batch_indices n bs → length idx = 1 → n mod bs = 1.
Proof.
  intros Hbs. unfold batch_indices.
  intros (k & -> & Hk)%list_elem_of_fmap. rewrite length_seq. intros Hlen.
  assert (n = 1 + k * bs) as -> by lia.
  rewrite Nat.Div0.mod_add. by apply Nat.mod_small.
Qed.

Lemma batch_indices_nonempty (n bs : nat) :
  0 < bs → 0 < n → batch_indices n bs ≠ [].
Proof.
  intros Hbs Hn Hnil. pose proof (concat_batch_indices n bs Hbs) as Hc.
  rewrite Hnil in Hc. destruct n; [lia|done].
Qed.

(** ** [get_embeddings] *)

Section GetEmbeddings.
Context `{B : Backend}.

Lemma embeddable_batches (self : DiscriminatorClassifierSpace)
    (m : PerturbationClassifier) (w bs : nat) (b : batch) :
  LayerShapes B → embeddable self m w bs →
  b ∈ DataLoader_iter (entire_dataset self) →
  Forall (λ row, length row = embedding_width (pc_net m) w)
         (batch_embedding m b)
  ∧ 0 < length (batch_embedding m b)
  ∧ length (batch_str_label b) = length (batch_embedding m b)
  ∧ (length (batch_embedding m b) = 1 →
     length (data (dataset (entire_dataset self))) mod bs = 1).
Proof.
  intros Hs E. unfold DataLoader_iter, PLDataset_len.
  rewrite (emb_batch_size _ _ _ _ E).
  change (map ?f ?l) with (f <$> l).
  intros (idx & -> & Hidx)%list_elem_of_fmap.
  pose proof (emb_batches _ _ _ _ E) as Hbs.
  assert (0 < bs) as Hbs0 by lia.
  destruct (elem_of_batch_indices _ _ _ Hbs0 Hidx)
    as (s & k & -> & Hk & _ & Hsk).
  rewrite batch_embedding_collate, length_fmap.
  rewrite length_take_rows_range by done.
  split_and!.
  - apply Forall_fmap, Forall_forall. intros row Hrow%elem_of_take_rows.
    cbn. unfold cell_embedding. rewrite length_MLP_embedding by done.
    rewrite length_fmap. f_equal.
    by apply (proj1 (Forall_forall _ _) (emb_width _ _ _ _ E)).
  - done.
  - cbn. apply length_take_rows_range. by rewrite (emb_labels _ _ _ _ E).
  - intros ->. apply (batch_indices_single _ _ (seq s 1)); [done..|].
    by rewrite length_seq.
Qed.

(** Where no batch is a single cell and the embedding is wider than one
    entry, [get_embeddings] returns the embedding of every cell, in the
    order of the cells, over variables named by position, with the labels
    of the cells as 'perturbations' and the other observation columns of
    the loaded data, and without the encoded labels. *)
Lemma get_embeddings_regular (self : DiscriminatorClassifierSpace)
    (m : PerturbationClassifier) (w bs : nat) :
  LayerShapes B → embeddable self m w bs →
  length (data (dataset (entire_dataset self))) mod bs ≠ 1 →
  embedding_width (pc_net m) w ≠ 1 →
  ∃ self',
    get_embeddings self
    = (self',
       Ok {| X := cell_embedding m <$> data (dataset (entire_dataset self));
             obs := delete "encoded_perturbations"
                      ({[ "perturbations" :=
                            pert_labels (dataset (entire_dataset self)) ]}
                       ∪ delete "perturbations" (adata_obs self));
             var_names := pretty <$> seq 0 (embedding_width (pc_net m) w);
             layers := ∅ |}).
Proof.
  intros Hs E Hmod Hd. unfold get_embeddings.
  rewrite (emb_model _ _ _ _ E).
  pose proof (emb_batches _ _ _ _ E) as Hbs.
  rewrite (get_embeddings_loop_regular m (embedding_width (pc_net m) w));
    [|done| |].
  - unfold DataLoader_iter, PLDataset_len.
    rewrite (emb_batch_size _ _ _ _ E).
    change (map ?f ?l) with (f <$> l).
    rewrite concat_batch_embedding, concat_batch_str_label
      by (lia || apply E).
    cbv zeta. eexists.
    assert ((if decide ("perturbations" ∈ dom (adata_obs self))
             then delete "perturbations" (adata_obs self)
             else adata_obs self)
            = delete "perturbations" (adata_obs self)) as ->.
    { case_decide as Hp; [done|]. symmetry. apply delete_id.
      by apply not_elem_of_dom. }
    unfold drop_column. rewrite decide_True; [done|].
    rewrite dom_union_L, dom_delete_L.
    pose proof (emb_encoded _ _ _ _ E). set_solver.
  - unfold DataLoader_iter, PLDataset_len.
    rewrite (emb_batch_size _ _ _ _ E).
    change (map ?f ?l) with (f <$> l).
    intros Hnil%fmap_nil_inv.
    apply (batch_indices_nonempty _ bs) in Hnil; [done|lia|apply E].
  - apply Forall_forall. intros b Hb.
    destruct (embeddable_batches _ _ _ _ _ Hs E Hb) as (? & ? & ? & Hone).
    split_and!; [done| |done].
    destruct (decide (length (batch_embedding m b) = 1)) as [Hsingle|]; [|lia].
    by apply Hone in Hsingle.
Qed.

(** Otherwise [get_embeddings] raises. *)
Lemma get_embeddings_irregular (self : DiscriminatorClassifierSpace)
    (m : PerturbationClassifier) (w bs : nat) :
  LayerShapes B → embeddable self m w bs →
  length (data (dataset (entire_dataset self))) mod bs = 1
  ∨ embedding_width (pc_net m) w = 1 →
  ∃ e, get_embeddings self = (self, Raise e).
Proof.
  intros Hs E Hirr. unfold get_embeddings.
  rewrite (emb_model _ _ _ _ E).
  pose proof (emb_batches _ _ _ _ E) as Hbs.
  assert (∃ b, b ∈ DataLoader_iter (entire_dataset self)
               ∧ (length (batch_embedding m b) = 1
                  ∨ embedding_width (pc_net m) w = 1)) as (b & Hb & Hone).
  { unfold DataLoader_iter, PLDataset_len.
    rewrite (emb_batch_size _ _ _ _ E).
    change (map ?f ?l) with (f <$> l).
    destruct Hirr as [Hmod|Hd].
    - destruct (batch_indices_remainder_one _ _ Hbs Hmod) as [idxs Hi].
      exists (collate (dataset (entire_dataset self))
                [length (data (dataset (entire_dataset self))) - 1]).
      rewrite Hi, fmap_app. split; [set_solver|]. left.
      rewrite batch_embedding_collate, length_fmap.
      apply (length_take_rows_range _ 1).
      pose proof (emb_cells _ _ _ _ E). lia.
    - destruct (batch_indices (length (data (dataset (entire_dataset self))))
                  bs) as [|idx idxs] eqn:Ei.
      + apply (batch_indices_nonempty _ bs) in Ei; [done|lia|apply E].
      + exists (collate (dataset (entire_dataset self)) idx).
        split; [set_solver|by right]. }
  destruct (embeddable_batches _ _ _ _ _ Hs E Hb) as (Hw & Hk & _ & _).
  destruct (get_embeddings_loop_irregular m _ None 0 _ b Hb Hw) as [e ->];
    [by intros Hn; rewrite Hn in Hk; cbn in Hk; lia|done|].
  by exists e.
Qed.
End GetEmbeddings.

(** ** From [load] and [train] to [get_embeddings] *)

Section Pipeline.
Context `{B : Backend}.

Lemma train_Ok (self self' : DiscriminatorClassifierSpace)
    (max_epochs val_epochs_check patience : Z) :
  train self max_epochs val_epochs_check patience = Ok self' →
  ∃ m, model self' = Some m
       ∧ pc_net m = net self
       ∧ entire_dataset self' = entire_dataset self
       ∧ adata_obs self' = adata_obs self.
Proof.
  unfold train. intros H. apply bind_Ok in H as (m & Hm & H).
  injection H as <-. injection Hm as <-. by eexists.
Qed.

Lemma PLDataset_init_data (adata : AnnData) (tc lc : string)
    (lk : option string) (d : PLDataset) :
  PLDataset_init adata tc lc lk = Ok d →
  data d = X adata ∨ ∃ k, lk = Some k ∧ layers adata !! k = Some (data d).
Proof.
  unfold PLDataset_init. intros H.
  apply bind_Ok in H as (m & Hm & H).
  apply bind_Ok in H as (c1 & _ & H).
  apply bind_Ok in H as (c2 & _ & H).
  injection H as <-. cbn.
  destruct lk as [k|]; [|left; by injection Hm].
  case_decide; [left; by injection Hm|].
  destruct (layers adata !! k) eqn:E; [|done].
  right. exists k. by injection Hm as <-.
Qed.

(** The network of [load]: the hidden blocks, then the classification
    layer. *)
Lemma loaded_network (adata adata' : AnnData) (a : load_args)
    (self : DiscriminatorClassifierSpace) (lbls : list string)
    (X_train X_val X_test : list nat) :
  loaded adata a adata' self lbls X_train X_val X_test →
  let hd := default [512] (hidden_dim a) in
  network (net self)
  = hidden_blocks (dropout a) (batch_norm a) false (n_vars adata) hd
    ++ [Linear (List.last hd (n_vars adata))
               (size (list_to_set lbls : gset string))]
  ∧ activation (net self) = "linear".
Proof.
  intros L hd. pose proof (loaded_net _ _ _ _ _ _ _ _ L) as Hnet.
  split.
  - rewrite <- length_unique. by eapply MLP_init_network.
  - unfold MLP_init in Hnet. case_decide; [|done]. by injection Hnet as <-.
Qed.

Lemma loaded_embedding_width (adata adata' : AnnData) (a : load_args)
    (self : DiscriminatorClassifierSpace) (lbls : list string)
    (X_train X_val X_test : list nat) :
  loaded adata a adata' self lbls X_train X_val X_test →
  embedding_width (net self) (n_vars adata)
  = List.last (default [512] (hidden_dim a)) (n_vars adata).
Proof.
  intros L. destruct (loaded_network _ _ _ _ _ _ _ _ L) as [Hnet _].
  unfold embedding_width. rewrite Hnet, removelast_last.
  apply hidden_blocks_width.
Qed.

(** After [load] on a well-formed data object and [train], the object is
    ready for [get_embeddings], with batches of twice the batch size. *)
Lemma loaded_embeddable (adata adata' : AnnData) (a : load_args)
    (self self' : DiscriminatorClassifierSpace) (lbls : list string)
    (X_train X_val X_test : list nat)
    (max_epochs val_epochs_check patience : Z) :
  AnnData_wf adata →
  loaded adata a adata' self lbls X_train X_val X_test →
  train self max_epochs val_epochs_check patience = Ok self' →
  ∃ m, pc_net m = net self
       ∧ entire_dataset self' = entire_dataset self
       ∧ adata_obs self' = obs adata'
       ∧ length (data (dataset (entire_dataset self))) = n_obs adata
       ∧ pert_labels (dataset (entire_dataset self))
         = (if decide (target_col a = "encoded_perturbations")
            then Arr <$> fit_transform lbls else Str <$> lbls)
       ∧ embeddable self' m (n_vars adata) (2 * Z.to_nat (batch_size a)).
Proof.
  intros W L (m & Hm & Hnet & Hds & Hobs)%train_Ok.
  pose proof (loaded_total _ _ _ _ _ _ _ _ L) as Htotal.
  pose proof (loaded_labels _ _ _ _ _ _ _ _ L) as Hlab.
  pose proof (loaded_adata _ _ _ _ _ _ _ _ L) as Hadata.
  pose proof (loaded_batch_size _ _ _ _ _ _ _ _ L) as Hbs.
  assert (length lbls = n_obs adata) as Hn.
  { rewrite <- (wf_obs _ W _ _ Hlab). by rewrite length_fmap. }
  assert (length (data (dataset (entire_dataset self))) = n_obs adata
          ∧ Forall (λ row, length row = n_vars adata)
                   (data (dataset (entire_dataset self)))) as [Hlen Hwidth].
  { destruct (PLDataset_init_data _ _ _ _ _ Htotal) as [->|(k & _ & Hk)].
    - subst adata'. split; [done|apply W].
    - subst adata'. cbn in Hk. by apply (wf_layers _ W) in Hk. }
  assert (pert_labels (dataset (entire_dataset self))
          = (if decide (target_col a = "encoded_perturbations")
             then Arr <$> fit_transform lbls else Str <$> lbls)) as Hpert.
  { destruct (PLDataset_init_labels _ _ _ _ _ Htotal) as [_ Hp].
    subst adata'. cbn in Hp. case_decide as Htc.
    - rewrite Htc, lookup_insert_eq in Hp. by injection Hp.
    - rewrite lookup_insert_ne in Hp by done. congruence. }
  exists m. rewrite Hds, Hobs. split_and!; try done.
  - by rewrite (loaded_obs _ _ _ _ _ _ _ _ L).
  - split; rewrite ?Hds, ?Hobs.
    + done.
    + rewrite (loaded_entire _ _ _ _ _ _ _ _ L). lia.
    + lia.
    + rewrite Hlen, <- Hn. destruct lbls; [|cbn; lia].
      by destruct (loaded_nonempty _ _ _ _ _ _ _ _ L).
    + done.
    + rewrite Hpert, Hlen, <- Hn. case_decide; rewrite length_fmap; [|done].
      unfold fit_transform. by rewrite length_map.
    + rewrite (loaded_obs _ _ _ _ _ _ _ _ L). subst adata'. cbn.
      rewrite dom_insert_L. set_solver.
Qed.
End Pipeline.

(** ** What [get_embeddings] returns *)

Section Embeddings.
Context `{B : Backend}.

(** Whether [get_embeddings] returns after [load] and [train], and what. *)
Lemma get_embeddings_after_load (adata adata' : AnnData) (a : load_args)
    (self self' : DiscriminatorClassifierSpace)
    (max_epochs val_epochs_check patience : Z) :
  LayerShapes B → AnnData_wf adata →
  load adata a = (adata', Ok self) →
  train self max_epochs val_epochs_check patience = Ok self' →
  let width := List.last (default [512] (hidden_dim a)) (n_vars adata) in
  let cells := data (dataset (entire_dataset self)) in
  ∃ lbls : list string,
    obs adata !! target_col a = Some (Str <$> lbls)
    ∧ length cells = n_obs adata
    ∧ Forall (λ row, length row = n_vars adata) cells
    ∧ (layer_key a = None → cells = X adata)
    ∧ ((n_obs adata mod (2 * Z.to_nat (batch_size a)) = 1 ∨ width = 1) →
       ∃ e, get_embeddings self' = (self', Raise e))
    ∧ (n_obs adata mod (2 * Z.to_nat (batch_size a)) ≠ 1 → width ≠ 1 →
       ∃ self'',
         get_embeddings self'
         = (self'',
            Ok {| X := (λ row, MLP_embedding (net self) (to_float32 <$> row))
                       <$> cells;
                  obs := delete "encoded_perturbations"
                           ({[ "perturbations" :=
                                 if decide (target_col a
                                            = "encoded_perturbations")
                                 then Arr <$> fit_transform lbls
                                 else Str <$> lbls ]}
                            ∪ delete "perturbations" (obs adata'));
                  var_names := pretty <$> seq 0 width;
                  layers := ∅ |})).
Proof.
  intros Hs W (lbls & X_train & X_val & X_test & L)%load_Ok Ht width cells.
  destruct (loaded_embeddable _ _ _ _ _ _ _ _ _ _ _ _ W L Ht)
    as (m & Hm & Hds & Hobs & Hlen & Hpert & E).
  pose proof (loaded_embedding_width _ _ _ _ _ _ _ _ L) as Hw.
  fold width in Hw. rewrite <- Hm in Hw.
  exists lbls. split_and!.
  - apply L.
  - done.
  - pose proof (emb_width _ _ _ _ E) as Hwd. by rewrite Hds in Hwd.
  - intros Hk. pose proof (loaded_total _ _ _ _ _ _ _ _ L) as Htotal.
    destruct (PLDataset_init_data _ _ _ _ _ Htotal) as [Hd|(k & Hk' & _)];
      [|congruence].
    subst cells. rewrite Hd. by rewrite (loaded_adata _ _ _ _ _ _ _ _ L).
  - intros Hirr.
    apply (get_embeddings_irregular self' m _ _ Hs E).
    by rewrite Hds, Hlen, Hw.
  - intros Hmod Hd.
    destruct (get_embeddings_regular self' m _ _ Hs E) as [self'' Hr].
    { by rewrite Hds, Hlen. }
    { by rewrite Hw. }
    exists self''. rewrite Hr, Hds, Hobs, Hpert, Hw.
    unfold cell_embedding. by rewrite Hm.
Qed.

(** C1. The network of [load] is the hidden blocks (linear layer, batch
    normalisation if asked for, ReLU, dropout) followed by the linear
    classification layer. [MLP.embedding] runs the hidden blocks only, so
    its value is the output of the last hidden layer and the input of the
    classification layer: the forward pass is that layer applied to the
    embedding. Every row [get_embeddings] returns is the embedding of the
    cell at that position; it returns when no batch is a single cell and
    the embedding is wider than one entry. *)
Theorem get_embeddings_penultimate_layer (adata adata' : AnnData)
    (a : load_args) (self self' : DiscriminatorClassifierSpace)
    (max_epochs val_epochs_check patience : Z) :
  LayerShapes B → AnnData_wf adata →
  load adata a = (adata', Ok self) →
  train self max_epochs val_epochs_check patience = Ok self' →
  let hd := default [512] (hidden_dim a) in
  let hidden :=
    hidden_blocks (dropout a) (batch_norm a) false (n_vars adata) hd in
  ∃ n_in n_out : nat,
    network (net self) = hidden ++ [Linear n_in n_out]
    ∧ (∀ x, MLP_embedding (net self) x = sequential hidden x)
    ∧ (∀ x, MLP_forward (net self) x
            = apply_layer (Linear n_in n_out) (MLP_embedding (net self) x))
    ∧ (∀ self'' r, get_embeddings self' = (self'', Ok r) →
         X r = (λ row, MLP_embedding (net self) (to_float32 <$> row))
               <$> data (dataset (entire_dataset self)))
    ∧ (n_obs adata mod (2 * Z.to_nat (batch_size a)) ≠ 1 →
       List.last hd (n_vars adata) ≠ 1 →
       ∃ self'' r, get_embeddings self' = (self'', Ok r)).
Proof.
  intros Hs W Hl Ht hd hidden.
  destruct (get_embeddings_after_load _ _ _ _ _ _ _ _ Hs W Hl Ht)
    as (lbls & _ & _ & _ & _ & Hirr & Hreg).
  apply load_Ok in Hl as (lbls' & X_train & X_val & X_test & L).
  destruct (loaded_network _ _ _ _ _ _ _ _ L) as [Hnet Hact].
  fold hd hidden in Hnet.
  eexists _, _. split_and!; [exact Hnet|..].
  - intros x. unfold MLP_embedding. by rewrite Hnet, removelast_last.
  - intros x. unfold MLP_forward, MLP_embedding. rewrite Hact.
    rewrite decide_False by done.
    unfold sequential. by rewrite Hnet, removelast_last, fold_left_app.
  - intros self'' r Hr.
    destruct (decide (n_obs adata mod (2 * Z.to_nat (batch_size a)) = 1
                      ∨ List.last hd (n_vars adata) = 1)) as [Hi|Hn].
    + destruct (Hirr Hi) as [e He]. congruence.
    + destruct Hreg as [s Hs']; [tauto..|]. rewrite Hs' in Hr.
      by injection Hr as _ <-.
  - intros Hmod Hd. destruct (Hreg Hmod Hd) as [s Hs']. by eexists _, _.
Qed.

(** C4. What [get_embeddings] returns is an annotated data object: a matrix
    with a row per cell and a column per feature, and an observation
    table with a row per cell, whose column 'perturbations' holds the
    label of each cell from the target column of the input. It returns
    when no batch is a single cell and the embedding is wider than one
    entry. The target column is taken not to be 'encoded_perturbations',
    the column [load] itself writes: under that name the labels are
    overwritten before the data sets read them, and whether such a run
    reaches [get_embeddings] is decided by scikit-learn and torch, outside
    this development. *)
Theorem get_embeddings_perturbations (adata adata' : AnnData)
    (a : load_args) (self self' : DiscriminatorClassifierSpace)
    (max_epochs val_epochs_check patience : Z) :
  LayerShapes B → AnnData_wf adata →
  target_col a ≠ "encoded_perturbations" →
  load adata a = (adata', Ok self) →
  train self max_epochs val_epochs_check patience = Ok self' →
  ∃ lbls : list string,
    obs adata !! target_col a = Some (Str <$> lbls)
    ∧ (∀ self'' r, get_embeddings self' = (self'', Ok r) →
         length (X r) = n_obs adata
         ∧ Forall (λ row, length row = n_vars r) (X r)
         ∧ (∀ col c, obs r !! col = Some c → length c = n_obs adata)
         ∧ obs r !! "perturbations" = Some (Str <$> lbls))
    ∧ (n_obs adata mod (2 * Z.to_nat (batch_size a)) ≠ 1 →
       List.last (default [512] (hidden_dim a)) (n_vars adata) ≠ 1 →
       ∃ self'' r, get_embeddings self' = (self'', Ok r)).
Proof.
  intros Hs W Htc Hl Ht.
  destruct (get_embeddings_after_load _ _ _ _ _ _ _ _ Hs W Hl Ht)
    as (lbls & Hlab & Hlen & Hwd & _ & Hirr & Hreg).
  apply load_Ok in Hl as (lbls' & X_train & X_val & X_test & L).
  pose proof (loaded_embedding_width _ _ _ _ _ _ _ _ L) as Hw.
  exists lbls. split_and!; [done| |].
  - intros self'' r Hr.
    destruct (decide (n_obs adata mod (2 * Z.to_nat (batch_size a)) = 1
                      ∨ List.last (default [512] (hidden_dim a))
                          (n_vars adata) = 1)) as [Hi|Hn].
    { destruct (Hirr Hi) as [e He]. congruence. }
    destruct Hreg as [s Hs']; [tauto..|]. rewrite Hs' in Hr.
    injection Hr as _ <-. rewrite decide_False by done.
    change (n_vars (mkAnnData ?x ?o ?v ?l)) with (length v).
    cbn [X obs var_names]. split_and!.
    + by rewrite length_fmap.
    + rewrite length_fmap, length_seq. apply Forall_fmap. eapply Forall_impl; [exact Hwd|].
      intros row Hrow. cbn. rewrite length_MLP_embedding by done.
      by rewrite length_fmap, Hrow, Hw.
    + intros col c Hc.
      apply lookup_delete_Some in Hc as [Hne Hc].
      apply lookup_union_Some_raw in Hc as [Hc|[_ Hc]].
      * apply lookup_singleton_Some in Hc as [_ <-].
        rewrite length_fmap. rewrite <- (wf_obs _ W _ _ Hlab).
        by rewrite length_fmap.
      * apply lookup_delete_Some in Hc as [_ Hc].
        rewrite (loaded_adata _ _ _ _ _ _ _ _ L) in Hc. cbn in Hc.
        rewrite lookup_insert_ne in Hc by done.
        by apply (wf_obs _ W) in Hc.
    + rewrite lookup_delete_ne by done.
      apply lookup_union_Some_l, lookup_singleton_eq.
  - intros Hmod Hd. destruct (Hreg Hmod Hd) as [s Hs']. by eexists _, _.
Qed.

(** C7, amended. The embedding [get_embeddings] returns has as many
    features as the last entry of [hidden_dim] says: 512 by default, and as
    many as there are genes when [hidden_dim] is empty. (It need not have
    fewer features than there are genes.) It returns when no batch is a
    single cell and the embedding is wider than one entry. *)
Theorem get_embeddings_feature_dimension (adata adata' : AnnData)
    (a : load_args) (self self' : DiscriminatorClassifierSpace)
    (max_epochs val_epochs_check patience : Z) :
  LayerShapes B → AnnData_wf adata →
  load adata a = (adata', Ok self) →
  train self max_epochs val_epochs_check patience = Ok self' →
  ∃ width : nat,
    (hidden_dim a = None → width = 512)
    ∧ (∀ hd h, hidden_dim a = Some (hd ++ [h]) → width = h)
    ∧ (hidden_dim a = Some [] → width = n_vars adata)
    ∧ (∀ self'' r, get_embeddings self' = (self'', Ok r) →
         n_vars r = width ∧ Forall (λ row, length row = width) (X r))
    ∧ (n_obs adata mod (2 * Z.to_nat (batch_size a)) ≠ 1 → width ≠ 1 →
       ∃ self'' r, get_embeddings self' = (self'', Ok r)).
Proof.
  intros Hs W Hl Ht.
  destruct (get_embeddings_after_load _ _ _ _ _ _ _ _ Hs W Hl Ht)
    as (lbls & Hlab & Hlen & Hwd & _ & Hirr & Hreg).
  apply load_Ok in Hl as (lbls' & X_train & X_val & X_test & L).
  pose proof (loaded_embedding_width _ _ _ _ _ _ _ _ L) as Hw.
  exists (List.last (default [512] (hidden_dim a)) (n_vars adata)).
  split_and!.
  - by intros ->.
  - intros hd h ->. cbn. apply last_last.
  - by intros ->.
  - intros self'' r Hr.
    destruct (decide (n_obs adata mod (2 * Z.to_nat (batch_size a)) = 1
                      ∨ List.last (default [512] (hidden_dim a))
                          (n_vars adata) = 1)) as [Hi|Hn].
    { destruct (Hirr Hi) as [e He]. congruence. }
    destruct Hreg as [s Hs']; [tauto..|]. rewrite Hs' in Hr.
    injection Hr as _ <-.
    change (n_vars (mkAnnData ?x ?o ?v ?l)) with (length v).
    cbn [X var_names].
    rewrite length_fmap, length_seq. split; [done|].
    apply Forall_fmap. eapply Forall_impl; [exact Hwd|].
    intros row Hrow. cbn. rewrite length_MLP_embedding by done.
    by rewrite length_fmap, Hrow, Hw.
  - intros Hmod Hd. destruct (Hreg Hmod Hd) as [s Hs']. by eexists _, _.
Qed.
End Embeddings.

(** ** The shape of a squeezed batch *)

Section Squeeze.
Context `{B : Backend}.

End Squeeze.

(** * Further properties of the module *)

(** ** Networks of any sizes *)

Lemma sizes_two_or_more (sizes : list nat) :
  2 ≤ length sizes →
  ∃ n_in hidden n_out, sizes = [n_in] ++ hidden ++ [n_out].
Proof.
  destruct sizes as [|n_in rest]; [cbn; lia|].
  destruct rest as [|h rest _] using rev_ind; [cbn; lia|].
  intros _. by exists n_in, rest, h.
Qed.

Lemma MLP_init_fields (sizes : list nat) (p : Q) (bn ln : bool) (act : string)
    (net : MLP) :
  MLP_init sizes p bn ln act = Ok net →
  (act = "linear" ∨ act = "ReLU")
  ∧ activation net = act
  ∧ network net = removelast (omap id (MLP_layers sizes p bn ln)).
Proof.
  unfold MLP_init. case_decide as Hact; [|done]. by intros [= <-].
Qed.

Lemma removelast_snoc {A} (l : list A) (x : A) : removelast (l ++ [x]) = l.
Proof. apply removelast_last. Qed.

Section Networks.
Context `{B : Backend}.

Lemma sequential_app (l1 l2 : list layer) (x : list num) :
  sequential (l1 ++ l2) x = sequential l2 (sequential l1 x).
Proof. apply fold_left_app. Qed.

Lemma length_sequential (ls : list layer) (x : list num) :
  LayerShapes B →
  length (sequential ls x) = fold_left (λ w l, layer_out l w) ls (length x).
Proof.
  intros Hs. unfold sequential. revert x.
  induction ls as [|l ls IH]; intros x; [done|].
  cbn. rewrite IH. by rewrite Hs.
Qed.

(** X1. [MLP.__init__], [forward] and [embedding] for any list of two or
    more sizes. The network is one block per hidden size (a linear layer,
    batch normalisation if asked for, layer normalisation if asked for and
    batch normalisation is off, ReLU, dropout) followed by one linear layer
    onto the last size. The embedding is the output of the blocks; the
    forward pass is the last linear layer on the embedding, followed by
    ReLU when [last_layer_act] is "ReLU". *)
Theorem MLP_network_of_sizes (sizes : list nat) (p : Q) (bn ln : bool)
    (act : string) (net : MLP) :
  2 ≤ length sizes →
  MLP_init sizes p bn ln act = Ok net →
  ∃ (n_in : nat) (hidden : list nat) (n_out : nat),
    sizes = [n_in] ++ hidden ++ [n_out]
    ∧ network net
      = hidden_blocks p bn ln n_in hidden
        ++ [Linear (List.last hidden n_in) n_out]
    ∧ (∀ x, MLP_embedding net x
            = sequential (hidden_blocks p bn ln n_in hidden) x)
    ∧ (∀ x, MLP_forward net x
            = let y := apply_layer (Linear (List.last hidden n_in) n_out)
                                   (MLP_embedding net x) in
              if decide (act = "ReLU") then apply_layer ReLU y else y).
Proof.
  intros (n_in & hidden & n_out & ->)%sizes_two_or_more Hinit.
  exists n_in, hidden, n_out. split; [done|].
  pose proof (MLP_init_network _ _ _ _ _ _ _ _ Hinit) as Hnet.
  apply MLP_init_fields in Hinit as (_ & Hact & _).
  split; [done|].
  assert (∀ x, MLP_embedding net x
               = sequential (hidden_blocks p bn ln n_in hidden) x) as Hemb.
  { intros x. unfold MLP_embedding. rewrite Hnet, removelast_snoc. done. }
  split; [done|]. intros x. cbn zeta. unfold MLP_forward.
  rewrite Hact, Hnet, sequential_app, <- Hemb. done.
Qed.

Lemma MLP_init_short (sizes : list nat) (p : Q) (bn ln : bool)
    (act : string) (net : MLP) :
  length sizes ≤ 1 →
  MLP_init sizes p bn ln act = Ok net →
  network net = [] ∧ activation net = act.
Proof.
  intros Hlen (_ & Hact & Hnet)%MLP_init_fields. split; [|done].
  rewrite Hnet. unfold MLP_layers.
  replace (length sizes - 1) with 0 by lia. done.
Qed.

(** X2. With fewer than two sizes the loop of [MLP.__init__] does not
    run: the network has no module, the embedding of a sample is the
    sample, and the forward pass returns the sample, or its ReLU when
    [last_layer_act] is "ReLU". *)
Theorem MLP_short_sizes (sizes : list nat) (p : Q) (bn ln : bool)
    (act : string) (net : MLP) :
  length sizes ≤ 1 →
  MLP_init sizes p bn ln act = Ok net →
  network net = []
  ∧ (∀ x, MLP_embedding net x = x)
  ∧ (∀ x, MLP_forward net x
          = if decide (act = "ReLU") then apply_layer ReLU x else x).
Proof.
  intros Hlen Hinit.
  destruct (MLP_init_short _ _ _ _ _ _ Hlen Hinit) as [Hnil Hact].
  split; [done|]. split.
  - intros x. unfold MLP_embedding. by rewrite Hnil.
  - intros x. unfold MLP_forward. by rewrite Hact, Hnil.
Qed.

Lemma length_MLP_forward (sizes : list nat) (p : Q) (bn ln : bool)
    (act : string) (net : MLP) (x : list num) :
  LayerShapes B →
  2 ≤ length sizes →
  MLP_init sizes p bn ln act = Ok net →
  length (MLP_forward net x) = List.last sizes 0.
Proof.
  intros Hs (n_in & hidden & n_out & ->)%sizes_two_or_more Hinit.
  pose proof (MLP_init_network _ _ _ _ _ _ _ _ Hinit) as Hnet.
  assert (length (sequential (network net) x) = n_out) as Hw.
  { rewrite Hnet, sequential_app. cbn. by rewrite Hs. }
  replace (List.last ([n_in] ++ hidden ++ [n_out]) 0) with n_out.
  2:{ rewrite app_assoc. by rewrite last_last. }
  unfold MLP_forward. case_decide; [|done]. by rewrite Hs.
Qed.

(** X3. The shapes of an MLP over two or more sizes, on a sample as wide
    as the first size: the forward pass returns as many entries as the
    last size, the embedding as many as the size before the last. *)
Theorem MLP_output_widths (sizes : list nat) (p : Q) (bn ln : bool)
    (act : string) (net : MLP) (x : list num) :
  LayerShapes B →
  2 ≤ length sizes →
  head sizes = Some (length x) →
  MLP_init sizes p bn ln act = Ok net →
  length (MLP_forward net x) = List.last sizes 0
  ∧ length (MLP_embedding net x) = List.last (removelast sizes) 0.
Proof.
  intros Hs Hlen Hhead Hinit. split; [by eapply length_MLP_forward|].
  apply sizes_two_or_more in Hlen as (n_in & hidden & n_out & ->).
  injection Hhead as ->.
  pose proof (MLP_init_network _ _ _ _ _ _ _ _ Hinit) as Hnet.
  rewrite length_MLP_embedding by done. unfold embedding_width.
  rewrite Hnet, removelast_snoc, hidden_blocks_width.
  change ([length x] ++ hidden ++ [n_out])
    with ((length x :: hidden) ++ [n_out]).
  rewrite removelast_snoc. by rewrite last_cons_default.
Qed.

Lemma PerturbationClassifier_init_defaults (model : option MLP) (bs : Z) :
  PerturbationClassifier_init model bs
  = PerturbationClassifier_new model bs default_hparams.
Proof. done. Qed.

(** X4. A [PerturbationClassifier] made without a model builds its
    network from the [layers] hyperparameter alone. A list of at most one
    entry (the default, [[512]], is one) gives a network without modules:
    the embedding of a batch is the batch, and the forward pass returns
    its input, after ReLU if [last_layer_act] says so. *)
Theorem PerturbationClassifier_without_model (bs : Z) (hp : hparams)
    (self : PerturbationClassifier) :
  length (hp_layers hp) ≤ 1 →
  PerturbationClassifier_new None bs hp = Ok self →
  network (pc_net self) = []
  ∧ (∀ x, PerturbationClassifier_embedding self x = x)
  ∧ (∀ x, PerturbationClassifier_forward self x
          = if decide (hp_last_layer_act hp = "ReLU")
            then apply_layer ReLU x else x).
Proof.
  intros Hlen. unfold PerturbationClassifier_new.
  intros (net & Hnet & [= <-])%bind_Ok.
  destruct (MLP_init_short _ _ _ _ _ _ Hlen Hnet) as [Hnil Hact].
  split; [done|]. split.
  - intros x. unfold PerturbationClassifier_embedding. cbn.
    rewrite <- (map_id x) at 2. apply map_ext. intros row.
    unfold MLP_embedding. by rewrite Hnil.
  - intros x. unfold PerturbationClassifier_forward, MLP_forward. cbn.
    by rewrite Hact, Hnil.
Qed.
End Networks.

(** ** Items of a dataset *)

Lemma py_index_nat {A} (l : list A) (i : nat) :
  py_index l (Z.of_nat i) = l !! i.
Proof.
  unfold py_index. case_decide as Hi; [by rewrite Nat2Z.id|].
  case_decide; [lia|]. symmetry. apply lookup_ge_None. lia.
Qed.

Lemma py_index_negative {A} (l : list A) (idx : Z) :
  (- Z.of_nat (length l) ≤ idx < 0)%Z →
  py_index l idx = py_index l (idx + Z.of_nat (length l)).
Proof.
  intros Hi. unfold py_index.
  rewrite (decide_False (P := (0 ≤ idx < _)%Z)) by lia.
  rewrite (decide_True (P := (- _ ≤ idx < 0)%Z)) by lia.
  by rewrite (decide_True (P := (0 ≤ idx + _ < _)%Z)) by lia.
Qed.

Lemma py_index_is_Some {A} (l : list A) (idx : Z) :
  is_Some (py_index l idx)
  ↔ (- Z.of_nat (length l) ≤ idx < Z.of_nat (length l))%Z.
Proof.
  unfold py_index. case_decide as H1.
  - rewrite lookup_lt_is_Some. lia.
  - case_decide as H2.
    + rewrite lookup_lt_is_Some. lia.
    + split; [by intros [? ?]|lia].
Qed.

Section Items.
Context `{B : Backend}.

(** The data of a dataset over a well-formed data object: the matrix it
    reads, with a row per cell, and a label of either kind per cell. *)
Lemma PLDataset_init_wf (adata : AnnData) (tc lc : string)
    (lk : option string) (d : PLDataset) :
  AnnData_wf adata →
  PLDataset_init adata tc lc lk = Ok d →
  length (data d) = n_obs adata
  ∧ Forall (λ row, length row = n_vars adata) (data d)
  ∧ length (labels d) = n_obs adata
  ∧ length (pert_labels d) = n_obs adata.
Proof.
  intros Hwf Hd.
  destruct (PLDataset_init_labels _ _ _ _ _ Hd) as [Hl Hp].
  apply (wf_obs _ Hwf) in Hl, Hp.
  destruct (PLDataset_init_data _ _ _ _ _ Hd) as [->|(k & _ & Hk)].
  - split; [done|]. split; [apply (wf_X _ Hwf)|done].
  - destruct (wf_layers _ Hwf _ _ Hk) as [? ?]. done.
Qed.

(** X5. Item [i] of a dataset over a well-formed data object, for [i]
    below the number of cells: the sample is row [i] of the layer of a key
    that is not empty and of [X] otherwise, the two labels are the entries
    [i] of the two observation columns; the length of the dataset is the
    number of cells. *)
Theorem PLDataset_getitem_cell (adata : AnnData) (tc lc : string)
    (lk : option string) (d : PLDataset) (i : nat) :
  AnnData_wf adata →
  PLDataset_init adata tc lc lk = Ok d →
  i < n_obs adata →
  PLDataset_len d = n_obs adata
  ∧ ∃ (sample : list num) (num_label str_label : value),
      PLDataset_getitem d (Z.of_nat i) = Some (sample, num_label, str_label)
      ∧ match lk with
        | Some k =>
            if decide (k = "") then X adata !! i = Some sample
            else layers adata !! k ≫= (.!! i) = Some sample
        | None => X adata !! i = Some sample
        end
      ∧ obs adata !! tc ≫= (.!! i) = Some num_label
      ∧ obs adata !! lc ≫= (.!! i) = Some str_label.
Proof.
  intros Hwf Hd Hi.
  destruct (PLDataset_init_wf _ _ _ _ _ Hwf Hd) as (Hn & _ & Hnl & Hnp).
  split; [done|].
  destruct (lookup_lt_is_Some_2 (data d) i) as [sample Hs]; [lia|].
  destruct (lookup_lt_is_Some_2 (labels d) i) as [nl Hnum]; [lia|].
  destruct (lookup_lt_is_Some_2 (pert_labels d) i) as [sl Hstr]; [lia|].
  exists sample, nl, sl. split.
  { unfold PLDataset_getitem. rewrite !py_index_nat, Hs, Hnum, Hstr. done. }
  destruct (PLDataset_init_labels _ _ _ _ _ Hd) as [-> ->]. cbn.
  split; [|done].
  revert Hd. unfold PLDataset_init.
  destruct lk as [k|].
  - case_decide.
    + intros (m & [= <-] & (? & _ & (? & _ & [= <-])%bind_Ok)%bind_Ok)%bind_Ok.
      done.
    + destruct (layers adata !! k) as [m'|]; [|done].
      intros (m & [= <-] & (? & _ & (? & _ & [= <-])%bind_Ok)%bind_Ok)%bind_Ok.
      done.
  - intros (m & [= <-] & (? & _ & (? & _ & [= <-])%bind_Ok)%bind_Ok)%bind_Ok.
    done.
Qed.

(** X6. [PLDataset.__getitem__] accepts exactly the indices from [-n] to
    [n - 1], for [n] cells, and raises [IndexError] outside; a negative
    index counts from the end. *)
Theorem PLDataset_getitem_bounds (adata : AnnData) (tc lc : string)
    (lk : option string) (d : PLDataset) (idx : Z) :
  AnnData_wf adata →
  PLDataset_init adata tc lc lk = Ok d →
  let n := Z.of_nat (n_obs adata) in
  (is_Some (PLDataset_getitem d idx) ↔ (- n ≤ idx < n)%Z)
  ∧ ((- n ≤ idx < 0)%Z →
     PLDataset_getitem d idx = PLDataset_getitem d (idx + n)).
Proof.
  intros Hwf Hd n.
  destruct (PLDataset_init_wf _ _ _ _ _ Hwf Hd) as (Hn & _ & Hnl & Hnp).
  split.
  - unfold PLDataset_getitem. split.
    + intros [x Hx].
      destruct (py_index (data d) idx) eqn:E; [|done].
      apply mk_is_Some, py_index_is_Some in E. unfold n. lia.
    + intros Hi.
      destruct (proj2 (py_index_is_Some (data d) idx)) as [? ->];
        [unfold n in Hi; lia|].
      destruct (proj2 (py_index_is_Some (labels d) idx)) as [? ->];
        [unfold n in Hi; lia|].
      destruct (proj2 (py_index_is_Some (pert_labels d) idx)) as [? ->];
        [unfold n in Hi; lia|].
      done.
  - intros Hi. unfold PLDataset_getitem, n.
    rewrite (py_index_negative (data d)) by lia.
    rewrite (py_index_negative (labels d)) by lia.
    rewrite (py_index_negative (pert_labels d)) by lia.
    by rewrite Hn, Hnl, Hnp.
Qed.



End Items.

(** ** More on what [load] builds and leaves behind *)

Section LoadMore.
Context `{B : Backend}.

Lemma PLDataset_init_source (adata : AnnData) (tc lc : string)
    (lk : option string) (d : PLDataset) :
  PLDataset_init adata tc lc lk = Ok d → data_source adata lk (data d).
Proof.
  unfold PLDataset_init, data_source. intros H.
  apply bind_Ok in H as (m & Hm & H).
  apply bind_Ok in H as (c1 & _ & H).
  apply bind_Ok in H as (c2 & _ & H).
  injection H as <-. cbn.
  destruct lk as [k|]; [|by injection Hm].
  case_decide; [by injection Hm|].
  destruct (layers adata !! k) eqn:E; [|done]. by injection Hm as <-.
Qed.

Lemma data_source_subset (adata : AnnData) (lk : option string)
    (idx : list nat) (m m' : list (list num)) :
  data_source adata lk m → data_source (subset adata idx) lk m' →
  m' = take_rows idx m.
Proof.
  unfold data_source. destruct lk as [k|]; [|by intros -> ->].
  case_decide; [by intros -> ->|]. cbn. rewrite lookup_fmap.
  intros ->. cbn. by intros [= <-].
Qed.

Lemma data_source_set_obs (adata : AnnData) (lk : option string)
    (col : string) (c : column) (m : list (list num)) :
  data_source (set_obs adata col c) lk m ↔ data_source adata lk m.
Proof. done. Qed.

Lemma loaded_data_rows (adata adata' : AnnData) (a : load_args)
    (self : DiscriminatorClassifierSpace) (lbls : list string)
    (X_train X_val X_test : list nat) :
  loaded adata a adata' self lbls X_train X_val X_test →
  let m := data (dataset (entire_dataset self)) in
  data_source adata (layer_key a) m
  ∧ data (dataset (train_dataloader self)) = take_rows X_train m
  ∧ data (dataset (valid_dataloader self)) = take_rows X_val m
  ∧ data (dataset (test_dataloader self)) = take_rows X_test m.
Proof.
  intros L m.
  pose proof (PLDataset_init_source _ _ _ _ _
                (loaded_total _ _ _ _ _ _ _ _ L)) as Hm.
  split.
  { rewrite (loaded_adata _ _ _ _ _ _ _ _ L) in Hm.
    by apply data_source_set_obs in Hm. }
  split_and!; eapply data_source_subset; try exact Hm;
    eapply PLDataset_init_source; apply L.
Qed.

(** X8. The data of the datasets of [load]: with a layer key that is
    not the empty string it is the layer of that name, and the key names
    an observation column as well; otherwise it is [X]. The train,
    validation and test datasets hold its rows at the indices of the
    split. *)
Theorem load_data_source (adata adata' : AnnData) (a : load_args)
    (self : DiscriminatorClassifierSpace) :
  load adata a = (adata', Ok self) →
  ∃ (m : list (list num)) (X_train X_val X_test : list nat),
    match layer_key a with
    | Some k =>
        k ∈ dom (obs adata)
        ∧ if decide (k = "") then m = X adata
          else layers adata !! k = Some m
    | None => m = X adata
    end
    ∧ load_split adata' a = Ok (X_train, X_val, X_test)
    ∧ data (dataset (entire_dataset self)) = m
    ∧ data (dataset (train_dataloader self)) = take_rows X_train m
    ∧ data (dataset (valid_dataloader self)) = take_rows X_val m
    ∧ data (dataset (test_dataloader self)) = take_rows X_test m.
Proof.
  intros (lbls & X_train & X_val & X_test & L)%load_Ok.
  exists (data (dataset (entire_dataset self))), X_train, X_val, X_test.
  destruct (loaded_data_rows _ _ _ _ _ _ _ _ L) as (Hm & Htr & Hva & Hte).
  split.
  { unfold data_source in Hm.
    pose proof (loaded_layer_key _ _ _ _ _ _ _ _ L) as Hk.
    destruct (layer_key a) as [k|]; [|done]. split; [by apply Hk|done]. }
  split; [apply L|]. by split_and!.
Qed.

Lemma load_checked_labelled (adata : AnnData) (a : load_args)
    (lbls : list string) :
  obs adata !! target_col a = Some (Str <$> lbls) → lbls ≠ [] →
  let adata' :=
    set_obs adata "encoded_perturbations" (Arr <$> fit_transform lbls) in
  load_checked adata a
  = (adata',
     load_rest adata' a (default [512] (hidden_dim a))
               (length (unique lbls))).
Proof.
  intros Hl Hne. unfold load_checked.
  rewrite decide_False by (intros Hd; apply Hd, elem_of_dom; by eexists).
  unfold get_obs. rewrite Hl. cbn.
  rewrite (proj2 (labels_of_Ok _ _) eq_refl).
  by destruct lbls.
Qed.

Lemma load_labelled (adata : AnnData) (a : load_args) (lbls : list string) :
  (∀ k, layer_key a = Some k → k ∈ dom (obs adata)) →
  obs adata !! target_col a = Some (Str <$> lbls) → lbls ≠ [] →
  let adata' :=
    set_obs adata "encoded_perturbations" (Arr <$> fit_transform lbls) in
  load adata a
  = (adata',
     load_rest adata' a (default [512] (hidden_dim a))
               (length (unique lbls))).
Proof.
  intros Hk Hl Hne. unfold load.
  destruct (layer_key a) as [k|]; [|by apply load_checked_labelled].
  rewrite decide_False by (intros Hd; apply Hd; by apply Hk).
  by apply load_checked_labelled.
Qed.

(** X9. A layer key that names an observation column but no layer
    passes the check of [load]. The call then raises [KeyError] when the
    first dataset is built, after the encoded labels have been written to
    the caller's data object. *)
Theorem load_missing_layer (adata : AnnData) (a : load_args) (k : string)
    (lbls : list string) (X_train X_val X_test : list nat) :
  layer_key a = Some k → k ≠ "" →
  k ∈ dom (obs adata) → layers adata !! k = None →
  obs adata !! target_col a = Some (Str <$> lbls) → lbls ≠ [] →
  let adata' :=
    set_obs adata "encoded_perturbations" (Arr <$> fit_transform lbls) in
  load_split adata' a = Ok (X_train, X_val, X_test) →
  load adata a = (adata', Raise (KeyError k)).
Proof.
  intros Hk Hne Hobs Hlay Hl Hlbls adata' Hsplit.
  rewrite (load_labelled adata a lbls); [|
    intros k0 Hk0; rewrite Hk in Hk0; by injection Hk0 as <- |done..].
  fold adata'. f_equal. unfold load_rest. rewrite Hsplit. cbn.
  assert (PLDataset_init (subset adata' X_train) "encoded_perturbations"
            (target_col a) (layer_key a) = Raise (KeyError k)) as ->; [|done].
  unfold PLDataset_init. rewrite Hk.
  rewrite (decide_False (P := k = "")) by done.
  cbn. by rewrite lookup_fmap, Hlay.
Qed.

(** X10. Whether [load] returns or raises, it leaves [X], the
    variables, the layers and every observation column other than
    'encoded_perturbations' as it found them: the data object is either
    unchanged or has gained the one-hot column of its labels. *)
Theorem load_writes_one_column (adata : AnnData) (a : load_args) :
  let adata' := (load adata a).1 in
  X adata' = X adata
  ∧ var_names adata' = var_names adata
  ∧ layers adata' = layers adata
  ∧ (∀ col, col ≠ "encoded_perturbations" →
       obs adata' !! col = obs adata !! col)
  ∧ (adata' = adata
     ∨ ∃ lbls, obs adata !! target_col a = Some (Str <$> lbls)
               ∧ lbls ≠ []
               ∧ adata' = set_obs adata "encoded_perturbations"
                            (Arr <$> fit_transform lbls)).
Proof.
  intros adata'.
  assert (adata' = adata
     ∨ ∃ lbls, obs adata !! target_col a = Some (Str <$> lbls)
               ∧ lbls ≠ []
               ∧ adata' = set_obs adata "encoded_perturbations"
                            (Arr <$> fit_transform lbls)) as H.
  { unfold adata', load.
    assert ((load_checked adata a).1 = adata
            ∨ ∃ lbls, obs adata !! target_col a = Some (Str <$> lbls)
               ∧ lbls ≠ []
               ∧ (load_checked adata a).1
                 = set_obs adata "encoded_perturbations"
                     (Arr <$> fit_transform lbls)) as Hc.
    { unfold load_checked. case_decide; [by left|].
      destruct (get_obs adata (target_col a) ≫= labels_of) as [lbls|e] eqn:El;
        [|by left].
      apply bind_Ok in El as (c & Hc%get_obs_Ok & ->%labels_of_Ok).
      destruct lbls as [|l lbls]; [by left|]. right.
      by exists (l :: lbls). }
    destruct (layer_key a) as [k|]; [|done]. case_decide; [by left|done]. }
  split_and!; [| | | |done].
  all: destruct H as [->|(lbls & _ & _ & ->)]; try done.
  intros col Hcol. cbn. by apply lookup_insert_ne.
Qed.

(** X23. [load] can be run again on the data object it has written to,
    for a target column other than 'encoded_perturbations': the second call
    passes the layer-key check and leaves the data object as the first
    call left it. *)
Theorem load_again (adata adata' : AnnData) (a : load_args)
    (self : DiscriminatorClassifierSpace) :
  target_col a ≠ "encoded_perturbations" →
  load adata a = (adata', Ok self) →
  (load adata' a).1 = adata' ∧ ¬ layer_key_error (load adata' a).2.
Proof.
  intros Htc (lbls & X_train & X_val & X_test & L)%load_Ok.
  pose proof (loaded_adata _ _ _ _ _ _ _ _ L) as Ha.
  assert (obs adata' !! target_col a = Some (Str <$> lbls)) as Hl.
  { rewrite Ha. cbn. rewrite lookup_insert_ne by done. apply L. }
  assert (∀ k, layer_key a = Some k → k ∈ dom (obs adata')) as Hk.
  { intros k Hk. rewrite Ha. cbn. rewrite dom_insert_L.
    apply elem_of_union_r. by apply (loaded_layer_key _ _ _ _ _ _ _ _ L). }
  rewrite (load_labelled adata' a lbls Hk Hl (loaded_nonempty _ _ _ _ _ _ _ _ L)).
  cbn [fst snd]. split.
  - rewrite Ha at 2. rewrite Ha. unfold set_obs. cbn. f_equal.
    apply insert_insert_eq.
  - apply load_rest_error.
Qed.

Lemma load_rest_loaders (adata : AnnData) (a : load_args) (hd : list nat)
    (nc : nat) (self : DiscriminatorClassifierSpace) :
  load_rest adata a hd nc = Ok self →
  (∃ (d : PLDataset) (w : list Q),
     train_weights_of (labels d) = Ok w
     ∧ length w ≠ 0
     ∧ train_dataloader self
       = mkDataLoader d (batch_size a) (Some (mkSampler w (length w)))
                      false 4)
  ∧ (∃ d, test_dataloader self
          = mkDataLoader d (batch_size a) None false 4)
  ∧ (∃ d, valid_dataloader self
          = mkDataLoader d (batch_size a) None false 4)
  ∧ (∃ d, entire_dataset self
          = mkDataLoader d (batch_size a * 2) None false 0).
Proof.
  unfold load_rest. intros H.
  apply bind_Ok in H as ([[X_train X_val] X_test] & Hsplit & H).
  apply bind_Ok in H as (train_ds & Htrain & H).
  apply bind_Ok in H as (val_ds & Hval & H).
  apply bind_Ok in H as (test_ds & Htest & H).
  apply bind_Ok in H as (w & Hw & H).
  apply bind_Ok in H as (smp & Hsmp & H).
  apply bind_Ok in H as (dl1 & Hdl1 & H).
  apply bind_Ok in H as (dl2 & Hdl2 & H).
  apply bind_Ok in H as (dl3 & Hdl3 & H).
  cbv zeta in H.
  apply bind_Ok in H as (mlp & Hnet & H).
  apply bind_Ok in H as (total & Htotal & H).
  apply bind_Ok in H as (dl4 & Hdl4 & H).
  injection H as <-. cbn.
  apply DataLoader_init_Ok in Hdl1 as [Hbs ->].
  apply DataLoader_init_Ok in Hdl2 as [_ ->].
  apply DataLoader_init_Ok in Hdl3 as [_ ->].
  apply DataLoader_init_Ok in Hdl4 as [_ ->].
  unfold WeightedRandomSampler_init in Hsmp. case_decide; [done|].
  injection Hsmp as <-.
  split_and!; [by exists train_ds, w|by eexists..].
Qed.

Lemma load_loaders (adata adata' : AnnData) (a : load_args)
    (self : DiscriminatorClassifierSpace) :
  load adata a = (adata', Ok self) →
  (∃ (d : PLDataset) (w : list Q),
     train_weights_of (labels d) = Ok w
     ∧ length w ≠ 0
     ∧ train_dataloader self
       = mkDataLoader d (batch_size a) (Some (mkSampler w (length w)))
                      false 4)
  ∧ (∃ d, test_dataloader self
          = mkDataLoader d (batch_size a) None false 4)
  ∧ (∃ d, valid_dataloader self
          = mkDataLoader d (batch_size a) None false 4)
  ∧ (∃ d, entire_dataset self
          = mkDataLoader d (batch_size a * 2) None false 0).
Proof.
  intros El.
  pose proof El as (lbls & X_train & X_val & X_test & L)%load_Ok.
  rewrite (load_labelled adata a lbls) in El; [|apply L..].
  injection El as _ El. by eapply load_rest_loaders.
Qed.

Lemma length_tensor_of_column (c : column) (rows : list (list Q)) :
  tensor_of_column c = Ok rows → length rows = length c.
Proof.
  revert rows. induction c as [|[s|r] c IH]; intros rows; cbn; [|done|].
  - by intros [= <-].
  - intros (rows' & Hrows & [= <-])%bind_Ok. cbn. f_equal. by apply IH.
Qed.

(** X11. [load] raises for a batch size that is not positive. When it
    returns, the train, validation and test loaders have the batch size
    asked for and the loader of all the data twice that; none shuffles,
    only the train loader has a sampler, and that sampler draws as many
    samples as there are training cells, with one weight per cell. *)
Theorem load_loader_settings (adata : AnnData) (a : load_args) :
  ((batch_size a ≤ 0)%Z → ∃ e, (load adata a).2 = Raise e)
  ∧ ∀ adata' self, load adata a = (adata', Ok self) →
      (0 < batch_size a)%Z
      ∧ dl_batch_size <$> [train_dataloader self; valid_dataloader self;
                           test_dataloader self; entire_dataset self]
        = [batch_size a; batch_size a; batch_size a; (batch_size a * 2)%Z]
      ∧ shuffle <$> [train_dataloader self; valid_dataloader self;
                     test_dataloader self; entire_dataset self]
        = [false; false; false; false]
      ∧ sampler <$> [valid_dataloader self; test_dataloader self;
                     entire_dataset self]
        = [None; None; None]
      ∧ ∃ s, sampler (train_dataloader self) = Some s
             ∧ 0 < num_samples s
             ∧ num_samples s = length (weights s)
             ∧ num_samples s
               = length (labels (dataset (train_dataloader self))).
Proof.
  assert (∀ adata' self, load adata a = (adata', Ok self) →
            (0 < batch_size a)%Z) as Hpos.
  { intros adata' self (lbls & X_train & X_val & X_test & L)%load_Ok.
    apply L. }
  split.
  { intros Hbs.
    destruct (load adata a) as [adata' [self|e]] eqn:El; [|by eexists].
    specialize (Hpos _ _ eq_refl). lia. }
  intros adata' self El. split; [by eapply Hpos|].
  destruct (load_loaders _ _ _ _ El)
    as ((d1 & w & Hw & Hne & H1) & (d2 & H2) & (d3 & H3) & (d4 & H4)).
  rewrite H1, H2, H3, H4. cbn. split_and!; try done.
  exists (mkSampler w (length w)). split; [done|]. cbn.
  unfold train_weights_of in Hw.
  apply bind_Ok in Hw as (rows & Hrows & [= <-]).
  rewrite length_map in *. rewrite (length_tensor_of_column _ _ Hrows) in *.
  split_and!; [lia|done..].
Qed.
End LoadMore.

(** ** The datasets of [load] *)

Section Datasets.
Context `{B : Backend}.

(** The cells a dataset of [load] holds, by index, with the two label
    columns read from the data object that carries the encoded labels. *)
Lemma loaded_dataset_labels (adata adata' : AnnData) (a : load_args)
    (self : DiscriminatorClassifierSpace) (lbls : list string)
    (X_train X_val X_test : list nat) (ds : PLDataset) :
  loaded adata a adata' self lbls X_train X_val X_test →
  ds ∈ datasets self →
  ∃ idx : list nat,
    labels ds = Arr <$> (one_hot (categories lbls) <$> take_rows idx lbls)
    ∧ (target_col a ≠ "encoded_perturbations" →
       pert_labels ds = Str <$> take_rows idx lbls).
Proof.
  intros L Hds.
  pose proof (loaded_labels _ _ _ _ _ _ _ _ L) as Hl.
  pose proof (loaded_adata _ _ _ _ _ _ _ _ L) as Ha.
  assert (∀ idx d,
            PLDataset_init (subset adata' idx) "encoded_perturbations"
              (target_col a) (layer_key a) = Ok d →
            labels d
            = Arr <$> (one_hot (categories lbls) <$> take_rows idx lbls)
            ∧ (target_col a ≠ "encoded_perturbations" →
               pert_labels d = Str <$> take_rows idx lbls)) as Hsub.
  { intros idx d [H1 H2]%PLDataset_init_labels. subst adata'.
    cbn in H1, H2. rewrite lookup_fmap in H1, H2.
    rewrite lookup_insert_eq in H1. cbn in H1. injection H1 as <-.
    split.
    - rewrite take_rows_fmap. unfold fit_transform.
      change (map ?f ?l) with (f <$> l). by rewrite take_rows_fmap.
    - intros Htc. rewrite lookup_insert_ne, Hl in H2 by done. cbn in H2.
      injection H2 as <-. by rewrite take_rows_fmap. }
  unfold datasets in Hds.
  rewrite !elem_of_cons, elem_of_nil in Hds.
  destruct Hds as [->|[->|[->|[->|[]]]]].
  - exists X_train. apply Hsub, L.
  - exists X_val. apply Hsub, L.
  - exists X_test. apply Hsub, L.
  - exists (seq 0 (length lbls)).
    pose proof (loaded_total _ _ _ _ _ _ _ _ L) as [H1 H2]%PLDataset_init_labels.
    subst adata'. cbn in H1, H2. rewrite take_rows_all.
    rewrite lookup_insert_eq in H1. injection H1 as <-. split; [done|].
    intros Htc. rewrite lookup_insert_ne, Hl in H2 by done. by injection H2 as <-.
Qed.

(** X12. For a target column other than 'encoded_perturbations': in
    every dataset of [load] (train, validation, test and all the data) the
    encoded label of an item is the one-hot row of its string label over
    the sorted categories of the target column, and every string label is
    a label of the input. *)
Theorem load_labels_in_step (adata adata' : AnnData) (a : load_args)
    (self : DiscriminatorClassifierSpace) :
  target_col a ≠ "encoded_perturbations" →
  load adata a = (adata', Ok self) →
  ∃ lbls : list string,
    obs adata !! target_col a = Some (Str <$> lbls)
    ∧ ∀ ds, ds ∈ datasets self →
        ∃ ls : list string,
          (∀ l, l ∈ ls → l ∈ lbls)
          ∧ pert_labels ds = Str <$> ls
          ∧ labels ds = Arr <$> (one_hot (categories lbls) <$> ls).
Proof.
  intros Htc (lbls & X_train & X_val & X_test & L)%load_Ok.
  exists lbls. split; [apply L|]. intros ds Hds.
  destruct (loaded_dataset_labels _ _ _ _ _ _ _ _ _ L Hds) as (idx & H1 & H2).
  exists (take_rows idx lbls). split; [apply elem_of_take_rows|].
  split; [by apply H2|done].
Qed.

(** X13. The encoded labels fit the network of [load]: its last module
    is a linear layer with [n_classes] outputs, at least one, and every
    encoded label of every dataset is an array of [n_classes] entries
    that sum to one. *)
Theorem load_encoded_width (adata adata' : AnnData) (a : load_args)
    (self : DiscriminatorClassifierSpace) :
  load adata a = (adata', Ok self) →
  ∃ n_in n_classes : nat,
    0 < n_classes
    ∧ last (network (net self)) = Some (Linear n_in n_classes)
    ∧ ∀ ds v, ds ∈ datasets self → v ∈ labels ds →
        ∃ row : list Q,
          v = Arr row ∧ length row = n_classes ∧ (row_sum row == 1)%Q.
Proof.
  intros (lbls & X_train & X_val & X_test & L)%load_Ok.
  destruct (loaded_network _ _ _ _ _ _ _ _ L) as [Hnet _].
  eexists _, (size (list_to_set lbls : gset string)). split_and!.
  - destruct lbls as [|l lbls]; [by destruct (loaded_nonempty _ _ _ _ _ _ _ _ L)|].
    cbn. rewrite size_union_alt, size_singleton. lia.
  - rewrite Hnet. by rewrite last_snoc.
  - intros ds v Hds Hv.
    destruct (loaded_dataset_labels _ _ _ _ _ _ _ _ _ L Hds) as (idx & H1 & _).
    rewrite H1 in Hv.
    apply list_elem_of_fmap in Hv as (row & -> & Hrow).
    apply list_elem_of_fmap in Hrow as (l & -> & Hl%elem_of_take_rows).
    eexists. split; [done|]. split.
    + unfold one_hot. by rewrite length_map, length_categories.
    + apply row_sum_one_hot; [apply NoDup_categories|].
      by apply elem_of_categories.
Qed.

Lemma load_split_Permutation `{!SplitContract B} (adata : AnnData)
    (a : load_args) (X_train X_val X_test : list nat) :
  load_split adata a = Ok (X_train, X_val, X_test) →
  X_train ++ X_val ++ X_test ≡ₚ seq 0 (n_obs adata).
Proof.
  unfold load_split. intros Hs.
  apply bind_Ok in Hs as (y & _ & Hs).
  apply bind_Ok in Hs as ([[[X0 Xte] y0] yte] & H1 & Hs).
  apply bind_Ok in Hs as ([[[Xtr Xva] ytr] yva] & H2 & Hs).
  injection Hs as -> -> ->.
  destruct (train_test_split _ _ (test_split_size a) _)
    as [[[[? ?] ?] ?]|] eqn:E1; [|done].
  destruct (train_test_split _ _ (validation_split_size a) _)
    as [[[[? ?] ?] ?]|] eqn:E2; [|done].
  injection H1 as -> -> -> ->; injection H2 as -> -> -> ->.
  pose proof (split_Permutation _ _ _ _ _ _ _ _ E1) as P1.
  pose proof (split_Permutation _ _ _ _ _ _ _ _ E2) as P2.
  by rewrite app_assoc, P2, P1.
Qed.

Lemma take_rows_Permutation {A} (idx idx' : list nat) (rows : list A) :
  idx ≡ₚ idx' → take_rows idx rows ≡ₚ take_rows idx' rows.
Proof. intros P. unfold take_rows. by rewrite P. Qed.

(** X14. Under the contract of the split, the train, validation and
    test datasets of [load] together hold the samples and the labels of
    the dataset of all the data, each once, and their lengths add up to
    the number of cells. *)
Theorem load_datasets_partition `{!SplitContract B} (adata adata' : AnnData)
    (a : load_args) (self : DiscriminatorClassifierSpace) :
  AnnData_wf adata →
  load adata a = (adata', Ok self) →
  let train := dataset (train_dataloader self) in
  let val := dataset (valid_dataloader self) in
  let test := dataset (test_dataloader self) in
  let total := dataset (entire_dataset self) in
  data train ++ data val ++ data test ≡ₚ data total
  ∧ labels train ++ labels val ++ labels test ≡ₚ labels total
  ∧ pert_labels train ++ pert_labels val ++ pert_labels test
    ≡ₚ pert_labels total
  ∧ PLDataset_len train + PLDataset_len val + PLDataset_len test
    = n_obs adata.
Proof.
  intros Hwf El.
  apply load_Ok in El as (lbls & X_train & X_val & X_test & L).
  destruct (loaded_data_rows _ _ _ _ _ _ _ _ L) as (_ & Htr & Hva & Hte).
  remember (data (dataset (entire_dataset self))) as m eqn:Hm.
  symmetry in Hm.
  pose proof (load_split_Permutation _ _ _ _ _ (loaded_split _ _ _ _ _ _ _ _ L))
    as P.
  assert (AnnData_wf adata') as Hwf'.
  { rewrite (loaded_adata _ _ _ _ _ _ _ _ L). split; try apply Hwf.
    intros col c. cbn. destruct (decide (col = "encoded_perturbations")) as [->|Hc].
    - rewrite lookup_insert_eq. intros [= <-].
      pose proof (wf_obs _ Hwf _ _ (loaded_labels _ _ _ _ _ _ _ _ L)) as Hlen.
      rewrite length_fmap in Hlen.
      rewrite length_fmap. unfold fit_transform. rewrite length_map.
      exact Hlen.
    - rewrite lookup_insert_ne by done. apply Hwf. }
  destruct (PLDataset_init_wf _ _ _ _ _ Hwf' (loaded_total _ _ _ _ _ _ _ _ L))
    as (Hn & _ & Hnl & Hnp).
  assert (n_obs adata' = n_obs adata) as Hobs
    by (by rewrite (loaded_adata _ _ _ _ _ _ _ _ L)).
  assert (∀ {A} (rows : list A), length rows = n_obs adata' →
            take_rows X_train rows ++ take_rows X_val rows
            ++ take_rows X_test rows ≡ₚ rows) as Hperm.
  { intros A rows Hrows. rewrite <- !take_rows_app.
    rewrite (take_rows_Permutation _ _ _ P), <- Hrows.
    by rewrite take_rows_all. }
  destruct (PLDataset_init_labels _ _ _ _ _ (loaded_total _ _ _ _ _ _ _ _ L))
    as [Hl Hp].
  assert (∀ idx d,
            PLDataset_init (subset adata' idx) "encoded_perturbations"
              (target_col a) (layer_key a) = Ok d →
            labels d = take_rows idx (labels (dataset (entire_dataset self)))
            ∧ pert_labels d
              = take_rows idx (pert_labels (dataset (entire_dataset self))))
    as Hsub.
  { intros idx d [H1 H2]%PLDataset_init_labels.
    cbn in H1, H2. rewrite lookup_fmap in H1, H2.
    rewrite Hl in H1. rewrite Hp in H2. cbn in H1, H2.
    by injection H1 as <-; injection H2 as <-. }
  destruct (Hsub _ _ (loaded_train _ _ _ _ _ _ _ _ L)) as [Hl1 Hp1].
  destruct (Hsub _ _ (loaded_val _ _ _ _ _ _ _ _ L)) as [Hl2 Hp2].
  destruct (Hsub _ _ (loaded_test _ _ _ _ _ _ _ _ L)) as [Hl3 Hp3].
  cbn zeta. rewrite Htr, Hva, Hte, Hl1, Hl2, Hl3, Hp1, Hp2, Hp3.
  assert (take_rows X_train m ++ take_rows X_val m ++ take_rows X_test m
          ≡ₚ m) as Pm by (apply Hperm; by rewrite <- Hm).
  split_and!; try (apply Hperm; by rewrite ?Hm).
  - by rewrite Hm.
  - unfold PLDataset_len. rewrite Htr, Hva, Hte.
    apply Permutation_length in Pm. rewrite !length_app in Pm.
    rewrite <- Hobs, <- Hn, Hm. lia.
Qed.
End Datasets.

(** ** [get_embeddings] and the state of the object *)

Section Object.
Context `{B : Backend}.

(** X15. [get_embeddings] on an object that was loaded and not trained
    raises [AttributeError] (there is no [model] yet) and leaves the
    object as it is. *)
Theorem get_embeddings_before_train (adata adata' : AnnData) (a : load_args)
    (self : DiscriminatorClassifierSpace) :
  load adata a = (adata', Ok self) →
  get_embeddings self = (self, Raise (AttributeError "model")).
Proof.
  intros (lbls & X_train & X_val & X_test & L)%load_Ok.
  unfold get_embeddings. by rewrite (loaded_model _ _ _ _ _ _ _ _ L).
Qed.

Lemma without_perturbations_delete (df : gmap string column) :
  without_perturbations df = delete "perturbations" df.
Proof.
  unfold without_perturbations. case_decide as Hd; [done|].
  symmetry. apply delete_id. by apply not_elem_of_dom.
Qed.

Lemma without_perturbations_idemp (df : gmap string column) :
  without_perturbations (without_perturbations df) = without_perturbations df.
Proof.
  rewrite !without_perturbations_delete. apply delete_delete_eq.
Qed.

(** What a call of [get_embeddings] that gets through its loop leaves and
    returns. *)
Lemma get_embeddings_unfold (self : DiscriminatorClassifierSpace)
    (m : PerturbationClassifier) (pert_adata : AnnData) :
  model self = Some m →
  get_embeddings_loop m None 0 (DataLoader_iter (entire_dataset self))
  = Ok (Some pert_adata) →
  get_embeddings self
  = ({| train_dataloader := train_dataloader self;
        test_dataloader := test_dataloader self;
        valid_dataloader := valid_dataloader self;
        net := net self;
        entire_dataset := entire_dataset self;
        adata_obs := without_perturbations (adata_obs self);
        model := model self |},
     pert_obs ← drop_column
                  (obs pert_adata ∪ without_perturbations (adata_obs self))
                  "encoded_perturbations";
     Ok {| X := X pert_adata;
           obs := pert_obs;
           var_names := var_names pert_adata;
           layers := layers pert_adata |}).
Proof. intros Hm Hloop. unfold get_embeddings. by rewrite Hm, Hloop. Qed.

Lemma get_embeddings_cases (self self' : DiscriminatorClassifierSpace)
    (res : result AnnData) :
  get_embeddings self = (self', res) →
  (self' = self ∧ ∃ e, res = Raise e)
  ∨ ∃ m pert_adata,
      model self = Some m
      ∧ get_embeddings_loop m None 0 (DataLoader_iter (entire_dataset self))
        = Ok (Some pert_adata).
Proof.
  unfold get_embeddings.
  destruct (model self) as [m|];
    [|intros [= <- <-]; left; split; [done|by eexists]].
  destruct (get_embeddings_loop _ _ _ _) as [[pert_adata|]|e] eqn:Hloop;
    [|intros [= <- <-]; left; split; [done|by eexists]..].
  intros _. right. by exists m, pert_adata.
Qed.

(** X16. [get_embeddings] can be repeated: a second call leaves the
    object as the first call left it, and returns or raises the same. *)
Theorem get_embeddings_repeatable (self self' : DiscriminatorClassifierSpace)
    (res : result AnnData) :
  get_embeddings self = (self', res) →
  get_embeddings self' = (self', res).
Proof.
  intros H.
  destruct (get_embeddings_cases _ _ _ H)
    as [[-> _]|(m & pert_adata & Hm & Hloop)]; [done|].
  rewrite (get_embeddings_unfold _ _ _ Hm Hloop) in H.
  injection H as <- <-.
  rewrite (get_embeddings_unfold _ m pert_adata); [|done..].
  cbn. by rewrite without_perturbations_idemp.
Qed.

End Object.

Section Annotations.
Context `{B : Backend}.

(** X18. The data [get_embeddings] returns after [load] and [train]
    carries every observation column of the input other than
    'perturbations' and 'encoded_perturbations' unchanged; it has a column
    'perturbations' and no column 'encoded_perturbations', its variables
    are named "0", "1", ... up to the width of the embedding, and it has
    no layers. *)
Theorem get_embeddings_keeps_annotations (adata adata' : AnnData)
    (a : load_args) (self self' self'' : DiscriminatorClassifierSpace)
    (max_epochs val_epochs_check patience : Z) (r : AnnData) :
  LayerShapes B → AnnData_wf adata →
  load adata a = (adata', Ok self) →
  train self max_epochs val_epochs_check patience = Ok self' →
  get_embeddings self' = (self'', Ok r) →
  (∀ col, col ≠ "perturbations" → col ≠ "encoded_perturbations" →
     obs r !! col = obs adata !! col)
  ∧ obs r !! "encoded_perturbations" = None
  ∧ is_Some (obs r !! "perturbations")
  ∧ var_names r
    = pretty <$> seq 0 (List.last (default [512] (hidden_dim a))
                                  (n_vars adata))
  ∧ layers r = ∅.
Proof.
  intros Hs Hwf El Et Hg.
  destruct (get_embeddings_after_load _ _ _ _ _ _ _ _ Hs Hwf El Et)
    as (lbls & _ & _ & _ & _ & Hirr & Hreg).
  destruct (decide (n_obs adata mod (2 * Z.to_nat (batch_size a)) = 1
                    ∨ List.last (default [512] (hidden_dim a)) (n_vars adata)
                      = 1)) as [Hi|Hr].
  { destruct (Hirr Hi) as [e He]. congruence. }
  destruct Hreg as [s Heq]; [tauto..|].
  rewrite Heq in Hg. injection Hg as _ <-. cbn.
  apply load_Ok in El as (lbls' & X_train & X_val & X_test & L).
  rewrite (loaded_adata _ _ _ _ _ _ _ _ L). cbn.
  split_and!; try done.
  - intros col H1 H2.
    rewrite lookup_delete_ne by done.
    rewrite lookup_union_r by (by apply lookup_singleton_ne).
    rewrite lookup_delete_ne by done. by apply lookup_insert_ne.
  - apply lookup_delete_eq.
  - rewrite lookup_delete_ne by done.
    eexists. apply lookup_union_Some_l. apply lookup_singleton_eq.
Qed.

(** X19. After [load] and [train], [get_embeddings] returns exactly
    when the number of cells is not one more than a multiple of twice the
    batch size and the embedding is not one entry wide; when it raises,
    the object is unchanged. *)
Theorem get_embeddings_returns_iff (adata adata' : AnnData)
    (a : load_args) (self self' : DiscriminatorClassifierSpace)
    (max_epochs val_epochs_check patience : Z) :
  LayerShapes B → AnnData_wf adata →
  load adata a = (adata', Ok self) →
  train self max_epochs val_epochs_check patience = Ok self' →
  ((∃ self'' r, get_embeddings self' = (self'', Ok r))
   ↔ n_obs adata mod (2 * Z.to_nat (batch_size a)) ≠ 1
     ∧ List.last (default [512] (hidden_dim a)) (n_vars adata) ≠ 1)
  ∧ ((∃ self'' e, get_embeddings self' = (self'', Raise e))
     → ∃ e, get_embeddings self' = (self', Raise e)).
Proof.
  intros Hs Hwf El Et.
  destruct (get_embeddings_after_load _ _ _ _ _ _ _ _ Hs Hwf El Et)
    as (lbls & _ & _ & _ & _ & Hirr & Hreg).
  split.
  - split.
    + intros (self'' & r & Hr).
      split; intros Hc; (destruct Hirr as [e He]; [tauto|congruence]).
    + intros [H1 H2]. destruct (Hreg H1 H2) as [self'' Heq]. eauto.
  - intros (self'' & e & He).
    destruct (decide (n_obs adata mod (2 * Z.to_nat (batch_size a)) = 1
                      ∨ List.last (default [512] (hidden_dim a)) (n_vars adata)
                        = 1)) as [Hi|Hr].
    + by apply Hirr.
    + destruct Hreg as [s Heq]; [tauto..|]. congruence.
Qed.
End Annotations.

(** ** The steps of the classifier *)

Lemma one_hot_cons (c : string) (cats : list string) (l : string) :
  one_hot (c :: cats) l
  = (if decide (c = l) then 1%Q else 0%Q) :: one_hot cats l.
Proof. done. Qed.

Lemma argmax_from_absent (cats : list string) (l : string) (best : Q)
    (best_i i : nat) :
  best = 0%Q ∨ best = 1%Q → l ∉ cats →
  argmax_from best best_i i (one_hot cats l) = best_i.
Proof.
  intros Hb. revert i. induction cats as [|c cats IH]; intros i Hl; [done|].
  apply not_elem_of_cons in Hl as [Hc Hl].
  rewrite one_hot_cons, decide_False by done. cbn [argmax_from].
  destruct (Qlt_le_dec best 0) as [Hlt|_]; [|by apply IH].
  by destruct Hb as [-> | ->].
Qed.

Lemma argmax_from_present (cats : list string) (l : string) (best_i i : nat) :
  NoDup cats → l ∈ cats →
  ∃ j, cats !! j = Some l
       ∧ argmax_from 0 best_i i (one_hot cats l) = i + j.
Proof.
  intros Hnd. revert i. induction cats as [|c cats IH]; intros i Hl.
  { by apply elem_of_nil in Hl. }
  apply NoDup_cons in Hnd as [Hc Hnd]. rewrite one_hot_cons.
  destruct (decide (c = l)) as [->|Hne]; cbn [argmax_from].
  - exists 0. split; [done|].
    destruct (Qlt_le_dec 0 1) as [_|Hle]; [|done].
    rewrite argmax_from_absent by (try done; by right). lia.
  - apply elem_of_cons in Hl as [->|Hl]; [done|].
    destruct (IH Hnd (S i) Hl) as (j & Hj & Hi).
    exists (S j). split; [done|].
    destruct (Qlt_le_dec 0 0) as [Hlt|_]; [done|]. rewrite Hi. lia.
Qed.

Lemma argmax_one_hot_index (cats : list string) (l : string) :
  NoDup cats → l ∈ cats →
  ∃ j, argmax (one_hot cats l) = Some j ∧ cats !! j = Some l.
Proof.
  intros Hnd Hl. destruct cats as [|c cats]; [by apply elem_of_nil in Hl|].
  apply NoDup_cons in Hnd as [Hc Hnd]. rewrite one_hot_cons.
  destruct (decide (c = l)) as [->|Hne]; cbn [argmax].
  - exists 0. split; [|done]. f_equal.
    apply argmax_from_absent; [by right|done].
  - apply elem_of_cons in Hl as [->|Hl]; [done|].
    destruct (argmax_from_present cats l 0 1 Hnd Hl) as (j & Hj & Hi).
    exists (S j). split; [|done]. f_equal. rewrite Hi. lia.
Qed.

(** X20. [torch.argmax] undoes the one-hot encoding of [load]: the
    index of the first maximal entry of the encoded row of a label is the
    position of that label among the sorted categories, and no other
    label of the column has that index. *)
Theorem argmax_decodes_one_hot (lbls : list string) (l : string) :
  l ∈ lbls →
  ∃ j, argmax (one_hot (categories lbls) l) = Some j
       ∧ categories lbls !! j = Some l
       ∧ ∀ l', l' ∈ lbls →
           argmax (one_hot (categories lbls) l') = Some j → l' = l.
Proof.
  intros Hl.
  destruct (argmax_one_hot_index (categories lbls) l) as (j & Hj & Hc);
    [apply NoDup_categories|by apply elem_of_categories|].
  exists j. split; [done|]. split; [done|].
  intros l' Hl' Hj'.
  destruct (argmax_one_hot_index (categories lbls) l') as (j' & Hj'' & Hc');
    [apply NoDup_categories|by apply elem_of_categories|].
  congruence.
Qed.

Lemma step_targets_one_hot (cats ls : list string) :
  NoDup cats → (∀ l, l ∈ ls → l ∈ cats) →
  ∃ ts, step_targets (Arr <$> (one_hot cats <$> ls)) = Some ts
        ∧ Forall2 (λ t l, cats !! t = Some l) ts ls.
Proof.
  intros Hnd Hls. unfold step_targets. rewrite tensor_of_column_Arr.
  induction ls as [|l ls IH]; [by exists []|].
  destruct IH as (ts & Hts & Hall).
  { intros l' Hl'. apply Hls. by right. }
  destruct (argmax_one_hot_index cats l Hnd) as (j & Hj & Hc).
  { apply Hls. by left. }
  exists (j :: ts). split; [|by constructor].
  apply mapM_Some. constructor; [done|by apply mapM_Some].
Qed.

Section StepProperties.
Context `{B : Backend}.

(** X21. The class indices of the steps of the classifier, for a batch
    of any dataset of [load] at any indices: the index computed for an
    item is the position of the item's string label among the sorted
    categories. [validation_step] and [test_step] pass these indices and
    the squeezed logits to [cross_entropy], and log the loss as 'val_loss'
    and 'test_loss' with the batch size of the classifier. *)
Theorem step_targets_decode (adata adata' : AnnData) (a : load_args)
    (self : DiscriminatorClassifierSpace) (ds : PLDataset)
    (idx : list nat) :
  target_col a ≠ "encoded_perturbations" →
  load adata a = (adata', Ok self) →
  ds ∈ datasets self →
  ∃ (lbls : list string) (ts : list nat),
    obs adata !! target_col a = Some (Str <$> lbls)
    ∧ step_targets (batch_num_label (collate ds idx)) = Some ts
    ∧ Forall2 (λ t v, ∃ l, v = Str l ∧ categories lbls !! t = Some l)
              ts (batch_str_label (collate ds idx))
    ∧ ∀ (loss : Type) (cross_entropy : tensor → list nat → option loss)
        (m : PerturbationClassifier),
        validation_step cross_entropy m (collate ds idx)
        = (l ← cross_entropy (step_logits m (collate ds idx)) ts;
           Some (l, ("val_loss", l, pc_batch_size m)))
        ∧ test_step cross_entropy m (collate ds idx)
          = (l ← cross_entropy (step_logits m (collate ds idx)) ts;
             Some (l, ("test_loss", l, pc_batch_size m))).
Proof.
  intros Htc (lbls & X_train & X_val & X_test & L)%load_Ok Hds.
  destruct (loaded_dataset_labels _ _ _ _ _ _ _ _ _ L Hds) as (rows & H1 & H2).
  specialize (H2 Htc). cbn. rewrite H1, H2, !take_rows_fmap.
  destruct (step_targets_one_hot (categories lbls)
              (take_rows idx (take_rows rows lbls))) as (ts & Hts & Hall).
  { apply NoDup_categories. }
  { intros l Hl%elem_of_take_rows%elem_of_take_rows.
    by apply elem_of_categories. }
  exists lbls, ts. split; [apply L|]. split; [done|]. split.
  { apply Forall2_fmap_r. eapply Forall2_impl; [exact Hall|]. cbn. eauto. }
  intros loss ce m. unfold validation_step, test_step, evaluation_step. cbn.
  rewrite H1, !take_rows_fmap, Hts. done.
Qed.

Lemma train_loaders (self self' : DiscriminatorClassifierSpace)
    (max_epochs val_epochs_check patience : Z) :
  train self max_epochs val_epochs_check patience = Ok self' →
  train_dataloader self' = train_dataloader self
  ∧ valid_dataloader self' = valid_dataloader self
  ∧ test_dataloader self' = test_dataloader self
  ∧ ∃ m, model self' = Some m
         ∧ pc_net m = net self
         ∧ pc_batch_size m = dl_batch_size (train_dataloader self).
Proof.
  unfold train. intros (m & [= <-] & [= <-])%bind_Ok. cbn.
  split_and!; try done. by eexists.
Qed.

Lemma DataLoader_iter_nonempty_batch (dl : DataLoader) (b : batch) :
  (0 < dl_batch_size dl)%Z →
  b ∈ DataLoader_iter dl → 0 < length (batch_x b).
Proof.
  intros Hbs (idx & -> & Hidx)%list_elem_of_fmap.
  apply elem_of_batch_indices in Hidx as (s & k & -> & Hk & _ & Hn); [|lia].
  cbn. unfold PLDataset_len in Hn. by rewrite length_take_rows_range.
Qed.

(** X22. The logits [validation_step] and [test_step] pass to
    [cross_entropy], for the batches of the validation and test loaders.
    Squeezing keeps the shape of cells by classes when the batch has more
    than one cell and the labels more than one class; a batch of one cell
    is left with the one axis of the classes, and a single class with the
    one axis of the cells. *)
Theorem step_logits_shape (adata adata' : AnnData) (a : load_args)
    (self self' : DiscriminatorClassifierSpace)
    (max_epochs val_epochs_check patience : Z) :
  LayerShapes B →
  load adata a = (adata', Ok self) →
  train self max_epochs val_epochs_check patience = Ok self' →
  ∃ (lbls : list string) (m : PerturbationClassifier),
    obs adata !! target_col a = Some (Str <$> lbls)
    ∧ model self' = Some m
    ∧ ∀ b, b ∈ DataLoader_iter (valid_dataloader self')
           ++ DataLoader_iter (test_dataloader self') →
        let n := length (batch_x b) in
        let n_classes := size (list_to_set lbls : gset string) in
        0 < n
        ∧ shape (step_logits m b) = filter (λ d, d ≠ 1) [n; n_classes]
        ∧ (1 < n → 1 < n_classes → shape (step_logits m b) = [n; n_classes])
        ∧ (n = 1 → 1 < n_classes → shape (step_logits m b) = [n_classes])
        ∧ (1 < n → n_classes = 1 → shape (step_logits m b) = [n]).
Proof.
  intros Hs El (Htr & Hva & Hte & m & Hm & Hnet & _)%train_loaders.
  destruct (load_loaders _ _ _ _ El)
    as (_ & (d2 & H2) & (d3 & H3) & _).
  apply load_Ok in El as (lbls & X_train & X_val & X_test & L).
  exists lbls, m. split; [apply L|]. split; [done|].
  intros b Hb n n_classes.
  pose proof (loaded_batch_size _ _ _ _ _ _ _ _ L) as Hbs.
  assert (0 < n) as Hn.
  { rewrite Hva, Hte in Hb. apply elem_of_app in Hb as [Hb|Hb].
    - eapply DataLoader_iter_nonempty_batch; [|exact Hb]. by rewrite H3.
    - eapply DataLoader_iter_nonempty_batch; [|exact Hb]. by rewrite H2. }
  assert (shape (step_logits m b) = filter (λ d, d ≠ 1) [n; n_classes])
    as Hshape.
  { unfold step_logits, squeeze, stack. cbn [shape].
    rewrite !length_map. fold n. do 3 f_equal.
    destruct (batch_x b) as [|row rows] eqn:Ex; [cbn in Hn; lia|].
    cbn [map n_cols]. unfold PerturbationClassifier_forward.
    rewrite Hnet.
    assert (2 ≤ length ([n_vars adata] ++ default [512] (hidden_dim a)
                         ++ [length (unique lbls)])) as Hlen.
    { rewrite !length_app. cbn [length]. lia. }
    rewrite (length_MLP_forward _ _ _ _ _ _ _ Hs Hlen
               (loaded_net _ _ _ _ _ _ _ _ L)).
    rewrite app_assoc, last_last. apply length_unique. }
  split; [done|]. split; [done|]. rewrite Hshape.
  split_and!.
  - intros Hn1 Hc1. rewrite filter_all; [done|].
    repeat constructor; lia.
  - intros Hn1 Hc1. rewrite Hn1.
    rewrite filter_cons_False, filter_cons_True, filter_nil by lia. done.
  - intros Hn1 Hc1. rewrite Hc1.
    rewrite filter_cons_True, filter_cons_False, filter_nil by lia. done.
Qed.
End StepProperties.

(** ** The executable back end meets the assumptions *)

Lemma demo_shapes : LayerShapes Demo.backend.
Proof.
  intros l x. destruct l; cbn; try done.
  - apply length_replicate.
  - apply length_fmap.
Qed.

Lemma demo_contract : SplitContract Demo.backend.
Proof.
  split; cbn; unfold Demo.demo_split; intros X_ y t s X1 X2 y1 y2;
    case_decide as Hk; try done; intros [= <- <- <- <-].
  - by rewrite take_drop.
  - rewrite length_drop. lia.
Qed.

Lemma demo_cells_wf : AnnData_wf Demo.cells.
Proof.
  split.
  - cbn. repeat constructor.
  - intros col c Hc. cbn in Hc.
    apply lookup_insert_Some in Hc as [[_ <-]|[_ Hc]]; [done|].
    by apply lookup_singleton_Some in Hc as [_ <-].
  - intros k m Hm. cbn in Hm.
    apply lookup_singleton_Some in Hm as [_ <-]. split; [done|].
    repeat constructor.
Qed.

#[local] Existing Instance Demo.backend.

(** ** The properties on the executable back end *)

(** C2: the code does not balance the classes. After
    [load(cells, hidden_dim=[3])] the training cells are ten control cells
    and five knock-out cells, and every one of them has the sampling
    weight one half: a cell of the rarer class has no larger weight. *)
Theorem train_weights_ignore_class_size :
  match (load Demo.cells (Demo.args (Some [3]) 256)).2 with
  | Ok self =>
      pert_labels (dataset (train_dataloader self))
      = [Str "ctrl"; Str "ko"; Str "ko"; Str "ctrl"; Str "ctrl";
         Str "ko"; Str "ctrl"; Str "ctrl"; Str "ctrl"; Str "ko";
         Str "ctrl"; Str "ctrl"; Str "ctrl"; Str "ko"; Str "ctrl"]
      ∧ weights <$> sampler (train_dataloader self)
        = Some (replicate 15 (1 # 2)%Q)
  | Raise _ => False
  end.
Proof. vm_compute. by split. Qed.

(** C3: the code does not return a row per cell for every number of
    cells. With twenty-five cells and a batch size of three, the loader of
    [get_embeddings] has batches of six cells and a last batch of one
    cell; the squeezed embedding of that batch has one axis, [AnnData]
    refuses it, and [get_embeddings] raises instead of returning
    twenty-five rows. *)
Theorem get_embeddings_raises_on_single_cell_batch :
  n_obs Demo.cells = 25
  ∧ Demo.run Demo.cells (Demo.args (Some [3]) 3)
    = Raise (ValueError (NotTwoDimensional 1)).
Proof. by vm_compute. Qed.

(** With a batch size of five, no batch is a single cell, and
    [get_embeddings] returns twenty-five rows. *)
Example get_embeddings_rows_batch_size_five :
  match Demo.run Demo.cells (Demo.args (Some [3]) 5) with
  | Ok r => n_obs r = 25
  | Raise _ => False
  end.
Proof. by vm_compute. Qed.

(** [Demo.args None 256] are the default arguments of [load]. *)
Example demo_args_defaults : Demo.args None 256 = load_defaults.
Proof. reflexivity. Qed.

(** C7 as stated fails: with the default [hidden_dim] the embedding of
    data over two genes has 512 features, which is not fewer than two. *)
Lemma embedding_wider_than_genes :
  n_vars Demo.cells = 2
  ∧ match Demo.run Demo.cells (Demo.args None 256) with
    | Ok r => n_vars r = 512 ∧ ¬ n_vars r < n_vars Demo.cells
    | Raise _ => False
    end.
Proof. vm_compute. split; [done|]. split; [done|lia]. Qed.


(** ** The theorems at [load(cells, hidden_dim=[3], batch_size=5)] *)

(** The theorem of C5 on the twenty-five cells. *)
Lemma load_network_dimensions_witness :
  ∃ adata' self,
    load Demo.cells (Demo.args (Some [3]) 5) = (adata', Ok self)
    ∧ ∃ (lbls : list string) (first_out last_in : nat),
        obs Demo.cells !! target_col (Demo.args (Some [3]) 5)
        = Some (Str <$> lbls)
        ∧ head (network (net self))
          = Some (Linear (n_vars Demo.cells) first_out)
        ∧ last (network (net self))
          = Some (Linear last_in (size (list_to_set lbls : gset string))).
Proof.
  demo_load (Demo.args (Some [3]) 5) adata' self El.
  exists adata', self. split; [done|].
  exact (load_network_dimensions Demo.cells adata' _ self El).
Defined.


(** The theorem of C8 on the twenty-five cells. *)
Lemma load_adds_encoded_column_witness :
  ∃ adata' self,
    load Demo.cells (Demo.args (Some [3]) 5) = (adata', Ok self)
    ∧ ∃ (lbls cats : list string) (encoded : list (list Q)),
        obs Demo.cells !! "perturbations" = Some (Str <$> lbls)
        ∧ Sorted String.le cats ∧ NoDup cats ∧ (∀ l, l ∈ cats ↔ l ∈ lbls)
        ∧ obs adata' !! "encoded_perturbations" = Some (Arr <$> encoded)
        ∧ length encoded = length lbls
        ∧ (∀ i l, lbls !! i = Some l →
             ∃ j, cats !! j = Some l
                  ∧ encoded !! i
                    = Some (<[j := 1%Q]> (replicate (length cats) 0%Q)))
        ∧ X adata' = X Demo.cells
        ∧ var_names adata' = var_names Demo.cells
        ∧ layers adata' = layers Demo.cells
        ∧ (∀ col, col ≠ "encoded_perturbations" →
             obs adata' !! col = obs Demo.cells !! col).
Proof.
  demo_load (Demo.args (Some [3]) 5) adata' self El.
  exists adata', self. split; [done|].
  exact (load_adds_encoded_column Demo.cells adata' _ self El).
Defined.

(** The theorem of C1 on the twenty-five cells, in batches of ten. *)
Lemma get_embeddings_penultimate_layer_witness :
  LayerShapes Demo.backend ∧ AnnData_wf Demo.cells
  ∧ ∃ adata' self self',
      load Demo.cells (Demo.args (Some [3]) 5) = (adata', Ok self)
      ∧ train self 40 5 2 = Ok self'
      ∧ ∃ n_in n_out : nat,
          network (net self)
          = hidden_blocks 0 true false 2 [3] ++ [Linear n_in n_out]
          ∧ (∀ x, MLP_embedding (net self) x
                  = sequential (hidden_blocks 0 true false 2 [3]) x)
          ∧ (∀ x, MLP_forward (net self) x
                  = apply_layer (Linear n_in n_out)
                      (MLP_embedding (net self) x))
          ∧ (∀ self'' r, get_embeddings self' = (self'', Ok r) →
               X r = (λ row, MLP_embedding (net self) (to_float32 <$> row))
                     <$> data (dataset (entire_dataset self)))
          ∧ (n_obs Demo.cells mod (2 * Z.to_nat 5) ≠ 1 →
             List.last [3] (n_vars Demo.cells) ≠ 1 →
             ∃ self'' r, get_embeddings self' = (self'', Ok r)).
Proof.
  split; [exact demo_shapes|]. split; [exact demo_cells_wf|].
  demo_load (Demo.args (Some [3]) 5) adata' self El.
  demo_train self self' Et.
  exists adata', self, self'. split; [done|]. split; [done|].
  exact (get_embeddings_penultimate_layer Demo.cells adata' _ self self'
           40 5 2 demo_shapes demo_cells_wf El Et).
Defined.

(** The theorem of C4 on the twenty-five cells, in batches of ten. *)
Lemma get_embeddings_perturbations_witness :
  LayerShapes Demo.backend ∧ AnnData_wf Demo.cells
  ∧ "perturbations" ≠ "encoded_perturbations"
  ∧ ∃ adata' self self',
      load Demo.cells (Demo.args (Some [3]) 5) = (adata', Ok self)
      ∧ train self 40 5 2 = Ok self'
      ∧ ∃ lbls : list string,
          obs Demo.cells !! "perturbations" = Some (Str <$> lbls)
          ∧ (∀ self'' r, get_embeddings self' = (self'', Ok r) →
               length (X r) = n_obs Demo.cells
               ∧ Forall (λ row, length row = n_vars r) (X r)
               ∧ (∀ col c, obs r !! col = Some c →
                    length c = n_obs Demo.cells)
               ∧ obs r !! "perturbations" = Some (Str <$> lbls))
          ∧ (n_obs Demo.cells mod (2 * Z.to_nat 5) ≠ 1 →
             List.last [3] (n_vars Demo.cells) ≠ 1 →
             ∃ self'' r, get_embeddings self' = (self'', Ok r)).
Proof.
  split; [exact demo_shapes|]. split; [exact demo_cells_wf|].
  split; [done|].
  demo_load (Demo.args (Some [3]) 5) adata' self El.
  demo_train self self' Et.
  exists adata', self, self'. split; [done|]. split; [done|].
  refine (get_embeddings_perturbations Demo.cells adata' _ self self'
            40 5 2 demo_shapes demo_cells_wf _ El Et).
  done.
Defined.

(** The theorem of C7 on the twenty-five cells, in batches of ten. *)
Lemma get_embeddings_feature_dimension_witness :
  LayerShapes Demo.backend ∧ AnnData_wf Demo.cells
  ∧ ∃ adata' self self',
      load Demo.cells (Demo.args (Some [3]) 5) = (adata', Ok self)
      ∧ train self 40 5 2 = Ok self'
      ∧ ∃ width : nat,
          (Some [3] = None → width = 512)
          ∧ (∀ hd h, Some [3] = Some (hd ++ [h]) → width = h)
          ∧ (Some [3] = Some [] → width = n_vars Demo.cells)
          ∧ (∀ self'' r, get_embeddings self' = (self'', Ok r) →
               n_vars r = width ∧ Forall (λ row, length row = width) (X r))
          ∧ (n_obs Demo.cells mod (2 * Z.to_nat 5) ≠ 1 → width ≠ 1 →
             ∃ self'' r, get_embeddings self' = (self'', Ok r)).
Proof.
  split; [exact demo_shapes|]. split; [exact demo_cells_wf|].
  demo_load (Demo.args (Some [3]) 5) adata' self El.
  demo_train self self' Et.
  exists adata', self, self'. split; [done|]. split; [done|].
  exact (get_embeddings_feature_dimension Demo.cells adata' _ self self'
           40 5 2 demo_shapes demo_cells_wf El Et).
Defined.


(** ** The further properties on the twenty-five cells *)

(** The theorem of X1 at the sizes 2, 4, 3, 2 with layer normalisation and a
    last ReLU. *)
Lemma MLP_network_of_sizes_witness :
  ∃ net, MLP_init [2; 4; 3; 2] 0 false true "ReLU" = Ok net
    ∧ ∃ (n_in : nat) (hidden : list nat) (n_out : nat),
        [2; 4; 3; 2] = [n_in] ++ hidden ++ [n_out]
        ∧ network net
          = hidden_blocks 0 false true n_in hidden
            ++ [Linear (List.last hidden n_in) n_out]
        ∧ (∀ x, MLP_embedding net x
                = sequential (hidden_blocks 0 false true n_in hidden) x)
        ∧ (∀ x, MLP_forward net x
                = let y := apply_layer (Linear (List.last hidden n_in) n_out)
                                       (MLP_embedding net x) in
                  if decide ("ReLU" = "ReLU") then apply_layer ReLU y else y).
Proof.
  eexists. split; [reflexivity|].
  apply (MLP_network_of_sizes [2; 4; 3; 2] 0 false true "ReLU");
    [cbn; lia|reflexivity].
Defined.

(** The theorem of X2 at the one size 512. *)
Lemma MLP_short_sizes_witness :
  ∃ net, MLP_init [512] 0 true false "linear" = Ok net
    ∧ network net = []
    ∧ (∀ x, MLP_embedding net x = x)
    ∧ (∀ x, MLP_forward net x
            = if decide ("linear" = "ReLU") then apply_layer ReLU x else x).
Proof.
  eexists. split; [reflexivity|].
  apply (MLP_short_sizes [512] 0 true false "linear"); [cbn; lia|reflexivity].
Defined.

(** The theorem of X4 at the default hyperparameters. *)
Lemma PerturbationClassifier_without_model_witness :
  ∃ self, PerturbationClassifier_new None 256 default_hparams = Ok self
    ∧ network (pc_net self) = []
    ∧ (∀ x, PerturbationClassifier_embedding self x = x)
    ∧ (∀ x, PerturbationClassifier_forward self x
            = if decide (hp_last_layer_act default_hparams = "ReLU")
              then apply_layer ReLU x else x).
Proof.
  eexists. split; [reflexivity|].
  apply (PerturbationClassifier_without_model 256 default_hparams);
    [cbn; lia|reflexivity].
Defined.

(** The theorem of X3 at the sizes 2, 4, 3 and a sample of two entries. *)
Lemma MLP_output_widths_witness :
  LayerShapes Demo.backend
  ∧ ∃ net, MLP_init [2; 4; 3] 0 true false "linear" = Ok net
      ∧ length (@MLP_forward Demo.backend net [5; 7]%Z)
        = List.last [2; 4; 3] 0
      ∧ length (@MLP_embedding Demo.backend net [5; 7]%Z)
        = List.last (removelast [2; 4; 3]) 0.
Proof.
  split; [exact demo_shapes|]. eexists. split; [reflexivity|].
  apply (@MLP_output_widths Demo.backend [2; 4; 3] 0 true false "linear" _
           [5; 7]%Z demo_shapes); [cbn; lia|reflexivity|reflexivity].
Defined.

(** The theorem of X5 at cell 3 of the twenty-five cells, read from their
    layer. *)
Lemma PLDataset_getitem_cell_witness :
  AnnData_wf Demo.cells
  ∧ ∃ d, PLDataset_init Demo.cells "perturbations" "batch" (Some "counts")
         = Ok d
      ∧ 3 < n_obs Demo.cells
      ∧ PLDataset_len d = n_obs Demo.cells
      ∧ ∃ (sample : list num) (num_label str_label : value),
          PLDataset_getitem d (Z.of_nat 3)
          = Some (sample, num_label, str_label)
          ∧ (if decide ("counts" = "") then X Demo.cells !! 3 = Some sample
             else layers Demo.cells !! "counts" ≫= (.!! 3) = Some sample)
          ∧ obs Demo.cells !! "perturbations" ≫= (.!! 3) = Some num_label
          ∧ obs Demo.cells !! "batch" ≫= (.!! 3) = Some str_label.
Proof.
  split; [exact demo_cells_wf|].
  demo_result (PLDataset_init Demo.cells "perturbations" "batch"
                 (Some "counts")) d Hd.
  assert (3 < n_obs Demo.cells) as Hi by (vm_compute; lia).
  exists d. split; [done|]. split; [done|].
  exact (PLDataset_getitem_cell Demo.cells "perturbations" "batch"
           (Some "counts") d 3 demo_cells_wf Hd Hi).
Defined.

(** The theorem of X6 at the index -1. *)
Lemma PLDataset_getitem_bounds_witness :
  AnnData_wf Demo.cells
  ∧ ∃ d, PLDataset_init Demo.cells "perturbations" "batch" None = Ok d
      ∧ let n := Z.of_nat (n_obs Demo.cells) in
        (is_Some (PLDataset_getitem d (-1)) ↔ (- n ≤ -1 < n)%Z)
        ∧ ((- n ≤ -1 < 0)%Z →
           PLDataset_getitem d (-1) = PLDataset_getitem d (-1 + n)).
Proof.
  split; [exact demo_cells_wf|].
  demo_result (PLDataset_init Demo.cells "perturbations" "batch" None) d Hd.
  exists d. split; [done|].
  exact (PLDataset_getitem_bounds Demo.cells "perturbations" "batch" None d
           (-1) demo_cells_wf Hd).
Defined.


(** The theorem of X8 on the cells whose layer is named like an observation
    column. *)
Lemma load_data_source_witness :
  ∃ adata' self,
    load demo_layer_cells (demo_layer_args "counts") = (adata', Ok self)
    ∧ ∃ (m : list (list num)) (X_train X_val X_test : list nat),
        ("counts" ∈ dom (obs demo_layer_cells)
         ∧ if decide ("counts" = "") then m = X demo_layer_cells
           else layers demo_layer_cells !! "counts" = Some m)
        ∧ load_split adata' (demo_layer_args "counts")
          = Ok (X_train, X_val, X_test)
        ∧ data (dataset (entire_dataset self)) = m
        ∧ data (dataset (train_dataloader self)) = take_rows X_train m
        ∧ data (dataset (valid_dataloader self)) = take_rows X_val m
        ∧ data (dataset (test_dataloader self)) = take_rows X_test m.
Proof.
  demo_load_on demo_layer_cells (demo_layer_args "counts") adata' self El.
  exists adata', self. split; [done|].
  exact (load_data_source demo_layer_cells adata' _ self El).
Defined.

(** The theorem of X9 at the layer key "batch", an observation column of
    the twenty-five cells and none of their layers. *)
Lemma load_missing_layer_witness :
  ∃ (lbls : list string) (X_train X_val X_test : list nat),
    let adata' := set_obs Demo.cells "encoded_perturbations"
                    (Arr <$> fit_transform lbls) in
    "batch" ∈ dom (obs Demo.cells)
    ∧ layers Demo.cells !! "batch" = None
    ∧ obs Demo.cells !! "perturbations" = Some (Str <$> lbls)
    ∧ lbls ≠ []
    ∧ load_split adata' (demo_layer_args "batch")
      = Ok (X_train, X_val, X_test)
    ∧ load Demo.cells (demo_layer_args "batch")
      = (adata', Raise (KeyError "batch")).
Proof.
  pose (lbls := (λ i, if (i mod 4 =? 1) || (i =? 2) then "ko" else "ctrl")
                  <$> seq 0 25).
  assert (obs Demo.cells !! "perturbations" = Some (Str <$> lbls)) as Hl
    by demo_equation.
  assert (layers Demo.cells !! "batch" = None) as Hlay by demo_equation.
  assert ("batch" ∈ dom (obs Demo.cells)) as Hdom.
  { apply elem_of_dom. eexists. demo_equation. }
  assert (lbls ≠ []) as Hne by done.
  demo_result (load_split (set_obs Demo.cells "encoded_perturbations"
                             (Arr <$> fit_transform lbls))
                          (demo_layer_args "batch")) s Hs.
  destruct s as [[X_train X_val] X_test].
  exists lbls, X_train, X_val, X_test. cbv zeta.
  split; [done|]. split; [done|]. split; [done|]. split; [done|].
  split; [done|].
  exact (load_missing_layer Demo.cells (demo_layer_args "batch") "batch" lbls
           X_train X_val X_test eq_refl ltac:(done) Hdom Hlay Hl Hne Hs).
Defined.

(** The theorem of X23 on the twenty-five cells. *)
Lemma load_again_witness :
  ∃ adata' self,
    "perturbations" ≠ "encoded_perturbations"
    ∧ load Demo.cells (Demo.args (Some [3]) 5) = (adata', Ok self)
    ∧ (load adata' (Demo.args (Some [3]) 5)).1 = adata'
    ∧ ¬ layer_key_error (load adata' (Demo.args (Some [3]) 5)).2.
Proof.
  demo_load (Demo.args (Some [3]) 5) adata' self El.
  exists adata', self. split; [done|]. split; [done|].
  exact (load_again Demo.cells adata' (Demo.args (Some [3]) 5) self
           ltac:(done) El).
Defined.

(** The theorem of X12 on the twenty-five cells. *)
Lemma load_labels_in_step_witness :
  ∃ adata' self,
    "perturbations" ≠ "encoded_perturbations"
    ∧ load Demo.cells (Demo.args (Some [3]) 5) = (adata', Ok self)
    ∧ ∃ lbls : list string,
        obs Demo.cells !! "perturbations" = Some (Str <$> lbls)
        ∧ ∀ ds, ds ∈ datasets self →
            ∃ ls : list string,
              (∀ l, l ∈ ls → l ∈ lbls)
              ∧ pert_labels ds = Str <$> ls
              ∧ labels ds = Arr <$> (one_hot (categories lbls) <$> ls).
Proof.
  demo_load (Demo.args (Some [3]) 5) adata' self El.
  exists adata', self. split; [done|]. split; [done|].
  exact (load_labels_in_step Demo.cells adata' (Demo.args (Some [3]) 5) self
           ltac:(done) El).
Defined.

(** The theorem of X13 on the twenty-five cells. *)
Lemma load_encoded_width_witness :
  ∃ adata' self,
    load Demo.cells (Demo.args (Some [3]) 5) = (adata', Ok self)
    ∧ ∃ n_in n_classes : nat,
        0 < n_classes
        ∧ last (network (net self)) = Some (Linear n_in n_classes)
        ∧ ∀ ds v, ds ∈ datasets self → v ∈ labels ds →
            ∃ row : list Q,
              v = Arr row ∧ length row = n_classes ∧ (row_sum row == 1)%Q.
Proof.
  demo_load (Demo.args (Some [3]) 5) adata' self El.
  exists adata', self. split; [done|].
  exact (load_encoded_width Demo.cells adata' _ self El).
Defined.

(** The theorem of X14 on the twenty-five cells, with the split of the
    executable back end. *)
Lemma load_datasets_partition_witness :
  SplitContract Demo.backend ∧ AnnData_wf Demo.cells
  ∧ ∃ adata' self,
      load Demo.cells (Demo.args (Some [3]) 5) = (adata', Ok self)
      ∧ let train := dataset (train_dataloader self) in
        let val := dataset (valid_dataloader self) in
        let test := dataset (test_dataloader self) in
        let total := dataset (entire_dataset self) in
        data train ++ data val ++ data test ≡ₚ data total
        ∧ labels train ++ labels val ++ labels test ≡ₚ labels total
        ∧ pert_labels train ++ pert_labels val ++ pert_labels test
          ≡ₚ pert_labels total
        ∧ PLDataset_len train + PLDataset_len val + PLDataset_len test
          = n_obs Demo.cells.
Proof.
  split; [exact demo_contract|]. split; [exact demo_cells_wf|].
  demo_load (Demo.args (Some [3]) 5) adata' self El.
  exists adata', self. split; [done|].
  exact (@load_datasets_partition Demo.backend demo_contract Demo.cells
           adata' _ self demo_cells_wf El).
Defined.

(** The theorem of X15 on the twenty-five cells. *)
Lemma get_embeddings_before_train_witness :
  ∃ adata' self,
    load Demo.cells (Demo.args (Some [3]) 5) = (adata', Ok self)
    ∧ get_embeddings self = (self, Raise (AttributeError "model")).
Proof.
  demo_load (Demo.args (Some [3]) 5) adata' self El.
  exists adata', self. split; [done|].
  exact (get_embeddings_before_train Demo.cells adata' _ self El).
Defined.

(** [get_embeddings] returns after [load(cells, hidden_dim=[3],
    batch_size=5)] and [train]. *)
Ltac demo_get_embeddings adata' self self' self'' r El Et Hg :=
  demo_load (Demo.args (Some [3]) 5) adata' self El;
  demo_train self self' Et;
  assert (∃ self'' r, get_embeddings self' = (self'', Ok r))
    as (self'' & r & Hg)
    by (destruct (get_embeddings_after_load Demo.cells adata' _ self self'
                    40 5 2 demo_shapes demo_cells_wf El Et)
          as (? & _ & _ & _ & _ & _ & Hreg);
        destruct Hreg as [? ?]; [by vm_compute..|by eexists _, _]).

(** The theorem of X16 after [load] and [train] on the twenty-five cells. *)
Lemma get_embeddings_repeatable_witness :
  ∃ adata' self self' self'' r,
    load Demo.cells (Demo.args (Some [3]) 5) = (adata', Ok self)
    ∧ train self 40 5 2 = Ok self'
    ∧ get_embeddings self' = (self'', Ok r)
    ∧ get_embeddings self'' = (self'', Ok r).
Proof.
  demo_get_embeddings adata' self self' self'' r El Et Hg.
  exists adata', self, self', self'', r.
  split; [done|]. split; [done|]. split; [done|].
  exact (get_embeddings_repeatable self' self'' (Ok r) Hg).
Defined.


(** The theorem of X18 on the twenty-five cells. *)
Lemma get_embeddings_keeps_annotations_witness :
  LayerShapes Demo.backend ∧ AnnData_wf Demo.cells
  ∧ ∃ adata' self self' self'' r,
      load Demo.cells (Demo.args (Some [3]) 5) = (adata', Ok self)
      ∧ train self 40 5 2 = Ok self'
      ∧ get_embeddings self' = (self'', Ok r)
      ∧ (∀ col, col ≠ "perturbations" → col ≠ "encoded_perturbations" →
           obs r !! col = obs Demo.cells !! col)
      ∧ obs r !! "encoded_perturbations" = None
      ∧ is_Some (obs r !! "perturbations")
      ∧ var_names r
        = pretty <$> seq 0 (List.last (default [512] (Some [3]))
                                      (n_vars Demo.cells))
      ∧ layers r = ∅.
Proof.
  split; [exact demo_shapes|]. split; [exact demo_cells_wf|].
  demo_get_embeddings adata' self self' self'' r El Et Hg.
  exists adata', self, self', self'', r.
  split; [done|]. split; [done|]. split; [done|].
  exact (get_embeddings_keeps_annotations Demo.cells adata' _ self self' self''
           40 5 2 r demo_shapes demo_cells_wf El Et Hg).
Defined.

(** The theorem of X19 on the twenty-five cells. *)
Lemma get_embeddings_returns_iff_witness :
  LayerShapes Demo.backend ∧ AnnData_wf Demo.cells
  ∧ ∃ adata' self self',
      load Demo.cells (Demo.args (Some [3]) 5) = (adata', Ok self)
      ∧ train self 40 5 2 = Ok self'
      ∧ ((∃ self'' r, get_embeddings self' = (self'', Ok r))
         ↔ n_obs Demo.cells mod (2 * Z.to_nat 5) ≠ 1
           ∧ List.last (default [512] (Some [3])) (n_vars Demo.cells) ≠ 1)
      ∧ ((∃ self'' e, get_embeddings self' = (self'', Raise e))
         → ∃ e, get_embeddings self' = (self', Raise e)).
Proof.
  split; [exact demo_shapes|]. split; [exact demo_cells_wf|].
  demo_load (Demo.args (Some [3]) 5) adata' self El.
  demo_train self self' Et.
  exists adata', self, self'. split; [done|]. split; [done|].
  exact (get_embeddings_returns_iff Demo.cells adata' _ self self'
           40 5 2 demo_shapes demo_cells_wf El Et).
Defined.

(** The theorem of X20 at the labels ko, ctrl, ko. *)
Lemma argmax_decodes_one_hot_witness :
  "ko" ∈ ["ko"; "ctrl"; "ko"]
  ∧ ∃ j, argmax (one_hot (categories ["ko"; "ctrl"; "ko"]) "ko") = Some j
         ∧ categories ["ko"; "ctrl"; "ko"] !! j = Some "ko"
         ∧ ∀ l', l' ∈ ["ko"; "ctrl"; "ko"] →
             argmax (one_hot (categories ["ko"; "ctrl"; "ko"]) l') = Some j →
             l' = "ko".
Proof.
  assert ("ko" ∈ ["ko"; "ctrl"; "ko"]) as Hl by (by left).
  split; [done|].
  exact (argmax_decodes_one_hot ["ko"; "ctrl"; "ko"] "ko" Hl).
Defined.

(** The theorem of X21 at the first three cells of the validation dataset. *)
Lemma step_targets_decode_witness :
  ∃ adata' self,
    "perturbations" ≠ "encoded_perturbations"
    ∧ load Demo.cells (Demo.args (Some [3]) 5) = (adata', Ok self)
    ∧ dataset (valid_dataloader self) ∈ datasets self
    ∧ let b := collate (dataset (valid_dataloader self)) [0; 1; 2] in
      ∃ (lbls : list string) (ts : list nat),
        obs Demo.cells !! "perturbations" = Some (Str <$> lbls)
        ∧ step_targets (batch_num_label b) = Some ts
        ∧ Forall2 (λ t v, ∃ l, v = Str l ∧ categories lbls !! t = Some l)
                  ts (batch_str_label b)
        ∧ ∀ (loss : Type) (cross_entropy : tensor → list nat → option loss)
            (m : PerturbationClassifier),
            validation_step cross_entropy m b
            = (l ← cross_entropy (step_logits m b) ts;
               Some (l, ("val_loss", l, pc_batch_size m)))
            ∧ test_step cross_entropy m b
              = (l ← cross_entropy (step_logits m b) ts;
                 Some (l, ("test_loss", l, pc_batch_size m))).
Proof.
  demo_load (Demo.args (Some [3]) 5) adata' self El.
  assert (dataset (valid_dataloader self) ∈ datasets self) as Hds.
  { unfold datasets. right. left. }
  exists adata', self. split; [done|]. split; [done|]. split; [done|].
  exact (step_targets_decode Demo.cells adata' (Demo.args (Some [3]) 5) self
           _ [0; 1; 2] ltac:(done) El Hds).
Defined.

(** The theorem of X22 on the twenty-five cells. *)
Lemma step_logits_shape_witness :
  LayerShapes Demo.backend
  ∧ ∃ adata' self self',
      load Demo.cells (Demo.args (Some [3]) 5) = (adata', Ok self)
      ∧ train self 40 5 2 = Ok self'
      ∧ ∃ (lbls : list string) (m : PerturbationClassifier),
          obs Demo.cells !! "perturbations" = Some (Str <$> lbls)
          ∧ model self' = Some m
          ∧ ∀ b, b ∈ DataLoader_iter (valid_dataloader self')
                 ++ DataLoader_iter (test_dataloader self') →
              let n := length (batch_x b) in
              let n_classes := size (list_to_set lbls : gset string) in
              0 < n
              ∧ shape (step_logits m b) = filter (λ d, d ≠ 1) [n; n_classes]
              ∧ (1 < n → 1 < n_classes →
                 shape (step_logits m b) = [n; n_classes])
              ∧ (n = 1 → 1 < n_classes →
                 shape (step_logits m b) = [n_classes])
              ∧ (1 < n → n_classes = 1 → shape (step_logits m b) = [n]).
Proof.
  split; [exact demo_shapes|].
  demo_load (Demo.args (Some [3]) 5) adata' self El.
  demo_train self self' Et.
  exists adata', self, self'. split; [done|]. split; [done|].
  exact (step_logits_shape Demo.cells adata' _ self self' 40 5 2
           demo_shapes El Et).
Defined.
